(** * Backtesting engine: simulation loop and performance metrics

    A shallow embedding of [src/backtest/backtest.py] (class
    [BacktestEngine]) and of [fetch_historical_data] from
    [src/data/fetch_market_data.py].

    Modelling conventions.
    - Python floats are idealised as exact rationals ([Q]); the value
      [float('inf')] that the metrics code produces is the constructor
      [PosInf] of [xfloat].  Rounding, NaN and overflow of binary64
      arithmetic are outside the model, except that the power operator
      is kept fallible.
    - A Python exception is the [Raised] case of [outcome]; division of
      Python floats raises [ZeroDivisionError] on a zero divisor.
    - A Python [dict] is an association list in insertion order without
      duplicate keys ([dict_set] overwrites in place or appends).
    - Timestamps are seconds since the epoch ([Z]); a calendar date is a
      day number; [strptime(.., "%Y-%m-%d")] yields midnight of a day.
    - The collaborators that are not part of the embedded source
      (yfinance, NumPy, the ledger class [Portfolio], the indicator
      functions and the [TradingAgent]) are type-class parameters.
    - The field [trace] of the engine state is ghost: it records the calls
      the engine issues to the ledger and the strategy executors it
      enters, so that "issues no trade" can be stated. *)

From Stdlib Require Import List String Ascii ZArith QArith Qabs Qminmax Qround
  Lia Lqa Bool DecimalString Sorted.
Import ListNotations.

Local Open Scope string_scope.
Local Open Scope list_scope.
Local Open Scope Z_scope.
Local Open Scope Q_scope.

(* ------------------------------------------------------------------ *)
(** ** Python values: exceptions, floats, dicts                         *)
(* ------------------------------------------------------------------ *)

Inductive exn : Type :=
| ZeroDivisionError
| OverflowError
| IndexError
| AttributeError
| KeyError (key : string)
| CollaboratorError (msg : string).

Inductive outcome (A : Type) : Type :=
| Returned (a : A)
| Raised (e : exn).

Arguments Returned {A} a.
Arguments Raised {A} e.

Definition bind {A B : Type} (c : outcome A) (k : A -> outcome B) : outcome B :=
  match c with
  | Returned a => k a
  | Raised e => Raised e
  end.

Declare Scope py_scope.
Delimit Scope py_scope with py.
Notation "x <- c ;; k" := (bind c (fun x => k))
  (at level 61, c at next level, right associativity) : py_scope.
Notation "' pat <- c ;; k" := (bind c (fun x => match x with pat => k end))
  (at level 61, pat pattern, c at next level, right associativity) : py_scope.
Local Open Scope py_scope.

Definition completes {A : Type} (c : outcome A) : Prop :=
  exists a, c = Returned a.

(** Truthiness of a list or dict: non-empty. *)
Definition truthy {A : Type} (xs : list A) : bool :=
  match xs with [] => false | _ => true end.

(** [a < b] on floats, as a boolean. *)
Definition Qltb (a b : Q) : bool := negb (Qle_bool b a).

(** [a / b] on Python floats (and on Python ints, true division). *)
Definition py_div (a b : Q) : outcome Q :=
  if Qeq_bool b 0 then Raised ZeroDivisionError else Returned (a / b).

(** The builtin [max(a, b)]: the first argument unless the second is
    strictly greater. *)
Definition py_max (a b : Q) : Q := if Qltb a b then b else a.

(** [sum(xs)] of a list of floats, starting from the int [0]. *)
Definition py_sum (xs : list Q) : Q := fold_left Qplus xs 0.

(** [abs(x)] *)
Definition py_abs (x : Q) : Q := Qabs x.

(** [len(xs)] as a number. *)
Definition py_len {A : Type} (xs : list A) : Q := inject_Z (Z.of_nat (List.length xs)).

(** A float that may be [float('inf')]. *)
Inductive xfloat : Type :=
| Finite (q : Q)
| PosInf.

Definition is_inf (x : xfloat) : bool :=
  match x with PosInf => true | Finite _ => false end.

(** [str(n)] for an int. *)
Definition py_str (n : Z) : string := NilZero.string_of_int (Z.to_int n).

Definition dict (V : Type) : Type := list (string * V).

Fixpoint dict_get {V : Type} (k : string) (d : dict V) : option V :=
  match d with
  | [] => None
  | (k', v) :: rest => if String.eqb k k' then Some v else dict_get k rest
  end.

(** [d[k] = v] *)
Fixpoint dict_set {V : Type} (k : string) (v : V) (d : dict V) : dict V :=
  match d with
  | [] => [(k, v)]
  | (k', v') :: rest =>
      if String.eqb k k' then (k', v) :: rest else (k', v') :: dict_set k v rest
  end.

Definition dict_keys {V : Type} (d : dict V) : list string := map fst d.

(** [k in d] *)
Definition dict_mem {V : Type} (k : string) (d : dict V) : bool :=
  match dict_get k d with Some _ => true | None => false end.

(* ------------------------------------------------------------------ *)
(** ** Historical series                                                *)
(* ------------------------------------------------------------------ *)

(** One bar of a [pandas.DataFrame] with a datetime index; only the
    [Close] column is read by the engine. *)
Record Bar : Type := mkBar { bar_ts : Z; bar_close : Q }.

Definition DataFrame : Type := list Bar.

(** [df.empty] *)
Definition df_empty (df : DataFrame) : bool :=
  match df with [] => true | _ => false end.

Definition seconds_per_day : Z := 86400%Z.

(** The timestamp of midnight of a day number. *)
Definition midnight (day : Z) : Z := (seconds_per_day * day)%Z.

(** The calendar day of a timestamp: what [strftime("%Y-%m-%d")] keeps. *)
Definition day_of (ts : Z) : Z := (ts / seconds_per_day)%Z.

(** [df[(df.index >= lo) & (df.index <= hi)]] *)
Definition df_between (lo hi : Z) (df : DataFrame) : DataFrame :=
  filter (fun b => (lo <=? bar_ts b)%Z && (bar_ts b <=? hi)%Z) df.

(** [df['Close'].values] *)
Definition closes (df : DataFrame) : list Q := map bar_close df.

(* ------------------------------------------------------------------ *)
(** ** src/data/fetch_market_data.py                                    *)
(* ------------------------------------------------------------------ *)

(** yfinance: what [yf.Ticker(ticker).history(period=, interval=)] does for
    a ticker, either a frame or an exception, and the universe file read
    by [get_all_tickers]. *)
Class YFinance : Type := {
  yf_history : string -> string -> string -> outcome DataFrame;
  get_all_tickers : list string
}.

Section FetchMarketData.
Context {Y : YFinance}.

(** The body of the [for ticker in tickers] loop of
    [fetch_historical_data], with the [try]/[except Exception]. *)
Definition fetch_one (period interval : string) (results : dict DataFrame)
    (ticker : string) : dict DataFrame :=
  match yf_history ticker period interval with
  | Returned hist =>
      if df_empty hist then results          (* warning, continue *)
      else dict_set ticker hist results
  | Raised _ => results                      (* except Exception: continue *)
  end.

(** The frame a ticker contributes: none unless its download succeeds
    with data (used to state what the loop keeps). *)
Definition fetched_frame (period interval ticker : string) : option DataFrame :=
  match yf_history ticker period interval with
  | Returned hist => if df_empty hist then None else Some hist
  | Raised _ => None
  end.

Definition fetch_historical_data (tickers : option (list string))
    (period interval : string) : dict DataFrame :=
  let tickers := match tickers with
                 | None => get_all_tickers
                 | Some ts => ts
                 end in
  fold_left (fetch_one period interval) tickers [].

End FetchMarketData.

(* ------------------------------------------------------------------ *)
(** ** Collaborators of the engine                                      *)
(* ------------------------------------------------------------------ *)

(** [Portfolio.get_summary()] *)
Record Summary : Type := mkSummary {
  sum_total_value : Q;
  sum_cash : Q;
  sum_positions_value : Q;
  sum_total_return_pct : Q;
  sum_num_positions : Z
}.

(** The ledger class [portfolio.portfolio.Portfolio], through the members
    the engine uses.  [portfolio_init strategy start] stands for the
    constructor call, whose state file name is built from the strategy
    name and the start date.  The methods are taken to return. *)
Class Ledger : Type := {
  Portfolio : Type;
  Trade : Type;
  portfolio_init : string -> Z -> Portfolio;
  update_prices : Portfolio -> dict Q -> Portfolio;
  buy : Portfolio -> string -> Q -> Q -> Portfolio;
  sell : Portfolio -> string -> Q -> Portfolio;
  positions : Portfolio -> dict Q;
  trades : Portfolio -> list Trade;
  total_value : Portfolio -> Q;
  get_summary : Portfolio -> Summary
}.

(** NumPy, and the power operator of Python floats, which can raise
    [OverflowError]. *)
Class Numeric : Type := {
  py_pow : Q -> Q -> outcome Q;
  np_std : list Q -> Q;
  np_sqrt : Q -> Q;
  np_cov : list Q -> list Q -> Q;      (* np.cov(x, y)[0][1] *)
  np_var : list Q -> Q;
  np_mean : list Q -> Q;
  np_divide : Q -> Q -> Q              (* division of numpy floats: no raise *)
}.

(** One instruction of the decision agent: [ticker], [action], [pct]. *)
Record Action : Type := mkAction {
  act_ticker : option string;
  act_action : option string;
  act_pct : option Q
}.

(** An entry of the [market_data] mapping built for the agent. *)
Record MarketEntry (I L : Type) : Type := mkMarketEntry {
  me_dataframe : I;
  me_latest : L;
  me_total_return : Q
}.

Arguments mkMarketEntry {I L} _ _ _.

(** [data.indicators] and [llm.trading_agent.TradingAgent]; the decision
    is the value of [decision.get("actions", [])], or an exception. *)
Class Agent : Type := {
  Indicators : Type;
  Latest : Type;
  calculate_all_indicators : DataFrame -> Indicators;
  get_latest_indicators : Indicators -> Latest;
  get_trading_decision :
    dict (MarketEntry Indicators Latest) -> Summary -> outcome (list Action)
}.

(* ------------------------------------------------------------------ *)
(** ** src/backtest/backtest.py: state of a [BacktestEngine]            *)
(* ------------------------------------------------------------------ *)

(** One entry of [self.results]. *)
Record DailyResult : Type := mkDailyResult {
  dr_date : Z;
  dr_total_value : Q;
  dr_cash : Q;
  dr_positions_value : Q;
  dr_total_return_pct : Q;
  dr_num_positions : Z
}.

(** Ghost events: calls issued to the ledger, strategy executors entered. *)
Inductive event : Type :=
| CallUpdatePrices (prices : dict Q)
| CallBuy (ticker : string) (pct price : Q)
| CallSell (ticker : string) (price : Q)
| CallGetSummary
| EnterLLM (current_date : Z)
| EnterEqualWeight.

Definition is_trade (ev : event) : bool :=
  match ev with
  | CallBuy _ _ _ | CallSell _ _ => true
  | _ => false
  end.

Definition is_executor (ev : event) : bool :=
  match ev with
  | EnterLLM _ | EnterEqualWeight => true
  | _ => false
  end.

(** The dictionary returned by [_calculate_metrics] when it is not empty. *)
Record Metrics : Type := mkMetrics {
  total_return : Q;
  annualized_return : Q;
  volatility : Q;
  sharpe_ratio : Q;
  sortino_ratio : Q;
  max_drawdown : Q;
  calmar_ratio : Q;
  omega_ratio : xfloat;
  win_rate : Q;
  profit_factor : xfloat;
  num_trades : nat;
  beta : Q;
  alpha : Q;
  equity_curve : list Q;
  drawdown_curve : list Q;
  daily_returns : list Q
}.

(** The dictionary returned by [run_backtest] when it is not empty. *)
Record BacktestResult : Type := mkBacktestResult {
  res_start_date : Z;
  res_end_date : Z;
  res_strategy : string;
  res_initial_capital : Q;
  res_final_value : Q;
  res_total_return : Q;
  res_annualized_return : Q;
  res_sharpe_ratio : Q;
  res_sortino_ratio : Q;
  res_max_drawdown : Q;
  res_calmar_ratio : Q;
  res_omega_ratio : xfloat;
  res_win_rate : Q;
  res_profit_factor : xfloat;
  res_beta : Q;
  res_alpha : Q;
  res_volatility : Q;
  res_num_trades : nat;
  res_equity_curve : list Q;
  res_drawdown_curve : list Q;
  res_daily_returns : list Q;
  res_daily_results : list DailyResult
}.

Definition risk_free_rate : Q := 2 # 100.

Section Engine.
Context {Y : YFinance} {L : Ledger} {N : Numeric} {A : Agent}.

Record BacktestEngine : Type := mkEngine {
  start_date : Z;                 (* day number; the datetime is its midnight *)
  end_date : Z;
  initial_capital : Q;
  tickers : list string;
  rebalance_frequency : string;
  portfolio : option Portfolio;
  results : list DailyResult;
  trace : list event
}.

(** [BacktestEngine.__init__] *)
Definition init (start_date end_date : Z) (initial_capital : Q)
    (tickers : option (list string)) (rebalance_frequency : string)
    : BacktestEngine :=
  mkEngine start_date end_date initial_capital
    (match tickers with
     | None | Some [] => ["SPY"; "QQQ"; "GLD"]
     | Some ts => ts
     end)
    rebalance_frequency None [] [].

Definition set_portfolio (e : BacktestEngine) (p : Portfolio) : BacktestEngine :=
  mkEngine (start_date e) (end_date e) (initial_capital e) (tickers e)
    (rebalance_frequency e) (Some p) (results e) (trace e).

Definition append_result (e : BacktestEngine) (r : DailyResult) : BacktestEngine :=
  mkEngine (start_date e) (end_date e) (initial_capital e) (tickers e)
    (rebalance_frequency e) (portfolio e) (results e ++ [r]) (trace e).

Definition log (e : BacktestEngine) (ev : event) : BacktestEngine :=
  mkEngine (start_date e) (end_date e) (initial_capital e) (tickers e)
    (rebalance_frequency e) (portfolio e) (results e) (trace e ++ [ev]).

(** [self.portfolio.<member>]: [None] has no such attribute. *)
Definition the_portfolio (e : BacktestEngine) : outcome Portfolio :=
  match portfolio e with
  | Some p => Returned p
  | None => Raised AttributeError
  end.

(** [self.portfolio.update_prices(prices)] *)
Definition call_update_prices (e : BacktestEngine) (prices : dict Q)
    : outcome BacktestEngine :=
  p <- the_portfolio e ;;
  Returned (log (set_portfolio e (update_prices p prices)) (CallUpdatePrices prices)).

(** [self.portfolio.buy(ticker, pct, price)] *)
Definition call_buy (e : BacktestEngine) (ticker : string) (pct price : Q)
    : outcome BacktestEngine :=
  p <- the_portfolio e ;;
  Returned (log (set_portfolio e (buy p ticker pct price)) (CallBuy ticker pct price)).

(** [self.portfolio.sell(ticker, price)] *)
Definition call_sell (e : BacktestEngine) (ticker : string) (price : Q)
    : outcome BacktestEngine :=
  p <- the_portfolio e ;;
  Returned (log (set_portfolio e (sell p ticker price)) (CallSell ticker price)).

(** [self.portfolio.get_summary()] *)
Definition call_get_summary (e : BacktestEngine) : outcome (Summary * BacktestEngine) :=
  p <- the_portfolio e ;;
  Returned (get_summary p, log e CallGetSummary).

(** [BacktestEngine.fetch_historical_data]: the module-level fetch over a
    period of [(end - start).days + 60] days, then the window filter. *)
Definition keep_window (e : BacktestEngine) (filtered_data : dict DataFrame)
    (item : string * DataFrame) : dict DataFrame :=
  let df := df_between (midnight (start_date e)) (midnight (end_date e)) (snd item) in
  if df_empty df then filtered_data else dict_set (fst item) df filtered_data.

Definition BacktestEngine_fetch_historical_data (e : BacktestEngine)
    : dict DataFrame :=
  let period := (py_str (end_date e - start_date e + 60) ++ "d")%string in
  let data := fetch_historical_data (Some (tickers e)) period "1d" in
  fold_left (keep_window e) data [].

(** [calculate_indicators_for_date] *)
Definition indicators_entry (current_date : Z)
    (market_data : dict (MarketEntry Indicators Latest))
    (item : string * DataFrame) : dict (MarketEntry Indicators Latest) :=
  let hist := filter (fun b => (bar_ts b <=? current_date)%Z) (snd item) in
  if (List.length hist <? 20)%nat then market_data
  else
    let df_with_ind := calculate_all_indicators hist in
    dict_set (fst item)
      (mkMarketEntry df_with_ind (get_latest_indicators df_with_ind)
         (if (1 <? List.length hist)%nat
          then np_divide (last (closes hist) 0) (hd 0 (closes hist)) - 1
          else 0))
      market_data.

Definition calculate_indicators_for_date (data : dict DataFrame)
    (current_date : Z) : dict (MarketEntry Indicators Latest) :=
  fold_left (indicators_entry current_date) data [].

(** [[(c[i] - c[i-1]) / c[i-1] for i in range(1, len(c))]] on a numpy array. *)
Fixpoint np_step_returns (prev : Q) (rest : list Q) : list Q :=
  match rest with
  | [] => []
  | c :: tl => np_divide (c - prev) prev :: np_step_returns c tl
  end.

(** [_get_benchmark_returns] *)
Definition _get_benchmark_returns (e : BacktestEngine) (data : dict DataFrame)
    (benchmark_ticker : string) : list Q :=
  match dict_get benchmark_ticker data with
  | None => []
  | Some df =>
      let df := df_between (midnight (start_date e)) (midnight (end_date e)) df in
      match closes df with
      | [] => []
      | c0 :: tl => np_step_returns c0 tl
      end
  end.

(** [_get_trading_dates]: the dates of the first ticker inside the window. *)
Definition _get_trading_dates (e : BacktestEngine) (data : dict DataFrame)
    : outcome (list Z) :=
  match data with
  | [] => Raised IndexError                      (* list(data.keys())[0] *)
  | (_, df) :: _ =>
      Returned (filter (fun d => (midnight (start_date e) <=? d)%Z
                                 && (d <=? midnight (end_date e))%Z)
                  (map bar_ts df))
  end.

(** [_get_prices_for_date]: last close of the bars of that calendar day. *)
Definition price_entry (date : Z) (prices : dict Q) (item : string * DataFrame)
    : dict Q :=
  let rows := filter (fun b => (day_of (bar_ts b) =? day_of date)%Z) (snd item) in
  match rows with
  | [] => prices
  | b :: tl => dict_set (fst item) (bar_close (last tl b)) prices
  end.

Definition _get_prices_for_date (data : dict DataFrame) (date : Z) : dict Q :=
  fold_left (price_entry date) data [].

(** [_should_rebalance] *)
Definition _should_rebalance (e : BacktestEngine) (day_index : Z)
    (current_date : Z) : bool :=
  if String.eqb (rebalance_frequency e) "daily" then true
  else if String.eqb (rebalance_frequency e) "weekly"
       then (day_index mod 5 =? 0)%Z
       else false.

(** One iteration of the [for action in decision.get("actions", [])] loop. *)
Definition execute_action (current_prices : dict Q) (e : BacktestEngine)
    (action : Action) : outcome BacktestEngine :=
  match act_ticker action with
  | None => Returned e                       (* None not in current_prices *)
  | Some ticker =>
      match dict_get ticker current_prices with
      | None => Returned e                   (* continue *)
      | Some price =>
          let pct := match act_pct action with Some q => q | None => 0 end in
          match act_action action with
          | Some kind =>
              if String.eqb kind "buy" then call_buy e ticker pct price
              else if String.eqb kind "sell" then call_sell e ticker price
              else Returned e
          | None => Returned e
          end
      end
  end.

Fixpoint execute_actions (current_prices : dict Q) (e : BacktestEngine)
    (actions : list Action) : outcome BacktestEngine :=
  match actions with
  | [] => Returned e
  | a :: rest =>
      e' <- execute_action current_prices e a ;;
      execute_actions current_prices e' rest
  end.

(** [_execute_llm_strategy] *)
Definition _execute_llm_strategy (e : BacktestEngine) (data : dict DataFrame)
    (current_date : Z) (current_prices : dict Q) : outcome BacktestEngine :=
  let e := log e (EnterLLM current_date) in
  let market_data := calculate_indicators_for_date data current_date in
  ' (portfolio_summary, e) <- call_get_summary e ;;
  actions <- get_trading_decision market_data portfolio_summary ;;
  execute_actions current_prices e actions.

(** The [for ticker, price in current_prices.items()] loop of the
    equal-weight executor. *)
Fixpoint buy_each (e : BacktestEngine) (pct_per_ticker : Q) (items : dict Q)
    : outcome BacktestEngine :=
  match items with
  | [] => Returned e
  | (ticker, price) :: rest =>
      e' <- call_buy e ticker pct_per_ticker price ;;
      buy_each e' pct_per_ticker rest
  end.

(** [_execute_equal_weight_strategy] *)
Definition _execute_equal_weight_strategy (e : BacktestEngine)
    (current_prices : dict Q) : outcome BacktestEngine :=
  let e := log e EnterEqualWeight in
  p <- the_portfolio e ;;
  if truthy (positions p) then Returned e
  else
    let n_tickers := List.length current_prices in
    if (n_tickers =? 0)%nat then Returned e
    else
      pct_per_ticker <- py_div 90 (py_len current_prices) ;;
      buy_each e pct_per_ticker current_prices.

(** [_record_daily_result] *)
Definition _record_daily_result (e : BacktestEngine) (date : Z) (prices : dict Q)
    : outcome BacktestEngine :=
  ' (summary, e) <- call_get_summary e ;;
  Returned (append_result e
    (mkDailyResult (day_of date) (sum_total_value summary) (sum_cash summary)
       (sum_positions_value summary) (sum_total_return_pct summary)
       (sum_num_positions summary))).

(** [[(values[i] - values[i-1]) / values[i-1] for i in range(1, len(values))]]
    on Python floats: the first zero divisor raises. *)
Fixpoint step_returns (prev : Q) (rest : list Q) : outcome (list Q) :=
  match rest with
  | [] => Returned []
  | v :: tl =>
      r <- py_div (v - prev) prev ;;
      rs <- step_returns v tl ;;
      Returned (r :: rs)
  end.

Definition returns_of (values : list Q) : outcome (list Q) :=
  match values with
  | [] => Returned []
  | v0 :: tl => step_returns v0 tl
  end.

(** The max-drawdown loop; the state is [(peak, max_drawdown, drawdowns)]. *)
Fixpoint drawdown_loop (values : list Q) (peak max_drawdown : Q)
    (drawdowns : list Q) : outcome (Q * Q * list Q) :=
  match values with
  | [] => Returned (peak, max_drawdown, drawdowns)
  | value :: tl =>
      let peak := if Qltb peak value then value else peak in
      drawdown <- py_div (peak - value) peak ;;
      drawdown_loop tl peak (py_max max_drawdown drawdown)
        (drawdowns ++ [drawdown])
  end.

(** [sum([r for r in returns if r > 0])] *)
Definition sum_gains (rets : list Q) : Q :=
  py_sum (filter (fun r => Qltb 0 r) rets).

(** [sum([abs(r) for r in returns if r < 0])] *)
Definition sum_losses (rets : list Q) : Q :=
  py_sum (map py_abs (filter (fun r => Qltb r 0) rets)).

(** [num / den if den > 0 else float('inf')] *)
Definition ratio_or_inf (num den : Q) : outcome xfloat :=
  if Qltb 0 den then q <- py_div num den ;; Returned (Finite q)
  else Returned PosInf.

(** [num / den if den > 0 else 0] *)
Definition ratio_or_zero (num den : Q) : outcome Q :=
  if Qltb 0 den then py_div num den else Returned 0.

(** The beta/alpha block. *)
Definition beta_alpha (rets : list Q) (annualized_return : Q)
    (benchmark_returns : option (list Q)) : outcome (Q * Q) :=
  match benchmark_returns with
  | None => Returned (0, 0)
  | Some bench =>
      if truthy bench && (List.length bench =? List.length rets)%nat then
        let covariance := np_cov rets bench in
        let benchmark_variance := np_var bench in
        beta <- ratio_or_zero covariance benchmark_variance ;;
        Returned (beta,
                  annualized_return
                  - (risk_free_rate
                     + beta * (np_mean bench * 252 - risk_free_rate)))
      else Returned (0, 0)
  end.

(** [_calculate_metrics]; [None] is the empty dictionary. *)
Definition _calculate_metrics (e : BacktestEngine)
    (benchmark_returns : option (list Q)) : outcome (option Metrics) :=
  if negb (truthy (results e)) then Returned None
  else
    let values := map dr_total_value (results e) in
    rets <- returns_of values ;;
    q <- py_div (last values 0) (initial_capital e) ;;
    let total_return := q - 1 in
    let days := List.length (results e) in
    annualized_return <-
      (if (0 <? days)%nat
       then ex <- py_div 365 (py_len (results e)) ;;
            pw <- py_pow (1 + total_return) ex ;;
            Returned (pw - 1)
       else Returned 0) ;;
    let volatility := if truthy rets then np_std rets * np_sqrt 252 else 0 in
    sharpe_ratio <- ratio_or_zero (annualized_return - risk_free_rate) volatility ;;
    ' (_, max_drawdown, drawdowns) <-
      drawdown_loop values (initial_capital e) 0 [] ;;
    calmar_ratio <- ratio_or_zero annualized_return max_drawdown ;;
    let gains := sum_gains rets in
    let losses := sum_losses rets in
    omega_ratio <- ratio_or_inf gains losses ;;
    let profitable_days := List.length (filter (fun r => Qltb 0 r) rets) in
    win_rate <-
      (if truthy rets
       then py_div (inject_Z (Z.of_nat profitable_days)) (py_len rets)
       else Returned 0) ;;
    let gross_profit := sum_gains rets in
    let gross_loss := sum_losses rets in
    profit_factor <- ratio_or_inf gross_profit gross_loss ;;
    let downside_returns := filter (fun r => Qltb r 0) rets in
    let downside_std :=
      if truthy downside_returns then np_std downside_returns * np_sqrt 252
      else 0 in
    sortino_ratio <- ratio_or_zero (annualized_return - risk_free_rate) downside_std ;;
    ' (beta, alpha) <- beta_alpha rets annualized_return benchmark_returns ;;
    p <- the_portfolio e ;;
    Returned (Some
      (mkMetrics total_return annualized_return volatility sharpe_ratio
         sortino_ratio max_drawdown calmar_ratio omega_ratio win_rate
         profit_factor (List.length (trades p)) beta alpha values drawdowns rets)).

(** The dispatch on a rebalance day (lines 158-163 of the source). *)
Definition rebalance (e : BacktestEngine) (use_llm : bool) (strategy : string)
    (data : dict DataFrame) (current_date : Z) (current_prices : dict Q)
    : outcome BacktestEngine :=
  if String.eqb strategy "llm" && use_llm
  then _execute_llm_strategy e data current_date current_prices
  else if String.eqb strategy "equal_weight"
       then _execute_equal_weight_strategy e current_prices
       else Returned e.           (* buy_and_hold: nothing *)

(** One iteration of the simulation loop. *)
Definition simulate_day (use_llm : bool) (strategy : string)
    (data : dict DataFrame) (e : BacktestEngine) (i : Z) (current_date : Z)
    : outcome BacktestEngine :=
  let current_prices := _get_prices_for_date data current_date in
  e <- call_update_prices e current_prices ;;
  let should_rebalance := _should_rebalance e i current_date in
  e <- (if should_rebalance
        then rebalance e use_llm strategy data current_date current_prices
        else Returned e) ;;
  _record_daily_result e current_date current_prices.

(** [for i, current_date in enumerate(trading_dates)], from index [i]. *)
Fixpoint simulate (use_llm : bool) (strategy : string) (data : dict DataFrame)
    (e : BacktestEngine) (i : Z) (trading_dates : list Z)
    : outcome BacktestEngine :=
  match trading_dates with
  | [] => Returned e
  | current_date :: rest =>
      e' <- simulate_day use_llm strategy data e i current_date ;;
      simulate use_llm strategy data e' (i + 1)%Z rest
  end.

(** [metrics[key]] on the value returned by [_calculate_metrics]. *)
Definition metrics_item {T : Type} (metrics : option Metrics) (key : string)
    (field : Metrics -> T) : outcome T :=
  match metrics with
  | Some m => Returned (field m)
  | None => Raised (KeyError key)
  end.

(** The result dictionary of [run_backtest], built entry by entry. *)
Definition build_result (e : BacktestEngine) (strategy : string)
    (metrics : option Metrics) : outcome BacktestResult :=
  p <- the_portfolio e ;;
  let final_value := total_value p in
  v1 <- metrics_item metrics "total_return" total_return ;;
  v2 <- metrics_item metrics "annualized_return" annualized_return ;;
  v3 <- metrics_item metrics "sharpe_ratio" sharpe_ratio ;;
  v4 <- metrics_item metrics "sortino_ratio" sortino_ratio ;;
  v5 <- metrics_item metrics "max_drawdown" max_drawdown ;;
  v6 <- metrics_item metrics "calmar_ratio" calmar_ratio ;;
  v7 <- metrics_item metrics "omega_ratio" omega_ratio ;;
  v8 <- metrics_item metrics "win_rate" win_rate ;;
  v9 <- metrics_item metrics "profit_factor" profit_factor ;;
  v10 <- metrics_item metrics "beta" beta ;;
  v11 <- metrics_item metrics "alpha" alpha ;;
  v12 <- metrics_item metrics "volatility" volatility ;;
  v13 <- metrics_item metrics "num_trades" num_trades ;;
  v14 <- metrics_item metrics "equity_curve" equity_curve ;;
  v15 <- metrics_item metrics "drawdown_curve" drawdown_curve ;;
  v16 <- metrics_item metrics "daily_returns" daily_returns ;;
  Returned (mkBacktestResult (start_date e) (end_date e) strategy
              (initial_capital e) final_value v1 v2 v3 v4 v5 v6 v7 v8 v9 v10
              v11 v12 v13 v14 v15 v16 (results e)).

(** [run_backtest] after the data fetch of its first statement: [data] is
    the value of [self.fetch_historical_data()].  [None] is the empty
    dictionary returned when no data was fetched. *)
Definition run_backtest_on (e : BacktestEngine) (data : dict DataFrame)
    (use_llm : bool) (strategy benchmark : string)
    : outcome (option BacktestResult * BacktestEngine) :=
  if negb (truthy data) then Returned (None, e)
  else
    let e := set_portfolio e (portfolio_init strategy (start_date e)) in
    trading_dates <- _get_trading_dates e data ;;
    e <- simulate use_llm strategy data e 0%Z trading_dates ;;
    let benchmark_returns := _get_benchmark_returns e data benchmark in
    metrics <- _calculate_metrics e (Some benchmark_returns) ;;
    result <- build_result e strategy metrics ;;
    Returned (Some result, e).

(** [run_backtest] *)
Definition run_backtest (e : BacktestEngine) (use_llm : bool)
    (strategy benchmark : string)
    : outcome (option BacktestResult * BacktestEngine) :=
  run_backtest_on e (BacktestEngine_fetch_historical_data e) use_llm strategy
    benchmark.

End Engine.

(* ------------------------------------------------------------------ *)
(** ** Instances of the collaborators, for the examples                 *)
(* ------------------------------------------------------------------ *)

(** Modelled from the spec: the ledger class [Portfolio] (module
    [portfolio.portfolio]) is not part of the embedded source.  The spec
    gives it cash, open positions and a trade history, mutated only by
    [update_prices] (mark-to-market, no trade), [buy(ticker,
    pct_of_portfolio, price)] and [sell(ticker, price)], starting from the
    initial capital with zero positions; a buy of [pct] percent spends
    that share of the total value (10000 at 30 percent is 3000 notional). *)
Record SpecPortfolio : Type := mkSpecPortfolio {
  sp_initial : Q;
  sp_cash : Q;
  sp_positions : dict Q;            (* ticker -> shares *)
  sp_last_price : dict Q;
  sp_trades : list (string * string)
}.

Definition sp_price (p : SpecPortfolio) (ticker : string) : Q :=
  match dict_get ticker (sp_last_price p) with Some q => q | None => 0 end.

Definition sp_positions_value (p : SpecPortfolio) : Q :=
  py_sum (map (fun item => snd item * sp_price p (fst item)) (sp_positions p)).

Definition sp_total_value (p : SpecPortfolio) : Q :=
  sp_cash p + sp_positions_value p.

Definition sp_init (strategy : string) (start : Z) : SpecPortfolio :=
  mkSpecPortfolio 10000 10000 [] [] [].

Definition sp_update_prices (p : SpecPortfolio) (prices : dict Q) : SpecPortfolio :=
  mkSpecPortfolio (sp_initial p) (sp_cash p) (sp_positions p)
    (fold_left (fun d item => dict_set (fst item) (snd item) d) prices
       (sp_last_price p))
    (sp_trades p).

Definition sp_buy (p : SpecPortfolio) (ticker : string) (pct price : Q)
    : SpecPortfolio :=
  let amount := sp_total_value p * pct / 100 in
  if Qle_bool price 0 || Qltb (sp_cash p) amount then p
  else
    let held := match dict_get ticker (sp_positions p) with
                | Some q => q
                | None => 0
                end in
    mkSpecPortfolio (sp_initial p) (sp_cash p - amount)
      (dict_set ticker (held + amount / price) (sp_positions p))
      (dict_set ticker price (sp_last_price p))
      (sp_trades p ++ [("buy", ticker)]).

Definition sp_sell (p : SpecPortfolio) (ticker : string) (price : Q)
    : SpecPortfolio :=
  match dict_get ticker (sp_positions p) with
  | None => p
  | Some shares =>
      mkSpecPortfolio (sp_initial p) (sp_cash p + shares * price)
        (filter (fun item => negb (String.eqb (fst item) ticker)) (sp_positions p))
        (dict_set ticker price (sp_last_price p))
        (sp_trades p ++ [("sell", ticker)])
  end.

Definition sp_summary (p : SpecPortfolio) : Summary :=
  mkSummary (sp_total_value p) (sp_cash p) (sp_positions_value p)
    ((sp_total_value p / sp_initial p - 1) * 100)
    (Z.of_nat (List.length (sp_positions p))).

#[export] Instance SpecLedger : Ledger := {
  Portfolio := SpecPortfolio;
  Trade := (string * string)%type;
  portfolio_init := sp_init;
  update_prices := sp_update_prices;
  buy := sp_buy;
  sell := sp_sell;
  positions := sp_positions;
  trades := sp_trades;
  total_value := sp_total_value;
  get_summary := sp_summary
}.

(** A rational stand-in for the square root: rounded down to six decimals. *)
Definition approx_sqrt (q : Q) : Q :=
  inject_Z (Z.sqrt (Qfloor (q * 1000000000000))) / 1000000.

Definition exact_mean (xs : list Q) : Q :=
  match xs with [] => 0 | _ => py_sum xs / py_len xs end.

Definition exact_var (xs : list Q) : Q :=
  let m := exact_mean xs in
  exact_mean (map (fun x => (x - m) * (x - m)) xs).

Definition exact_cov (xs ys : list Q) : Q :=
  let mx := exact_mean xs in
  let my := exact_mean ys in
  py_sum (map (fun xy => (fst xy - mx) * (snd xy - my)) (combine xs ys))
  / (py_len xs - 1).

(** The magnitude from which a binary64 result is out of range. *)
Definition float_range : Q := inject_Z (2 ^ 1024).

(** The power of Python floats where the exponent is an integer: exact,
    [ZeroDivisionError] for a negative power of zero and [OverflowError]
    for a result out of the binary64 range.  Other exponents are not
    rational-valued and are refused by this instance. *)
Definition exact_pow (x y : Q) : outcome Q :=
  let y' := Qred y in
  if (Qden y' =? 1)%positive then
    if Qeq_bool x 0 && (Qnum y' <? 0)%Z then Raised ZeroDivisionError
    else
      let r := Qpower x (Qnum y') in
      if Qltb (Qabs r) float_range then Returned r else Raised OverflowError
  else Raised (CollaboratorError "power with a fractional exponent").

#[export] Instance ExactNumeric : Numeric := {
  py_pow := exact_pow;
  np_std := fun xs => approx_sqrt (exact_var xs);
  np_sqrt := approx_sqrt;
  np_cov := exact_cov;
  np_var := exact_var;
  np_mean := exact_mean;
  np_divide := Qdiv
}.

(** An agent that asks for half of the portfolio in the first asset it
    sees, and indicator functions that compute nothing. *)
#[export] Instance ScriptedAgent : Agent := {
  Indicators := unit;
  Latest := unit;
  calculate_all_indicators := fun _ => tt;
  get_latest_indicators := fun _ => tt;
  get_trading_decision := fun _ _ =>
    Returned [mkAction (Some "SPY") (Some "buy") (Some 50)]
}.

(** Daily bars (midnight timestamps) from day [day] on, one per close. *)
Fixpoint bars_from (day : Z) (prices : list Q) : DataFrame :=
  match prices with
  | [] => []
  | c :: tl => mkBar (midnight day) c :: bars_from (day + 1)%Z tl
  end.

(** A data source with two healthy tickers, one that comes back empty and
    one whose download raises. *)
#[export] Instance ScriptedYFinance : YFinance := {
  yf_history := fun ticker _ _ =>
    if String.eqb ticker "SPY" then Returned (bars_from 100 [100; 102; 101; 105; 104])
    else if String.eqb ticker "QQQ" then Returned (bars_from 100 [100; 99; 103; 103; 106])
    else if String.eqb ticker "GLD" then Returned []
    else Raised (CollaboratorError "download failed");
  get_all_tickers := ["SPY"; "QQQ"; "GLD"; "XXX"]
}.

(** An engine over days 100..104 of the scripted source. *)
Definition demo_engine (frequency : string) : BacktestEngine :=
  init 100 104 10000 (Some ["SPY"; "QQQ"; "GLD"; "XXX"]) frequency.

(** A data mapping whose reference (first) series has a single bar, on day
    10, that is, before the window of [demo_engine]. *)
Definition stale_data : dict DataFrame := [("SPY", bars_from 10 [100])].

(** An engine in the middle of a run: a fresh ledger and the given daily
    total values already recorded. *)
Definition recorded (day : Z) (value : Q) : DailyResult :=
  mkDailyResult day value value 0 0 0.

Fixpoint recorded_from (day : Z) (values : list Q) : list DailyResult :=
  match values with
  | [] => []
  | v :: tl => recorded day v :: recorded_from (day + 1)%Z tl
  end.

Definition engine_with (capital : Q) (values : list Q) : BacktestEngine :=
  mkEngine 100 104 capital ["SPY"] "daily" (Some (sp_init "buy_and_hold" 100))
    (recorded_from 100 values) [].

(** Five recorded days that end where they started, with a benchmark
    series of the matching length, and the report computed for them. *)
Definition sample_values : list Q := [100; 110; 99; 100; 100].

Definition sample_benchmark : list Q := [1 # 100; -1 # 100; 2 # 100; 0].

Definition empty_report : Metrics :=
  mkMetrics 0 0 0 0 0 0 0 PosInf 0 PosInf 0 0 0 [] [] [].

Definition sample_report : Metrics :=
  Eval vm_compute in
    match _calculate_metrics (engine_with 100 sample_values)
            (Some sample_benchmark) with
    | Returned (Some m) => m
    | _ => empty_report
    end.

(** A snapshot of three assets at 100 each. *)
Definition three_assets : dict Q := [("SPY", 100); ("QQQ", 100); ("GLD", 100)].

(* ------------------------------------------------------------------ *)
(** ** Notions used to state the properties                             *)
(* ------------------------------------------------------------------ *)

Section Notions.
Context {L : Ledger}.

(** The configuration of an engine, which no method changes. *)
Definition same_config (e e' : BacktestEngine) : Prop :=
  start_date e' = start_date e /\ end_date e' = end_date e /\
  initial_capital e' = initial_capital e /\ tickers e' = tickers e /\
  rebalance_frequency e' = rebalance_frequency e.

(** The ledger after marking it to market on each date in turn. *)
Definition mark_to_market (data : dict DataFrame) (p : Portfolio)
    (dates : list Z) : Portfolio :=
  fold_left (fun p d => update_prices p (_get_prices_for_date data d)) dates p.

(** The ledger calls of days on which no strategy executor runs. *)
Definition idle_events (data : dict DataFrame) (dates : list Z) : list event :=
  flat_map (fun d => [CallUpdatePrices (_get_prices_for_date data d);
                      CallGetSummary]) dates.

(** The dispatch of a rebalance day reaches no executor. *)
Definition idle_dispatch (use_llm : bool) (strategy : string) : bool :=
  negb (String.eqb strategy "llm" && use_llm)
  && negb (String.eqb strategy "equal_weight").

(** The running peak at index [i]: the maximum of the initial capital and
    of the values up to and including index [i]. *)
Definition running_peak (capital : Q) (values : list Q) (i : nat) : Q :=
  fold_left Qmax (firstn (S i) values) capital.

(** The buys of the equal-weight executor for a snapshot. *)
Definition equal_weight_buys (pct : Q) (prices : dict Q) : list event :=
  map (fun item => CallBuy (fst item) pct (snd item)) prices.

Definition buy_all (pct : Q) (prices : dict Q) (p : Portfolio) : Portfolio :=
  fold_left (fun p item => buy p (fst item) pct (snd item)) prices p.

End Notions.

(* ------------------------------------------------------------------ *)
(** ** src/data/fetch_market_data.py: universe and current prices       *)
(* ------------------------------------------------------------------ *)

Module UniverseConfig.

(** An asset of [config/universe.json]: a JSON object of strings. *)
Definition Asset : Type := dict string.

(** The universe: category name to list of assets. *)
Definition Universe : Type := dict (list Asset).

(** [asset[key]] *)
Definition item (asset : Asset) (key : string) : outcome string :=
  match dict_get key asset with
  | Some v => Returned v
  | None => Raised (KeyError key)
  end.

(** [load_universe]; [file] is the parsed content of the configuration
    file, [None] when the file does not exist. *)
Definition load_universe (file : option Universe) : Universe :=
  match file with
  | None => []                       (* warning, empty universe *)
  | Some universe => universe
  end.

(** [for asset in category: tickers.append(asset["ticker"])] *)
Fixpoint append_tickers (tickers : list string) (category : list Asset)
    : outcome (list string) :=
  match category with
  | [] => Returned tickers
  | asset :: rest =>
      t <- item asset "ticker" ;;
      append_tickers (tickers ++ [t]) rest
  end.

Fixpoint all_tickers_loop (tickers : list string) (categories : list (list Asset))
    : outcome (list string) :=
  match categories with
  | [] => Returned tickers
  | category :: rest =>
      tickers' <- append_tickers tickers category ;;
      all_tickers_loop tickers' rest
  end.

(** [get_all_tickers] *)
Definition get_all_tickers (file : option Universe) : outcome (list string) :=
  all_tickers_loop [] (map snd (load_universe file)).

(** [for asset in category: names[asset["ticker"]] = asset["name"]]; the
    right-hand side is evaluated before the subscript. *)
Fixpoint add_names (names : dict string) (category : list Asset)
    : outcome (dict string) :=
  match category with
  | [] => Returned names
  | asset :: rest =>
      name <- item asset "name" ;;
      t <- item asset "ticker" ;;
      add_names (dict_set t name names) rest
  end.

Fixpoint names_loop (names : dict string) (categories : list (list Asset))
    : outcome (dict string) :=
  match categories with
  | [] => Returned names
  | category :: rest =>
      names' <- add_names names category ;;
      names_loop names' rest
  end.

(** [get_ticker_names] *)
Definition get_ticker_names (file : option Universe) : outcome (dict string) :=
  names_loop [] (map snd (load_universe file)).

(** [get_tickers_by_category] *)
Definition get_tickers_by_category (file : option Universe) (category : string)
    : outcome (list string) :=
  append_tickers []
    (match dict_get category (load_universe file) with
     | Some assets => assets
     | None => []
     end).

End UniverseConfig.

Section FetchCurrentPrices.
Context {Y : YFinance}.

(** [hist["Close"].iloc[-1]] of a non-empty frame. *)
Definition last_close (hist : DataFrame) : Q := bar_close (last hist (mkBar 0 0)).

(** The body of the loop of [fetch_current_prices]: the one-minute bars of
    the day, else the daily bars of five days (the default interval),
    else [None]; any exception also gives [None]. *)
Definition fetch_current_one (results : dict (option Q)) (ticker : string)
    : dict (option Q) :=
  match yf_history ticker "1d" "1m" with
  | Raised _ => dict_set ticker None results
  | Returned hist =>
      match (if df_empty hist then yf_history ticker "5d" "1d"
             else Returned hist) with
      | Raised _ => dict_set ticker None results
      | Returned hist =>
          if df_empty hist then dict_set ticker None results
          else dict_set ticker (Some (last_close hist)) results
      end
  end.

(** The value [fetch_current_prices] records for a ticker. *)
Definition recorded_price (ticker : string) : option Q :=
  match dict_get ticker (fetch_current_one [] ticker) with
  | Some v => v
  | None => None
  end.

(** [fetch_current_prices] *)
Definition fetch_current_prices (tickers : option (list string))
    : dict (option Q) :=
  let tickers := match tickers with
                 | None => get_all_tickers
                 | Some ts => ts
                 end in
  fold_left fetch_current_one tickers [].

End FetchCurrentPrices.

(* ------------------------------------------------------------------ *)
(** ** src/backtest/backtest.py: the comparison sweep                   *)
(* ------------------------------------------------------------------ *)

Section Comparison.
Context {Y : YFinance} {L : Ledger} {N : Numeric} {A : Agent}.

(** [print_backtest_report]: what reaches the standard output is kept as
    the list of the strategies whose report was printed; an empty result
    is logged as an error and prints nothing. *)
Definition print_backtest_report (result : option BacktestResult)
    (strategy_name : string) (stdout : list string) : list string :=
  match result with
  | None => stdout
  | Some _ => stdout ++ [strategy_name]
  end.

(** The [for strategy in strategies] loop of [run_comparison_backtest]:
    a new engine per strategy, daily rebalancing, default capital. *)
Fixpoint comparison_loop (start_date end_date : Z) (tickers : list string)
    (strategies : list string) (results : dict (option BacktestResult))
    (stdout : list string)
    : outcome (dict (option BacktestResult) * list string) :=
  match strategies with
  | [] => Returned (results, stdout)
  | strategy :: rest =>
      let engine := init start_date end_date 10000 (Some tickers) "daily" in
      let use_llm := String.eqb strategy "llm" in
      ' (result, _) <- run_backtest engine use_llm strategy "SPY" ;;
      comparison_loop start_date end_date tickers rest
        (dict_set strategy result results)
        (print_backtest_report result strategy stdout)
  end.

(** [run_comparison_backtest] *)
Definition run_comparison_backtest (start_date end_date : Z)
    (tickers : option (list string)) (include_llm : bool)
    : outcome (dict (option BacktestResult) * list string) :=
  let tickers := match tickers with
                 | None | Some [] => ["SPY"; "QQQ"; "GLD"]
                 | Some ts => ts
                 end in
  let strategies := ["buy_and_hold"; "equal_weight"]
                    ++ (if include_llm then ["llm"] else []) in
  comparison_loop start_date end_date tickers strategies [] [].

End Comparison.

(* ------------------------------------------------------------------ *)
(** ** Further notions used to state properties                         *)
(* ------------------------------------------------------------------ *)

Section MoreNotions.
Context {L : Ledger}.

(** The data as known at the end of the calendar day of [date]. *)
Definition truncate_data (date : Z) (data : dict DataFrame) : dict DataFrame :=
  map (fun item =>
         (fst item,
          filter (fun b => (day_of (bar_ts b) <=? day_of date)%Z) (snd item)))
    data.

(** The same engine state under another initial capital. *)
Definition with_capital (capital : Q) (e : BacktestEngine) : BacktestEngine :=
  mkEngine (start_date e) (end_date e) capital (tickers e)
    (rebalance_frequency e) (portfolio e) (results e) (trace e).

Definition map_outcome {X W : Type} (f : X -> W) (c : outcome X) : outcome W :=
  match c with
  | Returned a => Returned (f a)
  | Raised ex => Raised ex
  end.

(** The bars of a frame on the calendar day of [date]. *)
Definition bars_on (date : Z) (df : DataFrame) : DataFrame :=
  filter (fun b => (day_of (bar_ts b) =? day_of date)%Z) df.

(** The ledger call an agent instruction leads to, if any. *)
Definition action_event (current_prices : dict Q) (action : Action)
    : option event :=
  match act_ticker action with
  | None => None
  | Some ticker =>
      match dict_get ticker current_prices with
      | None => None
      | Some price =>
          match act_action action with
          | Some kind =>
              if String.eqb kind "buy"
              then Some (CallBuy ticker
                           (match act_pct action with Some q => q | None => 0 end)
                           price)
              else if String.eqb kind "sell" then Some (CallSell ticker price)
              else None
          | None => None
          end
      end
  end.

Fixpoint action_events (current_prices : dict Q) (actions : list Action)
    : list event :=
  match actions with
  | [] => []
  | a :: rest =>
      match action_event current_prices a with
      | Some ev => ev :: action_events current_prices rest
      | None => action_events current_prices rest
      end
  end.

(** The asset and price of a trade call. *)
Definition trade_of (ev : event) : option (string * Q) :=
  match ev with
  | CallBuy ticker _ price | CallSell ticker price => Some (ticker, price)
  | _ => None
  end.

(** [e'] is [e] after calls to the ledger only: the configuration and the
    results are the same, the trace is longer, a ledger stays in place. *)
Definition ledger_step (e e' : BacktestEngine) : Prop :=
  same_config e e'
  /\ results e' = results e
  /\ (exists evs, trace e' = trace e ++ evs)
  /\ (portfolio e <> None -> portfolio e' <> None).

(** The gross profit and the gross loss of a return series, element by
    element: each return counts for its positive part, or for the
    absolute value of its negative part. *)
Fixpoint sum_of_positive (rets : list Q) : Q :=
  match rets with
  | [] => 0
  | r :: tl => Qmax r 0 + sum_of_positive tl
  end.

Fixpoint sum_of_abs_negative (rets : list Q) : Q :=
  match rets with
  | [] => 0
  | r :: tl => Qmax (- r) 0 + sum_of_abs_negative tl
  end.

(** A report, and a result dictionary, under other values of beta and
    alpha. *)
Definition metrics_with_beta_alpha (b a : Q) (m : Metrics) : Metrics :=
  mkMetrics (total_return m) (annualized_return m) (volatility m)
    (sharpe_ratio m) (sortino_ratio m) (max_drawdown m) (calmar_ratio m)
    (omega_ratio m) (win_rate m) (profit_factor m) (num_trades m) b a
    (equity_curve m) (drawdown_curve m) (daily_returns m).

Definition with_beta_alpha (b a : Q) (res : BacktestResult) : BacktestResult :=
  mkBacktestResult (res_start_date res) (res_end_date res) (res_strategy res)
    (res_initial_capital res) (res_final_value res) (res_total_return res)
    (res_annualized_return res) (res_sharpe_ratio res) (res_sortino_ratio res)
    (res_max_drawdown res) (res_calmar_ratio res) (res_omega_ratio res)
    (res_win_rate res) (res_profit_factor res) b a (res_volatility res)
    (res_num_trades res) (res_equity_curve res) (res_drawdown_curve res)
    (res_daily_returns res) (res_daily_results res).

(** What a run yields, with the comparison against the benchmark switched
    off: beta and alpha of the result, if any, are 0. *)
Definition without_comparison (run : option BacktestResult * BacktestEngine)
    : option BacktestResult * BacktestEngine :=
  (option_map (with_beta_alpha 0 0) (fst run), snd run).

End MoreNotions.

(** A universe file for the examples. *)
Definition sample_universe : UniverseConfig.Universe :=
  [("etf", [[("ticker", "SPY"); ("name", "S&P 500")];
            [("ticker", "QQQ"); ("name", "Nasdaq 100")]]);
   ("commodity", [[("ticker", "GLD"); ("name", "Gold")]])].

(** A universe file with an asset that lacks its ticker. *)
Definition broken_universe : UniverseConfig.Universe :=
  [("etf", [[("ticker", "SPY"); ("name", "S&P 500")];
            [("name", "Unnamed")]])].

(** An agent whose decision call fails. *)
Definition FailingAgent : Agent := {|
  Indicators := unit;
  Latest := unit;
  calculate_all_indicators := fun _ => tt;
  get_latest_indicators := fun _ => tt;
  get_trading_decision := fun _ _ => Raised (CollaboratorError "agent unavailable")
|}.

(** Twenty days of one asset, three of another. *)
Definition twenty_days : dict DataFrame :=
  [("SPY", bars_from 81 (repeat 100 20)); ("NEW", bars_from 98 [50; 51; 52])].

Definition empty_result : BacktestResult :=
  mkBacktestResult 0 0 "" 0 0 0 0 0 0 0 0 PosInf 0 PosInf 0 0 0 0 [] [] [] [].

(** The buy-and-hold run of the demo engine on the scripted source. *)
Definition sample_run_result : BacktestResult :=
  Eval vm_compute in
    match run_backtest (demo_engine "daily") false "buy_and_hold" "SPY" with
    | Returned (Some r, _) => r
    | _ => empty_result
    end.

Definition sample_run_engine : BacktestEngine :=
  Eval vm_compute in
    match run_backtest (demo_engine "daily") false "buy_and_hold" "SPY" with
    | Returned (_, e) => e
    | Raised _ => demo_engine "daily"
    end.

(** An engine whose window, days 200..204, lies after every bar of the
    scripted source. *)
Definition late_engine : BacktestEngine :=
  init 200 204 10000 (Some ["SPY"; "QQQ"]) "daily".

(** The same run measured against a benchmark that was not fetched. *)
Definition unbenchmarked_run : BacktestResult * BacktestEngine :=
  Eval vm_compute in
    match run_backtest (demo_engine "daily") false "buy_and_hold" "GLD" with
    | Returned (Some r, e) => (r, e)
    | _ => (empty_result, demo_engine "daily")
    end.

(** Reports for an equity curve that only rises and for a flat one. *)
Definition rising_values : list Q := [100; 101; 105; 105; 110].

Definition rising_report : Metrics :=
  Eval vm_compute in
    match _calculate_metrics (engine_with 100 rising_values) None with
    | Returned (Some m) => m
    | _ => empty_report
    end.

Definition flat_values : list Q := [100; 100; 100; 100; 100].

Definition flat_report : Metrics :=
  Eval vm_compute in
    match _calculate_metrics (engine_with 100 flat_values) None with
    | Returned (Some m) => m
    | _ => empty_report
    end.

(** The comparison sweep of the two baseline strategies. *)
Definition sample_comparison : dict (option BacktestResult) * list string :=
  Eval vm_compute in
    match run_comparison_backtest 100 104 (Some ["SPY"]) false with
    | Returned x => x
    | Raised _ => ([], [])
    end.

(* ================================================================== *)
(** * Properties                                                        *)
(* ================================================================== *)

(** ** Python values *)

Lemma Qltb_lt (a b : Q) : Qltb a b = true <-> a < b.
Proof.
  unfold Qltb. rewrite negb_true_iff. split; intro H.
  - apply Qnot_le_lt. intro Hle. apply Qle_bool_iff in Hle. congruence.
  - destruct (Qle_bool b a) eqn:E; [|reflexivity].
    apply Qle_bool_iff in E. exfalso. apply (Qlt_not_le _ _ H E).
Qed.

Lemma Qltb_ge (a b : Q) : Qltb a b = false <-> b <= a.
Proof.
  unfold Qltb. rewrite negb_false_iff. apply Qle_bool_iff.
Qed.

Lemma py_div_ok (a b : Q) : ~ b == 0 -> py_div a b = Returned (a / b).
Proof.
  intro H. unfold py_div. destruct (Qeq_bool b 0) eqn:E; [|reflexivity].
  apply Qeq_bool_iff in E. contradiction.
Qed.

Lemma py_div_zero (a b : Q) : b == 0 -> py_div a b = Raised ZeroDivisionError.
Proof.
  intro H. unfold py_div. apply Qeq_bool_iff in H. now rewrite H.
Qed.

Lemma py_div_inv (a b q : Q) : py_div a b = Returned q -> ~ b == 0 /\ q = a / b.
Proof.
  unfold py_div. destruct (Qeq_bool b 0) eqn:E; [discriminate|].
  intro H. injection H as <-. split; [|reflexivity].
  intro Hb. apply Qeq_bool_iff in Hb. congruence.
Qed.

Lemma bind_inv {A B : Type} (c : outcome A) (k : A -> outcome B) (b : B) :
  bind c k = Returned b -> exists a, c = Returned a /\ k a = Returned b.
Proof.
  destruct c as [a|e]; simpl; [|discriminate]. intro H. now exists a.
Qed.

(** Walks through the successful steps of a computation that returned. *)
Ltac invert_bind H :=
  repeat match type of H with
         | bind _ _ = Returned _ =>
             let x := fresh "x" in
             let Hx := fresh "Hx" in
             apply bind_inv in H; destruct H as (x & Hx & H)
         | match ?t with _ => _ end = Returned _ => destruct t
         end.

Lemma py_len_nonzero {A : Type} (xs : list A) : xs <> [] -> ~ py_len xs == 0.
Proof.
  destruct xs as [|x xs]; [congruence|]. intros _ H.
  unfold py_len, Qeq in H. simpl in H. lia.
Qed.

Lemma py_len_pos {A : Type} (xs : list A) : xs <> [] -> 0 < py_len xs.
Proof.
  destruct xs as [|x xs]; [congruence|]. intros _.
  unfold py_len, Qlt. simpl. lia.
Qed.

Lemma truthy_true {A : Type} (xs : list A) : truthy xs = true <-> xs <> [].
Proof. destruct xs; simpl; split; congruence. Qed.

Lemma truthy_false {A : Type} (xs : list A) : truthy xs = false <-> xs = [].
Proof. destruct xs; simpl; split; congruence. Qed.

(** ** Dictionaries *)

Lemma dict_get_set_same {V : Type} (k : string) (v : V) (d : dict V) :
  dict_get k (dict_set k v d) = Some v.
Proof.
  induction d as [|[k' v'] d IH]; simpl.
  - now rewrite String.eqb_refl.
  - destruct (String.eqb k k') eqn:E; simpl; rewrite E; [reflexivity|exact IH].
Qed.

Lemma dict_get_set_other {V : Type} (k k0 : string) (v : V) (d : dict V) :
  k <> k0 -> dict_get k (dict_set k0 v d) = dict_get k d.
Proof.
  intro Hne. induction d as [|[k' v'] d IH]; simpl.
  - apply String.eqb_neq in Hne. now rewrite Hne.
  - destruct (String.eqb k0 k') eqn:E; simpl.
    + apply String.eqb_eq in E. subst k'.
      apply String.eqb_neq in Hne. now rewrite Hne.
    + destruct (String.eqb k k'); [reflexivity|exact IH].
Qed.

Lemma dict_keys_set {V : Type} (k : string) (v : V) (d : dict V) :
  In k (dict_keys d) -> dict_keys (dict_set k v d) = dict_keys d.
Proof.
  induction d as [|[k' v'] d IH]; simpl; [tauto|].
  intros [H|H]; destruct (String.eqb k k') eqn:E; simpl; try reflexivity.
  - subst k'. rewrite String.eqb_refl in E. discriminate.
  - f_equal. now apply IH.
Qed.

Lemma dict_keys_set_new {V : Type} (k : string) (v : V) (d : dict V) :
  ~ In k (dict_keys d) -> dict_keys (dict_set k v d) = dict_keys d ++ [k].
Proof.
  induction d as [|[k' v'] d IH]; simpl; [reflexivity|].
  intro H. destruct (String.eqb k k') eqn:E.
  - apply String.eqb_eq in E. subst k'. tauto.
  - simpl. f_equal. apply IH. tauto.
Qed.

Lemma dict_set_NoDup {V : Type} (k : string) (v : V) (d : dict V) :
  NoDup (dict_keys d) -> NoDup (dict_keys (dict_set k v d)).
Proof.
  intro H. destruct (in_dec string_dec k (dict_keys d)) as [Hin|Hnin].
  - now rewrite dict_keys_set.
  - rewrite dict_keys_set_new by assumption.
    apply NoDup_app; [assumption|repeat constructor; simpl; tauto|].
    intros x Hx [<-|[]]. contradiction.
Qed.

Lemma dict_get_keys {V : Type} (k : string) (d : dict V) :
  In k (dict_keys d) <-> exists v, dict_get k d = Some v.
Proof.
  induction d as [|[k' v'] d IH]; simpl.
  - split; [tauto|intros [v H]; discriminate].
  - destruct (String.eqb k k') eqn:E.
    + apply String.eqb_eq in E. subst k'. split; eauto.
    + apply String.eqb_neq in E. rewrite <- IH. split; [intros [H|H]|]; try tauto.
      congruence.
Qed.

(** ** Historical-data fetching *)

Section FetchFacts.
Context {Y : YFinance}.
Variables period interval : string.

Lemma fetched_frame_spec (ticker : string) (df : DataFrame) :
  fetched_frame period interval ticker = Some df <->
  yf_history ticker period interval = Returned df /\ df <> [].
Proof.
  unfold fetched_frame.
  destruct (yf_history ticker period interval) as [hist|ex].
  - destruct hist as [|b hist]; simpl; split.
    + discriminate.
    + intros [H Hne]. injection H as <-. congruence.
    + intro H. injection H as <-. split; [reflexivity|discriminate].
    + intros [H _]. congruence.
  - split; [discriminate|intros [H _]; discriminate].
Qed.

Lemma fetch_one_frame (results : dict DataFrame) (ticker : string) :
  fetch_one period interval results ticker =
  match fetched_frame period interval ticker with
  | Some hist => dict_set ticker hist results
  | None => results
  end.
Proof.
  unfold fetch_one, fetched_frame.
  destruct (yf_history ticker period interval) as [hist|ex]; [|reflexivity].
  now destruct (df_empty hist).
Qed.

Lemma fetch_loop_get (tickers : list string) :
  forall (results : dict DataFrame) (t : string),
    dict_get t (fold_left (fetch_one period interval) tickers results) =
    if in_dec string_dec t tickers
    then match fetched_frame period interval t with
         | Some hist => Some hist
         | None => dict_get t results
         end
    else dict_get t results.
Proof.
  induction tickers as [|a tickers IH]; intros results t; [reflexivity|].
  cbn [fold_left]. rewrite IH, fetch_one_frame.
  destruct (string_dec a t) as [->|Hne].
  - destruct (in_dec string_dec t (t :: tickers)) as [_|Hn]; [|simpl in Hn; tauto].
    destruct (fetched_frame period interval t) as [hist|] eqn:Ef.
    + rewrite dict_get_set_same. now destruct (in_dec string_dec t tickers).
    + now destruct (in_dec string_dec t tickers).
  - assert (Hget : dict_get t
               match fetched_frame period interval a with
               | Some hist => dict_set a hist results
               | None => results
               end = dict_get t results).
    { destruct (fetched_frame period interval a); [|reflexivity].
      apply dict_get_set_other. congruence. }
    rewrite Hget.
    destruct (in_dec string_dec t tickers) as [Hin|Hnin];
      destruct (in_dec string_dec t (a :: tickers)) as [Hin'|Hnin'];
      simpl in *; try reflexivity; tauto.
Qed.

Lemma fetch_loop_NoDup (tickers : list string) :
  forall results : dict DataFrame,
    NoDup (dict_keys results) ->
    NoDup (dict_keys (fold_left (fetch_one period interval) tickers results)).
Proof.
  induction tickers as [|a tickers IH]; intros results H; [exact H|].
  cbn [fold_left]. apply IH. rewrite fetch_one_frame.
  destruct (fetched_frame period interval a); [now apply dict_set_NoDup|exact H].
Qed.

(** C9. In [fetch_historical_data], a ticker whose download raises or
    comes back empty is absent from the returned mapping, the loop goes
    on with the remaining tickers, and the mapping holds exactly the
    requested tickers whose download succeeded with a non-empty frame,
    each with that frame. *)
Theorem fetch_historical_data_keeps_successful_tickers
    (tickers : option (list string)) :
  let requested := match tickers with
                   | None => get_all_tickers
                   | Some ts => ts
                   end in
  let results := fetch_historical_data tickers period interval in
  (forall t df,
      dict_get t results = Some df <->
      In t requested /\ yf_history t period interval = Returned df /\ df <> [])
  /\ (forall t,
         In t (dict_keys results) <->
         In t requested /\
         exists df, yf_history t period interval = Returned df /\ df <> [])
  /\ (forall t,
         (forall df, yf_history t period interval = Returned df -> df = []) ->
         dict_get t results = None)
  /\ NoDup (dict_keys results).
Proof.
  intros requested results.
  assert (Hget : forall t df,
             dict_get t results = Some df <->
             In t requested /\ yf_history t period interval = Returned df /\ df <> []).
  { intros t df. unfold results, fetch_historical_data. fold requested.
    rewrite fetch_loop_get. simpl dict_get.
    destruct (in_dec string_dec t requested) as [Hin|Hnin].
    - rewrite <- fetched_frame_spec.
      destruct (fetched_frame period interval t); split; intro H; try tauto;
        try discriminate.
      all: destruct H as [_ H]; discriminate.
    - split; [discriminate|tauto]. }
  split; [exact Hget|]. split; [|split].
  - intro t. rewrite dict_get_keys. split.
    + intros [df H]. apply Hget in H. destruct H as (Hin & Hy & Hne). eauto.
    + intros (Hin & df & Hy & Hne). exists df. apply Hget. auto.
  - intros t Hfail. destruct (dict_get t results) as [df|] eqn:E; [|reflexivity].
    apply Hget in E. destruct E as (_ & Hy & Hne). apply Hfail in Hy. contradiction.
  - unfold results, fetch_historical_data. apply fetch_loop_NoDup. constructor.
Qed.

End FetchFacts.

(** ** Rebalance cadence *)

Section EngineFacts.
Context {Y : YFinance} {L : Ledger} {N : Numeric} {A : Agent}.

(** C7. A day index is a rebalance opportunity exactly when the frequency
    is "daily", or the frequency is "weekly" and the index is a multiple of
    five; over twelve trading days a weekly engine rebalances at the
    indices 0, 5 and 10 and at no other. *)
Theorem should_rebalance_cadence :
  (forall (e : BacktestEngine) (i d : Z),
      _should_rebalance e i d = true <->
      rebalance_frequency e = "daily" \/
      (rebalance_frequency e = "weekly" /\ (i mod 5 = 0)%Z))
  /\ (forall sd ed cap tk p rs tr (d : Z),
         filter (fun i => _should_rebalance (mkEngine sd ed cap tk "weekly" p rs tr) i d)
           (map Z.of_nat (seq 0 12))
         = [0; 5; 10]%Z).
Proof.
  split.
  - intros e i d. unfold _should_rebalance.
    destruct (String.eqb (rebalance_frequency e) "daily") eqn:Ed.
    + apply String.eqb_eq in Ed. tauto.
    + apply String.eqb_neq in Ed.
      destruct (String.eqb (rebalance_frequency e) "weekly") eqn:Ew.
      * apply String.eqb_eq in Ew. rewrite Z.eqb_eq. tauto.
      * apply String.eqb_neq in Ew. split; [discriminate|tauto].
  - intros. reflexivity.
Qed.

(** ** The simulation loop *)

Lemma should_rebalance_config (e e' : BacktestEngine) (i d : Z) :
  rebalance_frequency e' = rebalance_frequency e ->
  _should_rebalance e' i d = _should_rebalance e i d.
Proof. intro H. unfold _should_rebalance. now rewrite H. Qed.

Lemma same_config_refl (e : BacktestEngine) : same_config e e.
Proof. unfold same_config. tauto. Qed.

Lemma same_config_trans (e1 e2 e3 : BacktestEngine) :
  same_config e1 e2 -> same_config e2 e3 -> same_config e1 e3.
Proof.
  unfold same_config. intros (?&?&?&?&?) (?&?&?&?&?).
  repeat split; congruence.
Qed.

Lemma idle_events_no_trade (data : dict DataFrame) (dates : list Z) :
  Forall (fun ev => is_trade ev = false /\ is_executor ev = false)
    (idle_events data dates).
Proof.
  unfold idle_events. induction dates as [|d dates IH]; simpl; auto.
Qed.

Lemma rebalance_idle (e : BacktestEngine) (use_llm : bool) (strategy : string)
    (data : dict DataFrame) (d : Z) (prices : dict Q) :
  idle_dispatch use_llm strategy = true ->
  rebalance e use_llm strategy data d prices = Returned e.
Proof.
  unfold idle_dispatch, rebalance. intro H.
  apply andb_true_iff in H. destruct H as [H1 H2].
  apply negb_true_iff in H1. apply negb_true_iff in H2.
  now rewrite H1, H2.
Qed.

(** A day on which the cadence gate is closed, or the dispatch reaches no
    executor: the ledger is marked to market and summarised, nothing else. *)
Lemma simulate_day_idle (use_llm : bool) (strategy : string)
    (data : dict DataFrame) (e : BacktestEngine) (i d : Z) (p : Portfolio) :
  portfolio e = Some p ->
  _should_rebalance e i d = false \/ idle_dispatch use_llm strategy = true ->
  exists e',
    simulate_day use_llm strategy data e i d = Returned e'
    /\ portfolio e' = Some (update_prices p (_get_prices_for_date data d))
    /\ trace e' = trace e ++ idle_events data [d]
    /\ List.length (results e') = S (List.length (results e))
    /\ same_config e e'.
Proof.
  intros Hp Hidle. unfold simulate_day, call_update_prices, the_portfolio.
  rewrite Hp. cbn [bind].
  set (prices := _get_prices_for_date data d).
  set (e1 := log (set_portfolio e (update_prices p prices)) (CallUpdatePrices prices)).
  assert (Hstep :
    (if _should_rebalance e1 i d
     then rebalance e1 use_llm strategy data d prices
     else Returned e1) = Returned e1).
  { destruct Hidle as [Hgate|Hdisp].
    - rewrite (should_rebalance_config e e1) by reflexivity. now rewrite Hgate.
    - rewrite rebalance_idle by assumption. now destruct (_should_rebalance e1 i d). }
  rewrite Hstep. cbn [bind].
  unfold _record_daily_result, call_get_summary, the_portfolio. simpl.
  eexists. split; [reflexivity|]. simpl.
  repeat split.
  - now rewrite <- app_assoc.
  - rewrite length_app. simpl. lia.
Qed.

Lemma simulate_idle (use_llm : bool) (strategy : string) (data : dict DataFrame)
    (dates : list Z) :
  forall (e : BacktestEngine) (i : Z) (p : Portfolio),
    portfolio e = Some p ->
    (forall j d, _should_rebalance e j d = false)
    \/ idle_dispatch use_llm strategy = true ->
    exists e',
      simulate use_llm strategy data e i dates = Returned e'
      /\ portfolio e' = Some (mark_to_market data p dates)
      /\ trace e' = trace e ++ idle_events data dates
      /\ List.length (results e') = (List.length (results e) + List.length dates)%nat
      /\ same_config e e'.
Proof.
  induction dates as [|d dates IH]; intros e i p Hp Hidle.
  - exists e. simpl. rewrite app_nil_r, Nat.add_0_r.
    repeat split; auto.
  - destruct (simulate_day_idle use_llm strategy data e i d p Hp) as
      (e1 & Hday & Hp1 & Ht1 & Hr1 & Hc1).
    { destruct Hidle as [H|H]; [left; apply H|right; exact H]. }
    destruct (IH e1 (i + 1)%Z _ Hp1) as (e' & Hsim & Hp' & Ht' & Hr' & Hc').
    { destruct Hidle as [H|H]; [left|right; exact H].
      intros j d'. rewrite (should_rebalance_config e e1); [apply H|apply Hc1]. }
    exists e'. cbn [simulate]. rewrite Hday. cbn [bind].
    split; [exact Hsim|]. split; [exact Hp'|]. split; [|split].
    + rewrite Ht', Ht1. unfold idle_events. simpl. now rewrite <- app_assoc.
    + rewrite Hr', Hr1. simpl. lia.
    + eapply same_config_trans; eassumption.
Qed.

(** C2 (what the code does). Under "buy_and_hold" the dispatch of a
    rebalance day reaches no executor: whatever the ledger holds, on the
    first rebalance opportunity as on every later one, the loop only marks
    the ledger to market and reads its summary, and no buy (or sell) is
    issued. *)
Theorem buy_and_hold_issues_no_trade (use_llm : bool) (data : dict DataFrame)
    (e : BacktestEngine) (p : Portfolio) (i : Z) (dates : list Z) :
  exists e',
    simulate use_llm "buy_and_hold" data (set_portfolio e p) i dates = Returned e'
    /\ trace e' = trace e ++ idle_events data dates
    /\ Forall (fun ev => is_trade ev = false /\ is_executor ev = false)
         (idle_events data dates)
    /\ portfolio e' = Some (mark_to_market data p dates).
Proof.
  destruct (simulate_idle use_llm "buy_and_hold" data dates (set_portfolio e p) i p)
    as (e' & Hsim & Hp & Ht & _ & _); [reflexivity|right; reflexivity|].
  exists e'. repeat split; try assumption. apply idle_events_no_trade.
Qed.

Lemma mark_to_market_positions (data : dict DataFrame) (dates : list Z) :
  (forall p prices, positions p = [] -> positions (update_prices p prices) = []) ->
  forall p, positions p = [] -> positions (mark_to_market data p dates) = [].
Proof.
  intro Hmark. unfold mark_to_market.
  induction dates as [|d dates IH]; intros p Hp; simpl; auto.
Qed.

Lemma unrecognized_gate_closed (e : BacktestEngine) :
  rebalance_frequency e <> "daily" -> rebalance_frequency e <> "weekly" ->
  forall i d, _should_rebalance e i d = false.
Proof.
  intros Hd Hw i d. unfold _should_rebalance.
  apply String.eqb_neq in Hd. apply String.eqb_neq in Hw. now rewrite Hd, Hw.
Qed.

(** What a returning [run_backtest_on] went through. *)
Lemma run_backtest_on_inv (e e' : BacktestEngine) (data : dict DataFrame)
    (use_llm : bool) (strategy benchmark : string) (r : option BacktestResult) :
  run_backtest_on e data use_llm strategy benchmark = Returned (r, e') ->
  (data = [] /\ r = None /\ e' = e)
  \/ (data <> [] /\
      exists dates,
        let e0 := set_portfolio e (portfolio_init strategy (start_date e)) in
        _get_trading_dates e0 data = Returned dates
        /\ simulate use_llm strategy data e0 0 dates = Returned e'
        /\ exists m res,
            _calculate_metrics e' (Some (_get_benchmark_returns e' data benchmark))
            = Returned (Some m)
            /\ build_result e' strategy (Some m) = Returned res
            /\ r = Some res).
Proof.
  unfold run_backtest_on. destruct data as [|item data]; simpl truthy; cbn [negb].
  - intro H. injection H as <- <-. left. auto.
  - intro H. right. split; [discriminate|].
    apply bind_inv in H. destruct H as (dates & Hd & H).
    apply bind_inv in H. destruct H as (e1 & Hsim & H).
    apply bind_inv in H. destruct H as (metrics & Hm & H).
    apply bind_inv in H. destruct H as (res & Hres & H).
    injection H as <- <-. exists dates. cbn zeta.
    split; [exact Hd|]. split; [exact Hsim|].
    destruct metrics as [m|].
    + exists m, res. auto.
    + unfold build_result in Hres. destruct (the_portfolio e1); discriminate.
Qed.

(** C10. With a rebalance frequency other than "daily" and "weekly" the
    cadence gate is closed at every day index; the simulation loop of such
    a run completes having entered no strategy executor and issued no buy
    or sell, whatever the strategy; and, for a ledger that starts without
    positions and whose mark-to-market opens none, the ledger has no
    position at the end of the loop and of every run that returns. *)
Theorem unrecognized_frequency_never_trades (e : BacktestEngine) :
  rebalance_frequency e <> "daily" ->
  rebalance_frequency e <> "weekly" ->
  (forall strategy start, positions (portfolio_init strategy start) = []) ->
  (forall p prices, positions p = [] -> positions (update_prices p prices) = []) ->
  (forall i d, _should_rebalance e i d = false)
  /\ (forall use_llm strategy data dates,
         exists e' p',
           simulate use_llm strategy data
             (set_portfolio e (portfolio_init strategy (start_date e))) 0 dates
           = Returned e'
           /\ trace e' = trace e ++ idle_events data dates
           /\ Forall (fun ev => is_trade ev = false /\ is_executor ev = false)
                (idle_events data dates)
           /\ portfolio e' = Some p' /\ positions p' = [])
  /\ (forall use_llm strategy benchmark res e',
         run_backtest e use_llm strategy benchmark = Returned (Some res, e') ->
         exists dates p',
           trace e' = trace e
                      ++ idle_events (BacktestEngine_fetch_historical_data e) dates
           /\ portfolio e' = Some p' /\ positions p' = []
           /\ List.length (res_daily_results res)
              = (List.length (results e) + List.length dates)%nat).
Proof.
  intros Hd Hw Hfresh Hmark.
  pose proof (unrecognized_gate_closed e Hd Hw) as Hgate.
  assert (Hloop : forall use_llm strategy data dates i,
             exists e',
               simulate use_llm strategy data
                 (set_portfolio e (portfolio_init strategy (start_date e))) i dates
               = Returned e'
               /\ trace e' = trace e ++ idle_events data dates
               /\ portfolio e'
                  = Some (mark_to_market data
                            (portfolio_init strategy (start_date e)) dates)
               /\ List.length (results e')
                  = (List.length (results e) + List.length dates)%nat).
  { intros use_llm strategy data dates i.
    destruct (simulate_idle use_llm strategy data dates
                (set_portfolio e (portfolio_init strategy (start_date e))) i
                (portfolio_init strategy (start_date e)))
      as (e' & Hsim & Hp & Ht & Hr & _); [reflexivity|left; exact Hgate|].
    exists e'. auto. }
  split; [exact Hgate|]. split.
  - intros use_llm strategy data dates.
    destruct (Hloop use_llm strategy data dates 0%Z) as (e' & Hsim & Ht & Hp & _).
    exists e', (mark_to_market data (portfolio_init strategy (start_date e)) dates).
    repeat split; try assumption.
    + apply idle_events_no_trade.
    + apply mark_to_market_positions; auto.
  - intros use_llm strategy benchmark res e' Hrun. unfold run_backtest in Hrun.
    apply run_backtest_on_inv in Hrun.
    destruct Hrun as [(_ & Hr & _)|(_ & dates & _ & Hsim & m & res' & _ & Hres & Hr)];
      [discriminate|].
    destruct (Hloop use_llm strategy (BacktestEngine_fetch_historical_data e)
                dates 0%Z) as (e1 & Hsim1 & Ht & Hp & Hlen).
    cbn zeta in Hsim. rewrite Hsim in Hsim1. injection Hsim1 as <-.
    exists dates, (mark_to_market (BacktestEngine_fetch_historical_data e)
                     (portfolio_init strategy (start_date e)) dates).
    split; [exact Ht|]. split; [exact Hp|]. split.
    + apply mark_to_market_positions; auto.
    + injection Hr as ->. unfold build_result, the_portfolio in Hres.
      rewrite Hp in Hres. simpl in Hres. injection Hres as <-. exact Hlen.
Qed.

(** ** The equal-weight executor *)

Lemma buy_each_spec (pct : Q) (items : dict Q) :
  forall (e : BacktestEngine) (p : Portfolio),
    portfolio e = Some p ->
    exists e',
      buy_each e pct items = Returned e'
      /\ portfolio e' = Some (buy_all pct items p)
      /\ trace e' = trace e ++ equal_weight_buys pct items
      /\ results e' = results e
      /\ same_config e e'.
Proof.
  induction items as [|[ticker price] items IH]; intros e p Hp.
  - exists e. simpl. rewrite app_nil_r. repeat split; auto.
  - cbn [buy_each]. unfold call_buy, the_portfolio. rewrite Hp. cbn [bind].
    destruct (IH (log (set_portfolio e (buy p ticker pct price))
                    (CallBuy ticker pct price)) (buy p ticker pct price))
      as (e' & Hb & Hp' & Ht & Hr & Hc); [reflexivity|].
    exists e'. split; [exact Hb|]. split; [exact Hp'|]. split; [|split].
    + rewrite Ht. simpl. now rewrite <- app_assoc.
    + exact Hr.
    + exact Hc.
Qed.

(** C4. The equal-weight executor on a rebalance day: with any position in
    the ledger, or with an empty snapshot, it issues no call to the ledger;
    otherwise it issues one buy per asset of the snapshot, in order, each
    at the asset's snapshot price and with the percentage [90 / n] for [n]
    assets, and nothing else.  The percentages add up to 90, and for three
    assets each is 30. *)
Theorem equal_weight_strategy_allocation (e : BacktestEngine) (p : Portfolio)
    (current_prices : dict Q) :
  portfolio e = Some p ->
  (positions p <> [] \/ current_prices = [] ->
   _execute_equal_weight_strategy e current_prices
   = Returned (log e EnterEqualWeight))
  /\ (positions p = [] -> current_prices <> [] ->
      let pct := 90 / py_len current_prices in
      exists e',
        _execute_equal_weight_strategy e current_prices = Returned e'
        /\ trace e' = trace e ++ EnterEqualWeight
                                 :: equal_weight_buys pct current_prices
        /\ List.length (equal_weight_buys pct current_prices)
           = List.length current_prices
        /\ portfolio e' = Some (buy_all pct current_prices p)
        /\ results e' = results e
        /\ py_len current_prices * pct == 90)
  /\ (forall a b c, current_prices = [a; b; c] ->
                    90 / py_len current_prices == 30).
Proof.
  intro Hp. split; [|split].
  - intros Hcase. unfold _execute_equal_weight_strategy, the_portfolio.
    simpl. rewrite Hp. cbn [bind].
    destruct (truthy (positions p)) eqn:Epos; [reflexivity|].
    destruct Hcase as [Hpos | ->]; [|reflexivity].
    apply truthy_false in Epos. contradiction.
  - intros Hpos Hne pct.
    unfold _execute_equal_weight_strategy, the_portfolio. simpl. rewrite Hp.
    cbn [bind]. rewrite Hpos. simpl truthy. cbv iota.
    destruct (List.length current_prices =? 0)%nat eqn:En.
    { apply Nat.eqb_eq in En. destruct current_prices; [congruence|discriminate]. }
    rewrite py_div_ok by now apply py_len_nonzero. cbn [bind]. fold pct.
    destruct (buy_each_spec pct current_prices (log e EnterEqualWeight) p)
      as (e' & Hb & Hp' & Ht & Hr & _); [exact Hp|].
    exists e'. split; [exact Hb|]. split; [|split; [|split; [|split]]].
    + rewrite Ht. simpl. now rewrite <- app_assoc.
    + unfold equal_weight_buys. apply length_map.
    + exact Hp'.
    + exact Hr.
    + unfold pct. field. now apply py_len_nonzero.
  - intros a b c ->. reflexivity.
Qed.

(** ** The metrics engine *)

Lemma ratio_or_zero_total (num den : Q) :
  exists q, ratio_or_zero num den = Returned q
            /\ (0 < den -> q = num / den) /\ (den <= 0 -> q = 0).
Proof.
  unfold ratio_or_zero. destruct (Qltb 0 den) eqn:E.
  - apply Qltb_lt in E. exists (num / den). rewrite py_div_ok.
    + repeat split; auto. intro H. exfalso. apply (Qlt_not_le _ _ E H).
    + intro H. rewrite H in E. apply (Qlt_irrefl _ E).
  - apply Qltb_ge in E. exists 0. repeat split; auto.
    intro H. exfalso. apply (Qlt_not_le _ _ H E).
Qed.

Lemma ratio_or_inf_total (num den : Q) :
  exists x, ratio_or_inf num den = Returned x
            /\ (0 < den -> x = Finite (num / den)) /\ (den <= 0 -> x = PosInf).
Proof.
  unfold ratio_or_inf. destruct (Qltb 0 den) eqn:E.
  - apply Qltb_lt in E. exists (Finite (num / den)). rewrite py_div_ok.
    + repeat split; auto. intro H. exfalso. apply (Qlt_not_le _ _ E H).
    + intro H. rewrite H in E. apply (Qlt_irrefl _ E).
  - apply Qltb_ge in E. exists PosInf. repeat split; auto.
    intro H. exfalso. apply (Qlt_not_le _ _ H E).
Qed.

(** What a returned report was computed from. *)
Lemma calculate_metrics_inv (e : BacktestEngine) (bench : option (list Q))
    (m : Metrics) :
  _calculate_metrics e bench = Returned (Some m) ->
  let values := map dr_total_value (results e) in
  let rets := daily_returns m in
  results e <> []
  /\ returns_of values = Returned rets
  /\ equity_curve m = values
  /\ volatility m = (if truthy rets then np_std rets * np_sqrt 252 else 0)
  /\ ratio_or_zero (annualized_return m - risk_free_rate) (volatility m)
     = Returned (sharpe_ratio m)
  /\ (exists peak,
         drawdown_loop values (initial_capital e) 0 []
         = Returned (peak, max_drawdown m, drawdown_curve m))
  /\ ratio_or_inf (sum_gains rets) (sum_losses rets) = Returned (omega_ratio m)
  /\ ratio_or_inf (sum_gains rets) (sum_losses rets) = Returned (profit_factor m)
  /\ beta_alpha rets (annualized_return m) bench = Returned (beta m, alpha m).
Proof.
  unfold _calculate_metrics. intro H.
  destruct (results e) as [|r0 rs] eqn:Er; [discriminate|].
  simpl truthy in H. cbn [negb] in H. cbv zeta.
  invert_bind H. injection H as <-. simpl.
  repeat split; try assumption; try discriminate.
  eexists. eassumption.
Qed.

Lemma step_returns_length (rest : list Q) :
  forall prev rs, step_returns prev rest = Returned rs ->
                  List.length rs = List.length rest.
Proof.
  induction rest as [|v tl IH]; intros prev rs H; simpl in H.
  - now injection H as <-.
  - invert_bind H. injection H as <-. simpl. f_equal. eapply IH; eassumption.
Qed.

Lemma returns_of_length (values rs : list Q) :
  returns_of values = Returned rs ->
  List.length rs = (List.length values - 1)%nat.
Proof.
  destruct values as [|v0 tl]; simpl; intro H.
  - now injection H as <-.
  - rewrite Nat.sub_0_r. eapply step_returns_length; eassumption.
Qed.

(** C3. In a returned report, beta and alpha are the literal 0 whenever the
    benchmark series is absent, empty, or of a length other than that of
    the per-step return series (one element fewer than the results); they
    are computed from the covariance, variance and mean of the benchmark
    only when the series is supplied, non-empty and of exactly that
    length. *)
Theorem beta_alpha_length_gate (e : BacktestEngine) (bench : option (list Q))
    (m : Metrics) :
  _calculate_metrics e bench = Returned (Some m) ->
  let rets := daily_returns m in
  List.length rets = (List.length (results e) - 1)%nat
  /\ (bench = None \/ bench = Some []
      \/ (exists b, bench = Some b /\ List.length b <> List.length rets) ->
      beta m = 0 /\ alpha m = 0)
  /\ (forall b,
         bench = Some b -> b <> [] -> List.length b = List.length rets ->
         (0 < np_var b -> beta m = np_cov rets b / np_var b)
         /\ (np_var b <= 0 -> beta m = 0)
         /\ alpha m = annualized_return m
                      - (risk_free_rate
                         + beta m * (np_mean b * 252 - risk_free_rate))).
Proof.
  intros H rets. apply calculate_metrics_inv in H. cbv zeta in H. fold rets in H.
  destruct H as (_ & Hrets & _ & _ & _ & _ & _ & _ & Hba).
  split; [|split].
  - apply returns_of_length in Hrets. now rewrite length_map in Hrets.
  - unfold beta_alpha in Hba.
    intros [->|[->|(b & -> & Hlen)]].
    + injection Hba as <- <-. auto.
    + simpl in Hba. injection Hba as <- <-. auto.
    + apply Nat.eqb_neq in Hlen. rewrite Hlen, andb_false_r in Hba.
      injection Hba as <- <-. auto.
  - intros b -> Hne Hlen. unfold beta_alpha in Hba.
    apply truthy_true in Hne. apply Nat.eqb_eq in Hlen.
    rewrite Hne, Hlen in Hba. cbn [andb] in Hba. cbv zeta in Hba.
    destruct (ratio_or_zero_total (np_cov rets b) (np_var b))
      as (q & Hq & Hpos & Hnonpos).
    rewrite Hq in Hba. cbn [bind] in Hba. injection Hba as <- <-.
    repeat split; auto.
Qed.

Lemma fold_sum_ge (xs : list Q) :
  Forall (fun x => 0 <= x) xs -> forall acc, acc <= fold_left Qplus xs acc.
Proof.
  induction 1 as [|x xs Hx _ IH]; intro acc; simpl.
  - apply Qle_refl.
  - eapply Qle_trans; [|apply IH]. lra.
Qed.

Lemma fold_sum_pos (xs : list Q) :
  Forall (fun x => 0 < x) xs -> xs <> [] ->
  forall acc, acc < fold_left Qplus xs acc.
Proof.
  intros Hall Hne acc. destruct Hall as [|x xs Hx Hxs]; [congruence|]. simpl.
  eapply Qlt_le_trans with (acc + x); [lra|].
  apply fold_sum_ge. eapply Forall_impl; [|exact Hxs].
  intros a Ha. now apply Qlt_le_weak.
Qed.

Lemma losses_positive (rets : list Q) :
  Forall (fun x => 0 < x) (map py_abs (filter (fun r => Qltb r 0) rets)).
Proof.
  apply Forall_forall. intros x Hx. apply in_map_iff in Hx.
  destruct Hx as (r & <- & Hr). apply filter_In in Hr. destruct Hr as [_ Hr].
  apply Qltb_lt in Hr. unfold py_abs.
  rewrite Qabs_neg by now apply Qlt_le_weak. lra.
Qed.

Lemma sum_losses_pos (rets : list Q) :
  0 < sum_losses rets <-> exists r, In r rets /\ r < 0.
Proof.
  unfold sum_losses, py_sum. split.
  - intro H. destruct (filter (fun r => Qltb r 0) rets) as [|r l] eqn:E.
    + simpl in H. exfalso. apply (Qlt_irrefl _ H).
    + assert (Hin : In r (filter (fun r => Qltb r 0) rets))
        by (rewrite E; now left).
      apply filter_In in Hin. destruct Hin as [Hin Hr].
      exists r. split; [exact Hin|now apply Qltb_lt].
  - intros (r & Hin & Hr). apply fold_sum_pos; [apply losses_positive|].
    assert (Hf : In r (filter (fun r => Qltb r 0) rets)).
    { apply filter_In. split; [exact Hin|now apply Qltb_lt]. }
    intro Hnil. apply map_eq_nil in Hnil. rewrite Hnil in Hf. exact Hf.
Qed.

Lemma fold_sum_acc (xs : list Q) :
  forall acc, fold_left Qplus xs acc == acc + fold_left Qplus xs 0.
Proof.
  induction xs as [|x xs IH]; intro acc; simpl.
  - lra.
  - rewrite (IH (acc + x)), (IH (0 + x)). lra.
Qed.

Lemma py_sum_cons (x : Q) (xs : list Q) : py_sum (x :: xs) == x + py_sum xs.
Proof. unfold py_sum. simpl. rewrite fold_sum_acc. lra. Qed.

(** The two sums of the source, a filter followed by [sum], against the
    element-wise sums. *)
Lemma sum_gains_positive_parts (rets : list Q) :
  sum_gains rets == sum_of_positive rets.
Proof.
  unfold sum_gains. induction rets as [|r tl IH]; simpl; [reflexivity|].
  destruct (Qltb 0 r) eqn:E.
  - apply Qltb_lt in E. rewrite py_sum_cons, IH.
    rewrite (Q.max_l r 0) by now apply Qlt_le_weak. reflexivity.
  - apply Qltb_ge in E. rewrite IH, (Q.max_r r 0) by exact E. lra.
Qed.

Lemma sum_losses_negative_parts (rets : list Q) :
  sum_losses rets == sum_of_abs_negative rets.
Proof.
  unfold sum_losses. induction rets as [|r tl IH]; simpl; [reflexivity|].
  destruct (Qltb r 0) eqn:E.
  - apply Qltb_lt in E. cbn [map]. rewrite py_sum_cons, IH. unfold py_abs.
    rewrite Qabs_neg by now apply Qlt_le_weak.
    rewrite (Q.max_l (- r) 0) by lra. reflexivity.
  - apply Qltb_ge in E. rewrite IH, (Q.max_r (- r) 0) by lra. lra.
Qed.

Lemma step_returns_nth (rest : list Q) :
  forall prev rs,
    step_returns prev rest = Returned rs ->
    forall i, (i < List.length rest)%nat ->
      nth i rs 0
      = (nth i rest 0 - nth i (prev :: rest) 0) / nth i (prev :: rest) 0.
Proof.
  induction rest as [|v tl IH]; intros prev rs H i Hi; simpl in Hi; [lia|].
  simpl in H. apply bind_inv in H. destruct H as (r & Hr & H).
  apply bind_inv in H. destruct H as (rs' & Hrs & H). injection H as <-.
  apply py_div_inv in Hr. destruct Hr as [_ ->].
  destruct i as [|i]; [reflexivity|]. cbn [nth].
  apply (IH v rs' Hrs i). lia.
Qed.

(** C6. In a returned report the return series R has one element per step
    of the equity curve, the relative change of the total value over that
    step.  The profit factor is the omega ratio; both are [float('inf')]
    exactly when R has no negative element; otherwise both are the same
    finite number, the sum of the positive returns divided by the sum of
    the absolute values of the negative ones, the two sums being taken
    element by element over R ([sum_of_positive], [sum_of_abs_negative])
    and the divisor being positive. *)
Theorem profit_factor_equals_omega_ratio (e : BacktestEngine)
    (bench : option (list Q)) (m : Metrics) :
  _calculate_metrics e bench = Returned (Some m) ->
  let values := map dr_total_value (results e) in
  let rets := daily_returns m in
  (S (List.length rets) = List.length values
   /\ forall i, (S i < List.length values)%nat ->
        nth i rets 0
        = (nth (S i) values 0 - nth i values 0) / nth i values 0)
  /\ profit_factor m = omega_ratio m
  /\ (omega_ratio m = PosInf <-> forall r, In r rets -> ~ r < 0)
  /\ ((exists r, In r rets /\ r < 0) ->
      0 < sum_of_abs_negative rets
      /\ exists q,
           omega_ratio m = Finite q /\ profit_factor m = Finite q
           /\ q == sum_of_positive rets / sum_of_abs_negative rets).
Proof.
  intros H values rets. apply calculate_metrics_inv in H. cbv zeta in H.
  fold rets values in H.
  destruct H as (Hne & Hrets & _ & _ & _ & _ & Ho & Hp & _).
  split; [|split; [congruence|]].
  - unfold returns_of in Hrets.
    assert (Hv : values <> []).
    { unfold values. destruct (results e); [congruence|discriminate]. }
    destruct values as [|v0 tl]; [congruence|]. split.
    + apply step_returns_length in Hrets. simpl. now rewrite Hrets.
    + intros i Hi. simpl in Hi.
      rewrite (step_returns_nth _ _ _ Hrets i) by lia. reflexivity.
  - destruct (ratio_or_inf_total (sum_gains rets) (sum_losses rets))
      as (x & Hx & Hpos & Hnonpos).
    rewrite Hx in Ho, Hp. injection Ho as <-. injection Hp as Hp.
    split.
    + split.
      * intros Hinf r Hin Hr.
        assert (Hl : 0 < sum_losses rets) by (apply sum_losses_pos; eauto).
        rewrite (Hpos Hl) in Hinf. discriminate.
      * intro Hnone. apply Hnonpos. apply Qnot_lt_le. intro Hl.
        apply sum_losses_pos in Hl. destruct Hl as (r & Hin & Hr).
        exact (Hnone r Hin Hr).
    + intro Hex. apply sum_losses_pos in Hex. split.
      * now rewrite <- sum_losses_negative_parts.
      * exists (sum_gains rets / sum_losses rets).
        split; [now apply Hpos|]. split; [rewrite <- Hp; now apply Hpos|].
        now rewrite sum_gains_positive_parts, sum_losses_negative_parts.
Qed.

Lemma peak_update (peak value : Q) :
  (if Qltb peak value then value else peak) = Qmax peak value.
Proof.
  unfold Qmax, GenericMinMax.gmax.
  destruct (Qltb peak value) eqn:E; destruct (Qcompare peak value) eqn:C;
    try reflexivity; exfalso.
  - apply Qltb_lt in E. apply Qeq_alt in C. rewrite C in E.
    apply (Qlt_irrefl _ E).
  - apply Qltb_lt in E. apply Qgt_alt in C.
    apply (Qlt_irrefl peak). eapply Qlt_trans; eassumption.
  - apply Qltb_ge in E. apply Qlt_alt in C. apply (Qlt_not_le _ _ C E).
Qed.

Lemma py_max_Qmax (a b : Q) : py_max a b = Qmax a b.
Proof. apply peak_update. Qed.

Lemma fold_max_ge_acc (xs : list Q) :
  forall acc, acc <= fold_left py_max xs acc.
Proof.
  induction xs as [|x xs IH]; intro acc; simpl; [apply Qle_refl|].
  eapply Qle_trans; [|apply IH]. rewrite py_max_Qmax. apply Q.le_max_l.
Qed.

Lemma fold_max_ge_elem (xs : list Q) :
  forall acc x, In x xs -> x <= fold_left py_max xs acc.
Proof.
  induction xs as [|y xs IH]; intros acc x Hin; simpl; [contradiction|].
  destruct Hin as [->|Hin]; [|now apply IH].
  eapply Qle_trans; [|apply fold_max_ge_acc]. rewrite py_max_Qmax.
  apply Q.le_max_r.
Qed.

Lemma fold_max_in (xs : list Q) :
  forall acc, fold_left py_max xs acc = acc \/ In (fold_left py_max xs acc) xs.
Proof.
  induction xs as [|y xs IH]; intro acc; simpl; [now left|].
  destruct (IH (py_max acc y)) as [H|H]; [|now right; right].
  rewrite H. unfold py_max. destruct (Qltb acc y); [right; now left|now left].
Qed.

Lemma running_peak_cons (capital v : Q) (values : list Q) (i : nat) :
  running_peak capital (v :: values) (S i)
  = running_peak (Qmax capital v) values i.
Proof. reflexivity. Qed.

Lemma drawdown_in_unit (peak value : Q) :
  0 < value -> value <= peak ->
  0 <= (peak - value) / peak /\ (peak - value) / peak <= 1.
Proof.
  intros Hv Hle. assert (Hp : 0 < peak) by (eapply Qlt_le_trans; eassumption).
  split.
  - apply Qle_shift_div_l; [exact Hp|]. lra.
  - apply Qle_shift_div_r; [exact Hp|]. lra.
Qed.

(** The loop on positive values: it returns, whatever the incoming peak,
    and extends the curve by one drawdown per value, each measured from
    the running peak. *)
Lemma drawdown_loop_spec (values : list Q) :
  Forall (fun v => 0 < v) values ->
  forall peak max_dd dds,
  exists peak' new,
    drawdown_loop values peak max_dd dds
    = Returned (peak', fold_left py_max new max_dd, dds ++ new)
    /\ List.length new = List.length values
    /\ (forall i, (i < List.length values)%nat ->
                  nth i new 0
                  = (running_peak peak values i - nth i values 0)
                    / running_peak peak values i)
    /\ Forall (fun d => 0 <= d /\ d <= 1) new.
Proof.
  induction 1 as [|v tl Hv _ IH]; intros peak max_dd dds.
  - exists peak, []. simpl. rewrite app_nil_r.
    repeat split; auto. intros i Hi. inversion Hi.
  - cbn [drawdown_loop]. cbv zeta. rewrite peak_update.
    assert (Hle : v <= Qmax peak v) by apply Q.le_max_r.
    assert (Hp : ~ Qmax peak v == 0).
    { intro Hz. rewrite Hz in Hle. apply (Qlt_not_le _ _ Hv Hle). }
    rewrite py_div_ok by exact Hp. cbn [bind].
    set (dd := (Qmax peak v - v) / Qmax peak v).
    destruct (IH (Qmax peak v) (py_max max_dd dd) (dds ++ [dd]))
      as (peak' & new & Hloop & Hlen & Hnth & Hunit).
    exists peak', (dd :: new). rewrite Hloop, <- app_assoc. simpl.
    split; [reflexivity|]. split; [now rewrite Hlen|]. split.
    + intros [|i] Hi; [reflexivity|].
      rewrite running_peak_cons. apply Hnth. lia.
    + constructor; [|exact Hunit]. now apply drawdown_in_unit.
Qed.

(** C5. For a non-empty series of positive total values the drawdown loop
    returns.  The peak starts at the initial capital, so the peak of the
    first day is the larger of the initial capital and the first value;
    the drawdown of day [i] is [(peak_i - V[i]) / peak_i] for the running
    peak [peak_i]; the curve has one entry per value; the maximum drawdown
    bounds every entry of the curve, is attained by one of them and lies
    in [0, 1]; and a returned report carries exactly this curve and
    maximum, next to the equity curve [V]. *)
Theorem drawdown_curve_from_running_peak (e : BacktestEngine) :
  let V := map dr_total_value (results e) in
  let capital := initial_capital e in
  V <> [] ->
  Forall (fun v => 0 < v) V ->
  exists peak mdd dds,
    drawdown_loop V capital 0 [] = Returned (peak, mdd, dds)
    /\ running_peak capital V 0 = Qmax capital (hd 0 V)
    /\ List.length dds = List.length V
    /\ (forall i, (i < List.length V)%nat ->
                  nth i dds 0
                  = (running_peak capital V i - nth i V 0)
                    / running_peak capital V i)
    /\ (forall d, In d dds -> d <= mdd)
    /\ (exists d, In d dds /\ d == mdd)
    /\ 0 <= mdd /\ mdd <= 1
    /\ (forall bench m,
           _calculate_metrics e bench = Returned (Some m) ->
           equity_curve m = V /\ drawdown_curve m = dds /\ max_drawdown m = mdd).
Proof.
  intros V capital Hne Hpos.
  destruct (drawdown_loop_spec V Hpos capital 0 [])
    as (peak & dds & Hloop & Hlen & Hnth & Hunit).
  simpl app in Hloop. set (mdd := fold_left py_max dds 0) in *.
  assert (Hge : forall d, In d dds -> d <= mdd)
    by (intros d Hd; now apply fold_max_ge_elem).
  assert (Hdds : dds <> []).
  { intro Hnil. rewrite Hnil in Hlen. destruct V; [congruence|discriminate]. }
  assert (Hatt : exists d, In d dds /\ d == mdd).
  { destruct (fold_max_in dds 0) as [Hz|Hin].
    - destruct dds as [|d0 dds']; [congruence|].
      exists d0. split; [now left|].
      apply Qle_antisym; [apply Hge; now left|].
      fold mdd in Hz. rewrite Hz.
      rewrite Forall_forall in Hunit. apply (Hunit d0). now left.
    - exists mdd. split; [exact Hin|reflexivity]. }
  exists peak, mdd, dds. split; [exact Hloop|].
  split. { destruct V; [congruence|reflexivity]. }
  split; [exact Hlen|]. split; [exact Hnth|]. split; [exact Hge|].
  split; [exact Hatt|]. split; [apply fold_max_ge_acc|]. split.
  - destruct Hatt as (d & Hin & Heq). rewrite <- Heq.
    rewrite Forall_forall in Hunit. apply (Hunit d Hin).
  - intros bench m Hm. apply calculate_metrics_inv in Hm. cbv zeta in Hm.
    destruct Hm as (_ & _ & Heq & _ & _ & (peak0 & Hloop0) & _).
    fold V capital in Hloop0. rewrite Hloop in Hloop0.
    injection Hloop0 as _ <- <-. auto.
Qed.

Lemma step_returns_total (rest : list Q) :
  forall prev, 0 < prev -> Forall (fun v => 0 < v) rest ->
               exists rs, step_returns prev rest = Returned rs.
Proof.
  induction rest as [|v tl IH]; intros prev Hprev Hall; simpl; [eauto|].
  inversion Hall as [|? ? Hv Htl]; subst.
  rewrite py_div_ok
    by (intro Hz; rewrite Hz in Hprev; apply (Qlt_irrefl _ Hprev)).
  cbn [bind]. destruct (IH v Hv Htl) as (rs & Hrs). rewrite Hrs. simpl. eauto.
Qed.

Lemma beta_alpha_total (rets : list Q) (annualized : Q)
    (bench : option (list Q)) :
  exists ba, beta_alpha rets annualized bench = Returned ba.
Proof.
  unfold beta_alpha. destruct bench as [b|]; [|eauto].
  destruct (truthy b && (List.length b =? List.length rets)%nat); [|eauto].
  cbv zeta. destruct (ratio_or_zero_total (np_cov rets b) (np_var b))
    as (q & Hq & _). rewrite Hq. simpl. eauto.
Qed.

(** The report exists for every run state the loop can leave behind with
    positive total values and a positive initial capital, as long as the
    power of the annualisation evaluates. *)
Lemma calculate_metrics_completes (e : BacktestEngine) (p : Portfolio)
    (bench : option (list Q)) (pw : Q) :
  let values := map dr_total_value (results e) in
  results e <> [] ->
  portfolio e = Some p ->
  0 < initial_capital e ->
  Forall (fun v => 0 < v) values ->
  py_pow (1 + (last values 0 / initial_capital e - 1))
    (365 / py_len (results e)) = Returned pw ->
  exists m, _calculate_metrics e bench = Returned (Some m).
Proof.
  intros values Hne Hp Hcap Hpos Hpow. unfold _calculate_metrics.
  apply truthy_true in Hne. rewrite Hne. cbn [negb]. cbv zeta. fold values.
  assert (Hrets : exists rets, returns_of values = Returned rets).
  { unfold returns_of. destruct values as [|v0 tl]; [eauto|].
    inversion Hpos; subst. now apply step_returns_total. }
  destruct Hrets as (rets & Hrets). rewrite Hrets. cbn [bind].
  rewrite py_div_ok
    by (intro Hz; rewrite Hz in Hcap; apply (Qlt_irrefl _ Hcap)).
  cbn [bind].
  assert (Hdays : (0 <? List.length (results e))%nat = true).
  { apply Nat.ltb_lt. apply truthy_true in Hne.
    destruct (results e); [congruence|simpl; lia]. }
  rewrite Hdays.
  rewrite py_div_ok by (apply py_len_nonzero; now apply truthy_true).
  cbn [bind]. rewrite Hpow. cbn [bind].
  match goal with
  | |- context [ratio_or_zero ?n ?d] =>
      destruct (ratio_or_zero_total n d) as (sharpe & Hsharpe & _);
      rewrite Hsharpe; cbn [bind]
  end.
  destruct (drawdown_loop_spec values Hpos (initial_capital e) 0 [])
    as (peak & dds & Hloop & _). rewrite Hloop. cbn [bind].
  match goal with
  | |- context [ratio_or_zero ?n ?d] =>
      destruct (ratio_or_zero_total n d) as (calmar & Hcalmar & _);
      rewrite Hcalmar; cbn [bind]
  end.
  destruct (ratio_or_inf_total (sum_gains rets) (sum_losses rets))
    as (omega & Homega & _). rewrite Homega. cbn [bind].
  assert (Hwin : exists w,
             (if truthy rets
              then py_div
                     (inject_Z (Z.of_nat
                        (List.length (filter (fun r => Qltb 0 r) rets))))
                     (py_len rets)
              else Returned 0) = Returned w).
  { destruct (truthy rets) eqn:Et; [|eauto].
    rewrite py_div_ok by (apply py_len_nonzero; now apply truthy_true). eauto. }
  destruct Hwin as (w & Hwin). rewrite Hwin. cbn [bind].
  match goal with
  | |- context [ratio_or_zero ?n ?d] =>
      destruct (ratio_or_zero_total n d) as (sortino & Hsortino & _);
      rewrite Hsortino; cbn [bind]
  end.
  destruct (beta_alpha_total rets (pw - 1) bench) as ([b a] & Hba).
  rewrite Hba. cbn [bind]. unfold the_portfolio. rewrite Hp. cbn [bind]. eauto.
Qed.

(** C8 (as amended). With exactly one recorded day, a positive initial
    capital, a ledger in place and a power [(1 + total_return) ** 365] that
    evaluates, the metrics computation returns a report: the return series
    is empty, volatility and Sharpe ratio are 0, Sortino ratio and win rate
    are 0, omega ratio and profit factor are infinite, beta and alpha are
    0.  The guarded ratios never raise: with a divisor that is not
    positive they yield their default.  (The division by the initial
    capital and the power are the operations without a guard.) *)
Theorem single_day_metrics (e : BacktestEngine) (p : Portfolio)
    (r : DailyResult) (bench : option (list Q)) (pw : Q) :
  results e = [r] ->
  portfolio e = Some p ->
  0 < initial_capital e ->
  py_pow (1 + (dr_total_value r / initial_capital e - 1)) (365 / py_len [r])
  = Returned pw ->
  (exists m,
      _calculate_metrics e bench = Returned (Some m)
      /\ daily_returns m = []
      /\ volatility m = 0 /\ sharpe_ratio m = 0
      /\ sortino_ratio m = 0 /\ win_rate m = 0
      /\ omega_ratio m = PosInf /\ profit_factor m = PosInf
      /\ beta m = 0 /\ alpha m = 0
      /\ total_return m = dr_total_value r / initial_capital e - 1
      /\ annualized_return m = pw - 1)
  /\ (forall num den, exists q,
         ratio_or_zero num den = Returned q /\ (den <= 0 -> q = 0))
  /\ (forall num den, exists x,
         ratio_or_inf num den = Returned x /\ (den <= 0 -> x = PosInf)).
Proof.
  intros Hres Hp Hcap Hpow. split; [|split].
  - unfold _calculate_metrics. rewrite Hres. simpl truthy. cbn [negb map].
    cbv zeta. cbn [returns_of step_returns bind last].
    rewrite py_div_ok by (intro Hz; rewrite Hz in Hcap; apply (Qlt_irrefl _ Hcap)).
    cbn [bind]. simpl List.length. cbn [Nat.ltb Nat.leb].
    rewrite py_div_ok by (apply py_len_nonzero; discriminate).
    cbn [bind]. rewrite Hpow. cbn [bind]. simpl truthy. cbv iota.
    assert (Hz : ratio_or_zero (pw - 1 - risk_free_rate) 0 = Returned 0)
      by reflexivity.
    rewrite Hz. cbn [bind].
    destruct (drawdown_loop [dr_total_value r] (initial_capital e) 0 [])
      as [[[peak mdd] dds]|ex] eqn:Eloop.
    + cbn [bind].
      destruct (ratio_or_zero_total (pw - 1) mdd) as (calmar & Hcalmar & _).
      rewrite Hcalmar. cbn [bind].
      assert (Hinf : ratio_or_inf (sum_gains []) (sum_losses []) = Returned PosInf)
        by reflexivity.
      rewrite Hinf. cbn [bind filter]. simpl truthy. cbv iota. cbn [bind].
      assert (Hba : beta_alpha [] (pw - 1) bench = Returned (0, 0)).
      { unfold beta_alpha. destruct bench as [[|b bs]|]; reflexivity. }
      rewrite Hba. cbn [bind]. unfold the_portfolio. rewrite Hp. cbn [bind].
      eexists. split; [reflexivity|]. simpl. repeat split; reflexivity.
    + exfalso. cbn [drawdown_loop] in Eloop. cbv zeta in Eloop.
      rewrite peak_update in Eloop. rewrite py_div_ok in Eloop; [discriminate|].
      intro Hzero.
      assert (Hle : initial_capital e <= Qmax (initial_capital e) (dr_total_value r))
        by apply Q.le_max_l.
      rewrite Hzero in Hle. apply (Qlt_not_le _ _ Hcap Hle).
  - intros num den. destruct (ratio_or_zero_total num den) as (q & Hq & _ & Hd).
    eauto.
  - intros num den. destruct (ratio_or_inf_total num den) as (x & Hx & _ & Hd).
    eauto.
Qed.

(** ** The run without trading dates *)

(** The guard at the head of [_calculate_metrics] is not what protects
    [run_backtest]: the body of [run_backtest] after its fetch, applied to
    a data mapping whose reference series has no bar inside the window,
    records no daily result, gets the empty dictionary from
    [_calculate_metrics] and raises [KeyError] on its first lookup in it.
    The mapping [BacktestEngine.fetch_historical_data] builds is never of
    that kind ([fetched_data_has_trading_dates] below). *)
Remark body_on_data_outside_window_raises (e : BacktestEngine)
    (data : dict DataFrame) (use_llm : bool) (strategy benchmark : string) :
  data <> [] ->
  results e = [] ->
  _get_trading_dates (set_portfolio e (portfolio_init strategy (start_date e))) data
  = Returned [] ->
  (forall bench,
      _calculate_metrics
        (set_portfolio e (portfolio_init strategy (start_date e))) bench
      = Returned None)
  /\ run_backtest_on e data use_llm strategy benchmark
     = Raised (KeyError "total_return").
Proof.
  intros Hdata Hres Hdates. split.
  - intro bench. unfold _calculate_metrics. simpl. now rewrite Hres.
  - unfold run_backtest_on. apply truthy_true in Hdata. rewrite Hdata.
    cbn [negb]. cbv zeta. rewrite Hdates. cbn [bind simulate].
    unfold _calculate_metrics. simpl. rewrite Hres. reflexivity.
Qed.

Lemma dict_set_values {V : Type} (P : V -> Prop) (k : string) (v : V)
    (d : dict V) :
  P v -> Forall (fun item => P (snd item)) d ->
  Forall (fun item => P (snd item)) (dict_set k v d).
Proof.
  intros Hv. induction 1 as [|[k' v'] d Hx Hd IH]; simpl.
  - constructor; [exact Hv|constructor].
  - destruct (String.eqb k k'); constructor; simpl; auto.
Qed.

(** The mapping built by [BacktestEngine.fetch_historical_data] only has
    non-empty frames whose bars lie inside the window. *)
Lemma fetched_frames_in_window (e : BacktestEngine) :
  Forall (fun item =>
            snd item <> []
            /\ Forall (fun b => (midnight (start_date e) <=? bar_ts b)%Z
                                && (bar_ts b <=? midnight (end_date e))%Z = true)
                 (snd item))
    (BacktestEngine_fetch_historical_data e).
Proof.
  unfold BacktestEngine_fetch_historical_data.
  generalize (fetch_historical_data (Some (tickers e))
                (py_str (end_date e - start_date e + 60) ++ "d")%string "1d").
  intro raw. generalize (@nil (string * DataFrame)) (Forall_nil
    (fun item : string * DataFrame =>
       snd item <> []
       /\ Forall (fun b => (midnight (start_date e) <=? bar_ts b)%Z
                           && (bar_ts b <=? midnight (end_date e))%Z = true)
            (snd item))).
  induction raw as [|item raw IH]; intros acc Hacc; [exact Hacc|].
  cbn [fold_left]. apply IH. unfold keep_window.
  destruct (df_between (midnight (start_date e)) (midnight (end_date e)) (snd item))
    as [|b df] eqn:E; [exact Hacc|].
  cbn [df_empty].
  apply (dict_set_values
           (fun v => v <> []
                     /\ Forall (fun b => (midnight (start_date e) <=? bar_ts b)%Z
                                         && (bar_ts b <=? midnight (end_date e))%Z
                                         = true) v));
    [|exact Hacc].
  split; [discriminate|]. rewrite <- E. unfold df_between.
  apply Forall_forall. intros x Hx. apply filter_In in Hx. tauto.
Qed.

(** Hence the data a run fetches for itself always has trading dates: a
    reference series without a bar inside the window arises only from a
    data mapping that was not cut to the window. *)
Lemma fetched_data_has_trading_dates (e e0 : BacktestEngine) (dates : list Z) :
  start_date e0 = start_date e -> end_date e0 = end_date e ->
  _get_trading_dates e0 (BacktestEngine_fetch_historical_data e) = Returned dates ->
  dates <> [].
Proof.
  intros Hs He. pose proof (fetched_frames_in_window e) as Hall.
  unfold _get_trading_dates. rewrite Hs, He.
  destruct (BacktestEngine_fetch_historical_data e) as [|[t df] rest];
    [discriminate|].
  inversion Hall as [|? ? [Hne Hin] _]; subst. simpl in Hne, Hin.
  intro H. injection H as <-.
  destruct df as [|b df]; [congruence|].
  inversion Hin as [|? ? Hb _]; subst. simpl. rewrite Hb. discriminate.
Qed.

End EngineFacts.

(* ------------------------------------------------------------------ *)
(** ** The properties at concrete inputs                                *)
(* ------------------------------------------------------------------ *)

Lemma beta_alpha_length_gate_witness :
  List.length (daily_returns sample_report) = 4%nat
  /\ beta sample_report = np_cov (daily_returns sample_report) sample_benchmark
                          / np_var sample_benchmark.
Proof.
  destruct (beta_alpha_length_gate (engine_with 100 sample_values)
              (Some sample_benchmark) sample_report) as (Hlen & _ & Hgate).
  - vm_compute. reflexivity.
  - split; [exact Hlen|].
    destruct (Hgate sample_benchmark) as (Hbeta & _ & _).
    + reflexivity.
    + discriminate.
    + reflexivity.
    + apply Hbeta. vm_compute. reflexivity.
Defined.

Lemma profit_factor_equals_omega_ratio_witness :
  exists q,
    omega_ratio sample_report = Finite q
    /\ profit_factor sample_report = Finite q /\ q == 109 # 99.
Proof.
  destruct (profit_factor_equals_omega_ratio (engine_with 100 sample_values)
              (Some sample_benchmark) sample_report) as (_ & _ & _ & Hfin).
  - vm_compute. reflexivity.
  - destruct Hfin as (_ & q & Ho & Hp & Hq).
    + exists (-11 # 110). split; [right; left; reflexivity|reflexivity].
    + exists q. split; [exact Ho|]. split; [exact Hp|].
      rewrite Hq. vm_compute. reflexivity.
Defined.

Lemma drawdown_curve_from_running_peak_witness :
  exists peak mdd dds,
    drawdown_loop sample_values 100 0 [] = Returned (peak, mdd, dds)
    /\ List.length dds = 5%nat /\ 0 <= mdd /\ mdd <= 1.
Proof.
  destruct (drawdown_curve_from_running_peak (engine_with 100 sample_values))
    as (peak & mdd & dds & Hloop & _ & Hlen & _ & _ & _ & H0 & H1 & _).
  - discriminate.
  - repeat constructor.
  - exists peak, mdd, dds. repeat split; assumption.
Defined.

Lemma single_day_metrics_witness :
  exists m,
    _calculate_metrics (engine_with 100 [100]) None = Returned (Some m)
    /\ volatility m = 0 /\ sharpe_ratio m = 0.
Proof.
  destruct (single_day_metrics (engine_with 100 [100]) (sp_init "buy_and_hold" 100)
              (recorded 100 100) None (Qpower (1 + (100 / 100 - 1)) 365))
    as ((m & Hm & _ & Hv & Hs & _) & _).
  - reflexivity.
  - reflexivity.
  - reflexivity.
  - vm_compute. reflexivity.
  - exists m. repeat split; assumption.
Defined.

(** C8 as stated fails: with one recorded day the computation raises when
    the initial capital is zero, and when the first value is ten times the
    initial capital, whose 365th power is out of the range of a float. *)
Lemma single_day_metrics_can_raise :
  List.length (results (engine_with 0 [10000])) = 1%nat
  /\ _calculate_metrics (engine_with 0 [10000]) None = Raised ZeroDivisionError
  /\ List.length (results (engine_with 1000 [10000])) = 1%nat
  /\ _calculate_metrics (engine_with 1000 [10000]) None = Raised OverflowError.
Proof. vm_compute. repeat split; reflexivity. Qed.

Lemma equal_weight_strategy_allocation_witness :
  exists e',
    _execute_equal_weight_strategy
      (set_portfolio (demo_engine "daily") (sp_init "equal_weight" 100))
      three_assets = Returned e'
    /\ trace e' = [EnterEqualWeight; CallBuy "SPY" (90 / 3) 100;
                   CallBuy "QQQ" (90 / 3) 100; CallBuy "GLD" (90 / 3) 100].
Proof.
  destruct (equal_weight_strategy_allocation
              (set_portfolio (demo_engine "daily") (sp_init "equal_weight" 100))
              (sp_init "equal_weight" 100) three_assets) as (_ & Hbuy & _).
  - reflexivity.
  - destruct Hbuy as (e' & Hrun & Ht & _).
    + reflexivity.
    + discriminate.
    + exists e'. split; [exact Hrun|exact Ht].
Defined.

(** The example of the spec on the ledger modelled from it: 10000 of
    capital and three assets at 100 leave 30 shares of each (3000 notional)
    and 1000 in cash; a second firing issues nothing. *)
Example equal_weight_three_assets :
  match _execute_equal_weight_strategy
          (set_portfolio (demo_engine "daily") (sp_init "equal_weight" 100))
          three_assets with
  | Returned e1 =>
      match portfolio e1 with
      | Some p =>
          Qeq_bool (sp_cash p) 1000
          && forallb (fun item => Qeq_bool (snd item) 30) (sp_positions p)
          && (List.length (sp_positions p) =? 3)%nat
          && match _execute_equal_weight_strategy e1 three_assets with
             | Returned e2 =>
                 (List.length (filter is_trade (trace e2)) =? 3)%nat
             | Raised _ => false
             end
      | None => false
      end
  | Raised _ => false
  end = true.
Proof. vm_compute. reflexivity. Qed.

Lemma unrecognized_frequency_never_trades_witness :
  _should_rebalance (demo_engine "monthly") 0 (midnight 100) = false
  /\ exists e' p',
      simulate false "equal_weight" stale_data
        (set_portfolio (demo_engine "monthly") (sp_init "equal_weight" 100)) 0
        [midnight 100; midnight 101] = Returned e'
      /\ portfolio e' = Some p' /\ positions p' = [].
Proof.
  destruct (unrecognized_frequency_never_trades (demo_engine "monthly"))
    as (Hgate & Hloop & _).
  - discriminate.
  - discriminate.
  - reflexivity.
  - intros p prices Hp. exact Hp.
  - split; [apply Hgate|].
    destruct (Hloop false "equal_weight" stale_data [midnight 100; midnight 101])
      as (e' & p' & Hsim & _ & _ & Hp & Hpos).
    exists e', p'. repeat split; assumption.
Defined.

(** A run with an unrecognized frequency, on the scripted collaborators:
    five days recorded, no trade, the capital untouched. *)
Example monthly_run_stays_in_cash :
  match run_backtest (demo_engine "monthly") false "equal_weight" "SPY" with
  | Returned (Some res, e') =>
      (res_num_trades res =? 0)%nat
      && (List.length (res_daily_results res) =? 5)%nat
      && forallb (fun ev => negb (is_trade ev || is_executor ev)) (trace e')
      && forallb (fun v => Qeq_bool v 10000) (res_equity_curve res)
  | _ => false
  end = true.
Proof. vm_compute. reflexivity. Qed.

Example body_on_stale_data_raises :
  run_backtest_on (demo_engine "daily") stale_data false "buy_and_hold" "SPY"
  = Raised (KeyError "total_return").
Proof. reflexivity. Qed.

(** A daily buy-and-hold run over five days of the scripted source, from a
    ledger without positions, issues no buy at all; the report counts no
    trade and the equity curve never leaves the cash of the ledger. *)
Example buy_and_hold_run_never_buys :
  match run_backtest (demo_engine "daily") false "buy_and_hold" "SPY" with
  | Returned (Some res, e') =>
      (res_num_trades res =? 0)%nat
      && forallb (fun ev => negb (is_trade ev)) (trace e')
      && forallb (fun v => Qeq_bool v 10000) (res_equity_curve res)
      && match portfolio e' with
         | Some p => negb (truthy (positions p))
         | None => false
         end
  | _ => false
  end = true.
Proof. vm_compute. reflexivity. Qed.

(** The scripted source under [fetch_historical_data]: the empty and the
    failing ticker are dropped, the two healthy ones are kept in order. *)
Example fetch_drops_failing_tickers :
  dict_keys (fetch_historical_data None "30d" "1d") = ["SPY"; "QQQ"].
Proof. reflexivity. Qed.

(** The length gate on the sample run, whose return series has four
    elements: a benchmark of three or of five elements, an empty one and
    none at all each leave beta and alpha at 0. *)
Example beta_alpha_zero_on_mismatch :
  forallb
    (fun bench =>
       match _calculate_metrics (engine_with 100 sample_values) bench with
       | Returned (Some m) => Qeq_bool (beta m) 0 && Qeq_bool (alpha m) 0
       | _ => false
       end)
    [Some [1 # 100; -1 # 100; 2 # 100];
     Some [1 # 100; -1 # 100; 2 # 100; 0; 1 # 100];
     Some [];
     None] = true.
Proof. vm_compute. reflexivity. Qed.

(* ================================================================== *)
(** * Further properties                                                *)
(* ================================================================== *)

(** ** Universe configuration *)

Lemma append_tickers_acc (category : list UniverseConfig.Asset) :
  forall acc r,
    UniverseConfig.append_tickers acc category = Returned r ->
    exists ts, UniverseConfig.append_tickers [] category = Returned ts
               /\ r = acc ++ ts
               /\ Forall2 (fun asset t => dict_get "ticker" asset = Some t)
                    category ts.
Proof.
  induction category as [|asset rest IH]; intros acc r H; simpl in H.
  - injection H as <-. exists []. rewrite app_nil_r. repeat split; constructor.
  - unfold UniverseConfig.item in H.
    destruct (dict_get "ticker" asset) as [t|] eqn:Et; [|discriminate].
    cbn [bind] in H. destruct (IH _ _ H) as (ts & Hts & -> & Hall).
    simpl. unfold UniverseConfig.item. rewrite Et. cbn [bind].
    destruct (UniverseConfig.append_tickers [t] rest) as [r1|ex] eqn:E1.
    + destruct (IH _ _ E1) as (ts1 & Hts1 & -> & _).
      rewrite Hts in Hts1. injection Hts1 as <-.
      exists (t :: ts). rewrite <- app_assoc. repeat split. now constructor.
    + exfalso. clear H. revert E1 Hts. generalize [t]. generalize (@nil string).
      clear. induction rest as [|a rest IH]; intros l1 l2 E1 Hts; simpl in *.
      * discriminate.
      * unfold UniverseConfig.item in *.
        destruct (dict_get "ticker" a); [|discriminate]. cbn [bind] in *.
        eapply IH; eassumption.
Qed.

Lemma all_tickers_loop_incl (categories : list (list UniverseConfig.Asset)) :
  forall acc all,
    UniverseConfig.all_tickers_loop acc categories = Returned all ->
    incl acc all
    /\ forall category, In category categories ->
         exists ts, UniverseConfig.append_tickers [] category = Returned ts
                    /\ incl ts all.
Proof.
  induction categories as [|c rest IH]; intros acc all H; simpl in H.
  - injection H as <-. split; [apply incl_refl|intros ? []].
  - apply bind_inv in H. destruct H as (acc' & Hc & H).
    destruct (append_tickers_acc _ _ _ Hc) as (ts & Hts & -> & _).
    destruct (IH _ _ H) as (Hincl & Hrest). split.
    + intros x Hx. apply Hincl. apply in_or_app. now left.
    + intros category [<-|Hin].
      * exists ts. split; [exact Hts|].
        intros x Hx. apply Hincl. apply in_or_app. now right.
      * now apply Hrest.
Qed.

Lemma dict_get_In {V : Type} (k : string) (v : V) (d : dict V) :
  dict_get k d = Some v -> In (k, v) d.
Proof.
  induction d as [|[k' v'] d IH]; simpl; [discriminate|].
  destruct (String.eqb k k') eqn:E.
  - apply String.eqb_eq in E. subst k'. intro H. injection H as <-. now left.
  - intro H. right. now apply IH.
Qed.

(** X1. When [get_all_tickers] returns, [get_tickers_by_category] returns
    for every category name, with tickers that all occur in the flat list;
    a category that the universe does not have gives the empty list, and
    so does everything when the configuration file is missing. *)
Theorem tickers_by_category_within_all (file : option UniverseConfig.Universe)
    (all : list string) :
  UniverseConfig.get_all_tickers file = Returned all ->
  (forall category,
      exists ts,
        UniverseConfig.get_tickers_by_category file category = Returned ts
        /\ incl ts all
        /\ (dict_get category (UniverseConfig.load_universe file) = None ->
            ts = []))
  /\ (file = None -> all = []).
Proof.
  unfold UniverseConfig.get_all_tickers, UniverseConfig.get_tickers_by_category.
  intro H. split.
  - apply all_tickers_loop_incl in H. destruct H as [_ H]. intro category.
    destruct (dict_get category (UniverseConfig.load_universe file))
      as [assets|] eqn:E.
    + destruct (H assets) as (ts & Hts & Hincl).
      { apply dict_get_In in E. apply in_map_iff. now exists (category, assets). }
      exists ts. repeat split; auto. discriminate.
    + exists []. repeat split; auto. intros x [].
  - intros ->. simpl in H. now injection H as <-.
Qed.

Lemma append_tickers_of (category : list UniverseConfig.Asset) (ts : list string) :
  Forall2 (fun asset t => dict_get "ticker" asset = Some t) category ts ->
  forall acc, UniverseConfig.append_tickers acc category = Returned (acc ++ ts).
Proof.
  induction 1 as [|asset t category ts Ht _ IH]; intro acc; simpl.
  - now rewrite app_nil_r.
  - unfold UniverseConfig.item. rewrite Ht. cbn [bind]. rewrite IH.
    now rewrite <- app_assoc.
Qed.

Lemma all_tickers_loop_of (categories : list (list UniverseConfig.Asset))
    (tss : list (list string)) :
  Forall2 (Forall2 (fun asset t => dict_get "ticker" asset = Some t))
    categories tss ->
  forall acc,
    UniverseConfig.all_tickers_loop acc categories = Returned (acc ++ List.concat tss).
Proof.
  induction 1 as [|c ts categories tss Hc _ IH]; intro acc; simpl.
  - now rewrite app_nil_r.
  - rewrite (append_tickers_of _ _ Hc). cbn [bind]. rewrite IH.
    now rewrite <- app_assoc.
Qed.

Lemma dict_keys_set_In {V : Type} (k t : string) (v : V) (d : dict V) :
  In t (dict_keys (dict_set k v d)) <-> t = k \/ In t (dict_keys d).
Proof.
  destruct (in_dec string_dec k (dict_keys d)) as [Hin|Hnin].
  - rewrite dict_keys_set by assumption. split; [tauto|].
    intros [->|H]; assumption.
  - rewrite dict_keys_set_new by assumption. rewrite in_app_iff. simpl.
    split; [intros [H|[H|[]]]|intros [H|H]]; auto.
Qed.

Lemma add_names_spec (category : list UniverseConfig.Asset) :
  forall names r,
    UniverseConfig.add_names names category = Returned r ->
    exists ts,
      Forall2 (fun asset t => dict_get "ticker" asset = Some t) category ts
      /\ (forall t, In t (dict_keys r) <-> In t (dict_keys names) \/ In t ts)
      /\ (NoDup (dict_keys names) -> NoDup (dict_keys r))
      /\ (forall t n,
             dict_get t r = Some n ->
             dict_get t names = Some n
             \/ exists asset, In asset category
                              /\ dict_get "ticker" asset = Some t
                              /\ dict_get "name" asset = Some n).
Proof.
  induction category as [|asset rest IH]; intros names r H; simpl in H.
  - injection H as <-. exists []. split; [constructor|].
    split; [intro t; simpl; tauto|]. split; [auto|]. intros t n Hn. now left.
  - unfold UniverseConfig.item in H.
    destruct (dict_get "name" asset) as [n0|] eqn:En; [|discriminate].
    destruct (dict_get "ticker" asset) as [t0|] eqn:Et; [|discriminate].
    cbn [bind] in H. destruct (IH _ _ H) as (ts & Hall & Hkeys & Hnd & Hget).
    exists (t0 :: ts). split; [now constructor|]. split; [|split].
    + intro t. rewrite Hkeys, dict_keys_set_In. simpl. split.
      * intros [[->|Hin]|Hin]; auto.
      * intros [Hin|[->|Hin]]; auto.
    + intro Hn. apply Hnd. now apply dict_set_NoDup.
    + intros t n Hr. destruct (Hget t n Hr) as [Hset|(a & Hin & Ha1 & Ha2)].
      * destruct (string_dec t t0) as [->|Hne].
        -- rewrite dict_get_set_same in Hset. injection Hset as <-.
           right. exists asset. repeat split; auto. now left.
        -- rewrite dict_get_set_other in Hset by assumption. now left.
      * right. exists a. repeat split; auto. now right.
Qed.

Lemma names_loop_spec (categories : list (list UniverseConfig.Asset)) :
  forall names r,
    UniverseConfig.names_loop names categories = Returned r ->
    exists tss,
      Forall2 (Forall2 (fun asset t => dict_get "ticker" asset = Some t))
        categories tss
      /\ (forall t, In t (dict_keys r)
                    <-> In t (dict_keys names) \/ In t (List.concat tss))
      /\ (NoDup (dict_keys names) -> NoDup (dict_keys r))
      /\ (forall t n,
             dict_get t r = Some n ->
             dict_get t names = Some n
             \/ exists category asset,
                 In category categories /\ In asset category
                 /\ dict_get "ticker" asset = Some t
                 /\ dict_get "name" asset = Some n).
Proof.
  induction categories as [|c rest IH]; intros names r H; simpl in H.
  - injection H as <-. exists []. split; [constructor|].
    split; [intro t; simpl; tauto|]. split; [auto|]. intros t n Hn. now left.
  - apply bind_inv in H. destruct H as (names' & Hc & H).
    destruct (add_names_spec _ _ _ Hc) as (ts & Hall & Hkeys & Hnd & Hget).
    destruct (IH _ _ H) as (tss & Halls & Hkeys' & Hnd' & Hget').
    exists (ts :: tss). split; [now constructor|]. split; [|split].
    + intro t. rewrite Hkeys', Hkeys. simpl. rewrite in_app_iff. tauto.
    + auto.
    + intros t n Hr.
      destruct (Hget' t n Hr) as [Hn|(cat & a & Hcat & Hin & Ha1 & Ha2)].
      * destruct (Hget t n Hn) as [Hn0|(a & Hin & Ha1 & Ha2)]; [now left|].
        right. exists c, a. repeat split; auto. now left.
      * right. exists cat, a. repeat split; auto. now right.
Qed.

(** X2. When [get_ticker_names] returns, [get_all_tickers] returns too, the
    keys of the name mapping are exactly the tickers of the flat list
    (each once), and every entry is the name of an asset listed under that
    ticker. *)
Theorem ticker_names_cover_all_tickers (file : option UniverseConfig.Universe)
    (names : dict string) :
  UniverseConfig.get_ticker_names file = Returned names ->
  exists all,
    UniverseConfig.get_all_tickers file = Returned all
    /\ (forall t, In t (dict_keys names) <-> In t all)
    /\ NoDup (dict_keys names)
    /\ (forall t n,
           dict_get t names = Some n ->
           exists category asset,
             In category (map snd (UniverseConfig.load_universe file))
             /\ In asset category
             /\ dict_get "ticker" asset = Some t
             /\ dict_get "name" asset = Some n).
Proof.
  unfold UniverseConfig.get_ticker_names, UniverseConfig.get_all_tickers.
  intro H. destruct (names_loop_spec _ _ _ H) as (tss & Hall & Hkeys & Hnd & Hget).
  exists (List.concat tss). rewrite (all_tickers_loop_of _ _ Hall). simpl.
  split; [reflexivity|]. split; [|split].
  - intro t. rewrite Hkeys. simpl. tauto.
  - apply Hnd. constructor.
  - intros t n Hn. destruct (Hget t n Hn) as [Hnil|Hex]; [discriminate|exact Hex].
Qed.

Lemma append_tickers_raises (category : list UniverseConfig.Asset) :
  forall acc ex,
    UniverseConfig.append_tickers acc category = Raised ex ->
    ex = KeyError "ticker".
Proof.
  induction category as [|asset rest IH]; intros acc ex H; simpl in H.
  - discriminate.
  - unfold UniverseConfig.item in H. destruct (dict_get "ticker" asset).
    + cbn [bind] in H. eapply IH; eassumption.
    + now injection H as <-.
Qed.

Lemma all_tickers_loop_raises (categories : list (list UniverseConfig.Asset)) :
  forall acc ex,
    UniverseConfig.all_tickers_loop acc categories = Raised ex ->
    ex = KeyError "ticker".
Proof.
  induction categories as [|c rest IH]; intros acc ex H; simpl in H.
  - discriminate.
  - destruct (UniverseConfig.append_tickers acc c) as [acc'|ex'] eqn:E.
    + cbn [bind] in H. eapply IH; eassumption.
    + cbn [bind] in H. injection H as <-. eapply append_tickers_raises; eassumption.
Qed.

(** X3. An asset without a "ticker" field makes [get_all_tickers] raise
    [KeyError("ticker")], wherever it stands in the universe; no partial
    list is returned. *)
Theorem all_tickers_missing_field_raises (universe : UniverseConfig.Universe)
    (category : string) (assets : list UniverseConfig.Asset)
    (asset : UniverseConfig.Asset) :
  In (category, assets) universe ->
  In asset assets ->
  dict_get "ticker" asset = None ->
  UniverseConfig.get_all_tickers (Some universe) = Raised (KeyError "ticker").
Proof.
  intros Hc Ha Hmiss. unfold UniverseConfig.get_all_tickers. simpl.
  destruct (UniverseConfig.all_tickers_loop [] (map snd universe))
    as [all|ex] eqn:E.
  - exfalso. apply all_tickers_loop_incl in E. destruct E as [_ E].
    destruct (E assets) as (ts & Hts & _).
    { apply in_map_iff. now exists (category, assets). }
    apply append_tickers_acc in Hts. destruct Hts as (ts' & _ & _ & Hall).
    clear - Ha Hmiss Hall. induction Hall as [|a t l l' Ht _ IH]; [contradiction|].
    destruct Ha as [->|Ha]; [congruence|auto].
  - f_equal. eapply all_tickers_loop_raises; eassumption.
Qed.

(** ** Current prices *)

Section CurrentPriceFacts.
Context {Y : YFinance}.

Lemma fetch_current_one_set (results : dict (option Q)) (ticker : string) :
  fetch_current_one results ticker
  = dict_set ticker (recorded_price ticker) results.
Proof.
  unfold recorded_price, fetch_current_one.
  destruct (yf_history ticker "1d" "1m") as [hist|ex]; simpl.
  - destruct (if df_empty hist then yf_history ticker "5d" "1d"
              else Returned hist) as [hist'|ex]; simpl.
    + destruct (df_empty hist'); simpl; now rewrite String.eqb_refl.
    + now rewrite String.eqb_refl.
  - now rewrite String.eqb_refl.
Qed.

Lemma fetch_current_loop_get (tickers : list string) :
  forall (results : dict (option Q)) (t : string),
    dict_get t (fold_left fetch_current_one tickers results)
    = if in_dec string_dec t tickers then Some (recorded_price t)
      else dict_get t results.
Proof.
  induction tickers as [|a tickers IH]; intros results t; [reflexivity|].
  cbn [fold_left]. rewrite IH, fetch_current_one_set.
  destruct (in_dec string_dec t tickers) as [Hin|Hnin];
    destruct (in_dec string_dec t (a :: tickers)) as [Hin'|Hnin'];
    simpl in *; try reflexivity; try tauto.
  - destruct Hin' as [->|Hin']; [|contradiction]. apply dict_get_set_same.
  - apply dict_get_set_other. intro Heq. apply Hnin'. now left.
Qed.

Lemma fetch_current_loop_NoDup (tickers : list string) :
  forall results : dict (option Q),
    NoDup (dict_keys results) ->
    NoDup (dict_keys (fold_left fetch_current_one tickers results)).
Proof.
  induction tickers as [|a tickers IH]; intros results H; [exact H|].
  cbn [fold_left]. apply IH. rewrite fetch_current_one_set.
  now apply dict_set_NoDup.
Qed.

(** X4. [fetch_current_prices] has an entry for every requested ticker
    and for no other, each once.  The entry is the last close of the
    one-minute frame when that frame has bars, else the last close of the
    five-day frame when that one has bars; it is [None] when a download
    raises or both frames are empty. *)
Theorem current_prices_cover_every_ticker (tickers : option (list string)) :
  let requested := match tickers with
                   | None => get_all_tickers
                   | Some ts => ts
                   end in
  let results := fetch_current_prices tickers in
  (forall t, In t (dict_keys results) <-> In t requested)
  /\ NoDup (dict_keys results)
  /\ (forall t,
         In t requested ->
         (forall ex, yf_history t "1d" "1m" = Raised ex ->
                     dict_get t results = Some None)
         /\ (forall hist, yf_history t "1d" "1m" = Returned hist -> hist <> [] ->
                          dict_get t results = Some (Some (last_close hist)))
         /\ (forall hist5,
                yf_history t "1d" "1m" = Returned [] ->
                yf_history t "5d" "1d" = Returned hist5 -> hist5 <> [] ->
                dict_get t results = Some (Some (last_close hist5)))
         /\ (yf_history t "1d" "1m" = Returned [] ->
             (forall hist5, yf_history t "5d" "1d" = Returned hist5 -> hist5 = []) ->
             dict_get t results = Some None)).
Proof.
  intros requested results.
  assert (Hget : forall t,
             dict_get t results
             = if in_dec string_dec t requested then Some (recorded_price t)
               else None).
  { intro t. unfold results, fetch_current_prices. fold requested.
    now rewrite fetch_current_loop_get. }
  split; [|split].
  - intro t. rewrite dict_get_keys, Hget.
    destruct (in_dec string_dec t requested); split; try tauto; eauto.
    intros [v Hv]. discriminate.
  - unfold results, fetch_current_prices. apply fetch_current_loop_NoDup.
    constructor.
  - intros t Hin. rewrite Hget.
    destruct (in_dec string_dec t requested) as [_|Hn]; [|contradiction].
    unfold recorded_price, fetch_current_one. repeat split.
    + intros ex ->. simpl. now rewrite String.eqb_refl.
    + intros hist -> Hne. destruct hist as [|b hist]; [congruence|].
      simpl. now rewrite String.eqb_refl.
    + intros hist5 -> -> Hne. destruct hist5 as [|b hist5]; [congruence|].
      simpl. now rewrite String.eqb_refl.
    + intros -> Hempty. simpl.
      destruct (yf_history t "5d" "1d") as [hist5|ex]; simpl.
      * rewrite (Hempty hist5 eq_refl). simpl. now rewrite String.eqb_refl.
      * now rewrite String.eqb_refl.
Qed.

End CurrentPriceFacts.

(** ** Frames, snapshots and trading dates *)

Lemma dict_get_notin {V : Type} (k : string) (d : dict V) :
  ~ In k (dict_keys d) -> dict_get k d = None.
Proof.
  intro H. destruct (dict_get k d) as [v|] eqn:E; [|reflexivity].
  exfalso. apply H. apply dict_get_keys. eauto.
Qed.

(** Loops of the shape [for key, v in data.items(): if ..: out[key] = ..]. *)
Lemma fold_collect_get {V W : Type} (g : string * V -> option W)
    (step : dict W -> string * V -> dict W) :
  (forall acc item,
      step acc item = match g item with
                      | Some w => dict_set (fst item) w acc
                      | None => acc
                      end) ->
  forall data, NoDup (dict_keys data) ->
  forall acc t,
    dict_get t (fold_left step data acc)
    = match dict_get t data with
      | Some v => match g (t, v) with
                  | Some w => Some w
                  | None => dict_get t acc
                  end
      | None => dict_get t acc
      end.
Proof.
  intro Hstep. induction data as [|[k v] data IH]; intros Hnd acc t; [reflexivity|].
  inversion Hnd as [|? ? Hk Hnd']; subst. cbn [fold_left].
  rewrite (IH Hnd'), Hstep. cbn [fst dict_get].
  destruct (String.eqb t k) eqn:E.
  - apply String.eqb_eq in E. subst k.
    rewrite (dict_get_notin _ _ Hk).
    destruct (g (t, v)); [apply dict_get_set_same|reflexivity].
  - apply String.eqb_neq in E.
    assert (Hacc : dict_get t match g (k, v) with
                              | Some w => dict_set k w acc
                              | None => acc
                              end = dict_get t acc).
    { destruct (g (k, v)); [now apply dict_get_set_other|reflexivity]. }
    now rewrite Hacc.
Qed.

Lemma last_cons_default {X : Type} (l : list X) :
  forall b d : X, last (b :: l) d = last l b.
Proof.
  induction l as [|x l IH]; intros b d; [reflexivity|].
  change (last (b :: x :: l) d) with (last (x :: l) d).
  now rewrite (IH x d), (IH x b).
Qed.

Lemma last_In {X : Type} (l : list X) : forall b : X, In (last l b) (b :: l).
Proof.
  induction l as [|x l IH]; intro b; [now left|].
  right. rewrite last_cons_default. apply IH.
Qed.

Section DataFacts.
Context {Y : YFinance} {L : Ledger} {N : Numeric} {A : Agent}.

Lemma price_entry_collect (date : Z) (prices : dict Q)
    (item : string * DataFrame) :
  price_entry date prices item
  = match (match bars_on date (snd item) with
           | [] => None
           | b :: tl => Some (bar_close (last tl b))
           end) with
    | Some w => dict_set (fst item) w prices
    | None => prices
    end.
Proof.
  unfold price_entry, bars_on.
  now destruct (filter (fun b => (day_of (bar_ts b) =? day_of date)%Z) (snd item)).
Qed.

Lemma prices_for_date_get (data : dict DataFrame) (date : Z) (t : string) :
  NoDup (dict_keys data) ->
  dict_get t (_get_prices_for_date data date)
  = match dict_get t data with
    | Some df => match bars_on date df with
                 | [] => None
                 | b :: tl => Some (bar_close (last tl b))
                 end
    | None => None
    end.
Proof.
  intro Hnd. unfold _get_prices_for_date.
  rewrite (fold_collect_get
             (fun item => match bars_on date (snd item) with
                          | [] => None
                          | b :: tl => Some (bar_close (last tl b))
                          end)
             (price_entry date) (price_entry_collect date) data Hnd).
  simpl. destruct (dict_get t data) as [df|]; [|reflexivity].
  now destruct (bars_on date df).
Qed.

(** X5. The snapshot of a date holds an asset exactly when its series has
    a bar on that calendar day, with the close of the last such bar; an
    asset without a bar that day, or without a series, is absent (no price
    is filled in), and every price of the snapshot is the close of a bar
    of that asset on that day. *)
Theorem prices_for_date_exact_day (data : dict DataFrame) (date : Z) (t : string) :
  NoDup (dict_keys data) ->
  let snapshot := _get_prices_for_date data date in
  (dict_get t data = None -> dict_get t snapshot = None)
  /\ (forall df, dict_get t data = Some df -> bars_on date df = [] ->
                 dict_get t snapshot = None)
  /\ (forall df, dict_get t data = Some df -> bars_on date df <> [] ->
                 dict_get t snapshot = Some (last_close (bars_on date df)))
  /\ (forall price,
         dict_get t snapshot = Some price ->
         exists df b, dict_get t data = Some df /\ In b df
                      /\ day_of (bar_ts b) = day_of date /\ bar_close b = price).
Proof.
  intros Hnd snapshot. unfold snapshot. rewrite (prices_for_date_get _ _ _ Hnd).
  repeat split.
  - now intros ->.
  - now intros df -> ->.
  - intros df -> Hne. destruct (bars_on date df) as [|b tl]; [congruence|].
    unfold last_close. now rewrite last_cons_default.
  - intros price H. destruct (dict_get t data) as [df|]; [|discriminate].
    destruct (bars_on date df) as [|b tl] eqn:E; [discriminate|].
    injection H as <-. exists df, (last tl b).
    assert (Hin : In (last tl b) (bars_on date df)) by (rewrite E; apply last_In).
    unfold bars_on in Hin. apply filter_In in Hin. destruct Hin as [Hin Hday].
    apply Z.eqb_eq in Hday. auto.
Qed.

(** X6. On every trading date the reference (first) series has a bar, so
    the snapshot of that date holds the reference asset and is never
    empty. *)
Theorem trading_date_prices_reference (e : BacktestEngine)
    (data : dict DataFrame) (dates : list Z) (d : Z) :
  NoDup (dict_keys data) ->
  _get_trading_dates e data = Returned dates ->
  In d dates ->
  exists t0 df0 rest price,
    data = (t0, df0) :: rest
    /\ dict_get t0 (_get_prices_for_date data d) = Some price
    /\ _get_prices_for_date data d <> [].
Proof.
  intros Hnd Hdates Hd. unfold _get_trading_dates in Hdates.
  destruct data as [|[t0 df0] rest]; [discriminate|]. injection Hdates as <-.
  apply filter_In in Hd. destruct Hd as [Hd _]. apply in_map_iff in Hd.
  destruct Hd as (b & Hts & Hb).
  assert (Hbars : bars_on d df0 <> []).
  { intro Hnil. assert (Hin : In b (bars_on d df0)).
    { unfold bars_on. apply filter_In. split; [exact Hb|].
      rewrite Hts. apply Z.eqb_refl. }
    rewrite Hnil in Hin. exact Hin. }
  assert (Hget : dict_get t0 (_get_prices_for_date ((t0, df0) :: rest) d)
                 = Some (last_close (bars_on d df0))).
  { rewrite (prices_for_date_get _ _ _ Hnd). simpl. rewrite String.eqb_refl.
    destruct (bars_on d df0) as [|b0 tl]; [congruence|].
    unfold last_close. now rewrite last_cons_default. }
  exists t0, df0, rest, (last_close (bars_on d df0)).
  split; [reflexivity|]. split; [exact Hget|].
  intro Hnil. rewrite Hnil in Hget. discriminate.
Qed.

Lemma keep_window_collect (e : BacktestEngine) (acc : dict DataFrame)
    (item : string * DataFrame) :
  keep_window e acc item
  = match (let df := df_between (midnight (start_date e))
                       (midnight (end_date e)) (snd item) in
           if df_empty df then None else Some df) with
    | Some w => dict_set (fst item) w acc
    | None => acc
    end.
Proof.
  unfold keep_window. cbv zeta.
  now destruct (df_empty (df_between (midnight (start_date e))
                            (midnight (end_date e)) (snd item))).
Qed.

Lemma engine_fetch_get (e : BacktestEngine) (t : string) (df : DataFrame) :
  let period := (py_str (end_date e - start_date e + 60) ++ "d")%string in
  dict_get t (BacktestEngine_fetch_historical_data e) = Some df <->
  exists raw,
    In t (tickers e)
    /\ yf_history t period "1d" = Returned raw
    /\ df = df_between (midnight (start_date e)) (midnight (end_date e)) raw
    /\ df <> [].
Proof.
  intro period. unfold BacktestEngine_fetch_historical_data. fold period.
  rewrite (fold_collect_get _ (keep_window e) (keep_window_collect e));
    [|unfold fetch_historical_data; apply fetch_loop_NoDup; constructor].
  unfold fetch_historical_data. rewrite fetch_loop_get. simpl dict_get.
  cbv zeta. cbn [snd].
  destruct (in_dec string_dec t (tickers e)) as [Hin|Hnin].
  - destruct (fetched_frame period "1d" t) as [raw|] eqn:Ef.
    + apply fetched_frame_spec in Ef. destruct Ef as [Hy Hraw].
      destruct (df_between (midnight (start_date e)) (midnight (end_date e)) raw)
        as [|b cut] eqn:Ec; simpl; split.
      * discriminate.
      * intros (raw' & _ & Hy' & -> & Hne). rewrite Hy in Hy'.
        injection Hy' as <-. congruence.
      * intro H. injection H as <-. exists raw. repeat split; auto. discriminate.
      * intros (raw' & _ & Hy' & -> & _). rewrite Hy in Hy'.
        injection Hy' as <-. now rewrite Ec.
    + split; [discriminate|]. intros (raw & _ & Hy & -> & Hne).
      assert (Hs : fetched_frame period "1d" t = Some raw).
      { apply fetched_frame_spec. split; [exact Hy|].
        intros ->. now apply Hne. }
      congruence.
  - split; [discriminate|]. intros (raw & Hin & _). contradiction.
Qed.

Lemma keep_window_NoDup (e : BacktestEngine) (raw : dict DataFrame) :
  forall acc, NoDup (dict_keys acc) ->
              NoDup (dict_keys (fold_left (keep_window e) raw acc)).
Proof.
  induction raw as [|item raw IH]; intros acc Hacc; [exact Hacc|].
  cbn [fold_left]. apply IH. rewrite keep_window_collect. cbv zeta.
  destruct (df_empty _); [exact Hacc|now apply dict_set_NoDup].
Qed.

(** X7. [BacktestEngine.fetch_historical_data] maps a ticker to a frame
    exactly when the ticker was requested and its download returned bars
    of which some lie inside the window; the frame is the window cut of
    the download.  Tickers are listed once. *)
Theorem engine_fetch_cuts_to_window (e : BacktestEngine) :
  let period := (py_str (end_date e - start_date e + 60) ++ "d")%string in
  let data := BacktestEngine_fetch_historical_data e in
  (forall t df,
      dict_get t data = Some df <->
      exists raw,
        In t (tickers e)
        /\ yf_history t period "1d" = Returned raw
        /\ df = df_between (midnight (start_date e)) (midnight (end_date e)) raw
        /\ df <> [])
  /\ NoDup (dict_keys data).
Proof.
  intros period data. split.
  - intros t df. apply engine_fetch_get.
  - unfold data, BacktestEngine_fetch_historical_data.
    apply keep_window_NoDup. constructor.
Qed.

Lemma dict_all_none {V : Type} (d : dict V) :
  (forall t, dict_get t d = None) -> d = [].
Proof.
  destruct d as [|[k v] d]; [reflexivity|]. intro H. specialize (H k).
  simpl in H. rewrite String.eqb_refl in H. discriminate.
Qed.

(** X8. [run_backtest] returns the empty result exactly when no requested
    ticker comes back with a bar inside the window; it then leaves the
    engine as it was (no ledger is built, nothing is recorded). *)
Theorem run_backtest_empty_iff_no_data (e : BacktestEngine) (use_llm : bool)
    (strategy benchmark : string) :
  let period := (py_str (end_date e - start_date e + 60) ++ "d")%string in
  ((exists e', run_backtest e use_llm strategy benchmark = Returned (None, e'))
   <-> (forall t raw,
           In t (tickers e) -> yf_history t period "1d" = Returned raw ->
           df_between (midnight (start_date e)) (midnight (end_date e)) raw = []))
  /\ ((forall t raw,
          In t (tickers e) -> yf_history t period "1d" = Returned raw ->
          df_between (midnight (start_date e)) (midnight (end_date e)) raw = []) ->
      run_backtest e use_llm strategy benchmark = Returned (None, e)).
Proof.
  intro period.
  assert (Hempty : (forall t raw,
                       In t (tickers e) -> yf_history t period "1d" = Returned raw ->
                       df_between (midnight (start_date e)) (midnight (end_date e)) raw
                       = []) ->
                   BacktestEngine_fetch_historical_data e = []).
  { intro Hall. apply dict_all_none. intro t.
    destruct (dict_get t (BacktestEngine_fetch_historical_data e)) as [df|] eqn:E;
      [|reflexivity].
    apply engine_fetch_get in E. destruct E as (raw & Hin & Hy & -> & Hne).
    exfalso. apply Hne. eapply Hall; eassumption. }
  assert (Hrun : BacktestEngine_fetch_historical_data e = [] ->
                 run_backtest e use_llm strategy benchmark = Returned (None, e)).
  { intro H. unfold run_backtest, run_backtest_on. now rewrite H. }
  split; [split|].
  - intros (e' & Hret) t raw Hin Hy. unfold run_backtest in Hret.
    apply run_backtest_on_inv in Hret.
    destruct Hret as [(Hd & _ & _)|(_ & dates & _ & _ & m & res & _ & _ & Hr)];
      [|discriminate].
    destruct (df_between (midnight (start_date e)) (midnight (end_date e)) raw)
      as [|b cut] eqn:Ec; [reflexivity|].
    exfalso.
    assert (Hg : dict_get t (BacktestEngine_fetch_historical_data e)
                 = Some (b :: cut)).
    { apply engine_fetch_get. exists raw. rewrite Ec.
      repeat split; auto. discriminate. }
    rewrite Hd in Hg. discriminate.
  - intro Hall. exists e. auto.
  - intro Hall. auto.
Qed.

Lemma indicators_entry_collect (date : Z)
    (market_data : dict (MarketEntry Indicators Latest))
    (item : string * DataFrame) :
  indicators_entry date market_data item
  = match (let hist := filter (fun b => (bar_ts b <=? date)%Z) (snd item) in
           if (List.length hist <? 20)%nat then None
           else Some (mkMarketEntry (calculate_all_indicators hist)
                        (get_latest_indicators (calculate_all_indicators hist))
                        (if (1 <? List.length hist)%nat
                         then np_divide (last (closes hist) 0)
                                (hd 0 (closes hist)) - 1
                         else 0))) with
    | Some w => dict_set (fst item) w market_data
    | None => market_data
    end.
Proof.
  unfold indicators_entry. cbv zeta.
  now destruct (List.length (filter (fun b => (bar_ts b <=? date)%Z) (snd item))
                <? 20)%nat.
Qed.

(** X9. [calculate_indicators_for_date] has an entry for an asset exactly
    when the asset has at least twenty bars at or before the date; the
    entry's total return is the last of those closes over the first,
    minus one, and its indicators are computed from those bars only. *)
Theorem indicators_need_twenty_bars (data : dict DataFrame) (date : Z)
    (t : string) :
  NoDup (dict_keys data) ->
  let market_data := calculate_indicators_for_date data date in
  (dict_mem t market_data = true <->
   exists df, dict_get t data = Some df
              /\ (20 <= List.length (filter (fun b => (bar_ts b <=? date)%Z) df))%nat)
  /\ (forall entry,
         dict_get t market_data = Some entry ->
         exists df,
           let hist := filter (fun b => (bar_ts b <=? date)%Z) df in
           dict_get t data = Some df
           /\ me_dataframe _ _ entry = calculate_all_indicators hist
           /\ me_total_return _ _ entry
              = np_divide (last (closes hist) 0) (hd 0 (closes hist)) - 1).
Proof.
  intros Hnd market_data. unfold market_data, calculate_indicators_for_date, dict_mem.
  rewrite (fold_collect_get _ (indicators_entry date)
             (indicators_entry_collect date) data Hnd).
  simpl dict_get. cbv zeta. cbn [snd].
  destruct (dict_get t data) as [df|]; [|split;
    [split; [discriminate|intros (df & H & _); discriminate]|discriminate]].
  destruct (List.length (filter (fun b => (bar_ts b <=? date)%Z) df) <? 20)%nat
    eqn:E.
  - apply Nat.ltb_lt in E. split; [split; [discriminate|]|discriminate].
    intros (df' & H & Hlen). injection H as <-. lia.
  - apply Nat.ltb_ge in E. split.
    + split; [|reflexivity]. intros _. exists df. auto.
    + intros entry H. injection H as <-. exists df. cbv zeta. simpl.
      repeat split.
      assert (H1 : (1 <? List.length (filter (fun b => (bar_ts b <=? date)%Z) df))%nat
                   = true) by (apply Nat.ltb_lt; lia).
      now rewrite H1.
Qed.

End DataFacts.

(** ** What a run does to the engine *)

Section RunFacts.
Context {Y : YFinance} {L : Ledger} {N : Numeric} {A : Agent}.

Lemma ledger_step_refl (e : BacktestEngine) : ledger_step e e.
Proof.
  unfold ledger_step. split; [apply same_config_refl|]. split; [reflexivity|].
  split; [exists []; now rewrite app_nil_r|auto].
Qed.

Lemma ledger_step_trans (e1 e2 e3 : BacktestEngine) :
  ledger_step e1 e2 -> ledger_step e2 e3 -> ledger_step e1 e3.
Proof.
  intros (Hc1 & Hr1 & (ev1 & Ht1) & Hp1) (Hc2 & Hr2 & (ev2 & Ht2) & Hp2).
  split; [eapply same_config_trans; eassumption|]. split; [congruence|].
  split; [|auto]. exists (ev1 ++ ev2). now rewrite Ht2, Ht1, app_assoc.
Qed.

Lemma ledger_step_log (e : BacktestEngine) (ev : event) : ledger_step e (log e ev).
Proof.
  unfold ledger_step, same_config. simpl. repeat split; eauto.
Qed.

Lemma call_update_prices_step (e e' : BacktestEngine) (prices : dict Q) :
  call_update_prices e prices = Returned e' -> ledger_step e e'.
Proof.
  unfold call_update_prices, the_portfolio.
  destruct (portfolio e); [|discriminate]. cbn [bind]. intro H. injection H as <-.
  unfold ledger_step, same_config. simpl. repeat split; eauto. discriminate.
Qed.

Lemma call_buy_step (e e' : BacktestEngine) (t : string) (pct price : Q) :
  call_buy e t pct price = Returned e' -> ledger_step e e'.
Proof.
  unfold call_buy, the_portfolio.
  destruct (portfolio e); [|discriminate]. cbn [bind]. intro H. injection H as <-.
  unfold ledger_step, same_config. simpl. repeat split; eauto. discriminate.
Qed.

Lemma call_sell_step (e e' : BacktestEngine) (t : string) (price : Q) :
  call_sell e t price = Returned e' -> ledger_step e e'.
Proof.
  unfold call_sell, the_portfolio.
  destruct (portfolio e); [|discriminate]. cbn [bind]. intro H. injection H as <-.
  unfold ledger_step, same_config. simpl. repeat split; eauto. discriminate.
Qed.

Lemma call_get_summary_step (e e' : BacktestEngine) (s : Summary) :
  call_get_summary e = Returned (s, e') ->
  ledger_step e e'
  /\ exists p, portfolio e = Some p /\ s = get_summary p
               /\ e' = log e CallGetSummary.
Proof.
  unfold call_get_summary, the_portfolio.
  destruct (portfolio e) as [p|] eqn:Ep; [|discriminate]. cbn [bind]. intro H.
  injection H as <- <-. split; [|eauto].
  unfold ledger_step, same_config. simpl. repeat split; eauto.
Qed.

Lemma execute_action_step (prices : dict Q) (e e' : BacktestEngine) (a : Action) :
  execute_action prices e a = Returned e' -> ledger_step e e'.
Proof.
  unfold execute_action.
  destruct (act_ticker a) as [t|];
    [|intro H; injection H as <-; apply ledger_step_refl].
  destruct (dict_get t prices) as [price|];
    [|intro H; injection H as <-; apply ledger_step_refl].
  destruct (act_action a) as [kind|];
    [|intro H; injection H as <-; apply ledger_step_refl].
  destruct (String.eqb kind "buy"); [apply call_buy_step|].
  destruct (String.eqb kind "sell"); [apply call_sell_step|].
  intro H. injection H as <-. apply ledger_step_refl.
Qed.

Lemma execute_actions_step (prices : dict Q) (actions : list Action) :
  forall e e', execute_actions prices e actions = Returned e' -> ledger_step e e'.
Proof.
  induction actions as [|a rest IH]; intros e e' H; simpl in H.
  - injection H as <-. apply ledger_step_refl.
  - apply bind_inv in H. destruct H as (e1 & H1 & H).
    eapply ledger_step_trans; [eapply execute_action_step; eassumption|].
    now apply IH.
Qed.

Lemma buy_each_step (pct : Q) (items : dict Q) :
  forall e e', buy_each e pct items = Returned e' -> ledger_step e e'.
Proof.
  induction items as [|[t price] rest IH]; intros e e' H; simpl in H.
  - injection H as <-. apply ledger_step_refl.
  - apply bind_inv in H. destruct H as (e1 & H1 & H).
    eapply ledger_step_trans; [eapply call_buy_step; eassumption|]. now apply IH.
Qed.

Lemma rebalance_step (e e' : BacktestEngine) (use_llm : bool) (strategy : string)
    (data : dict DataFrame) (d : Z) (prices : dict Q) :
  rebalance e use_llm strategy data d prices = Returned e' -> ledger_step e e'.
Proof.
  unfold rebalance. destruct (String.eqb strategy "llm" && use_llm).
  - unfold _execute_llm_strategy. intro H.
    apply bind_inv in H. destruct H as ([s e1] & H1 & H).
    apply bind_inv in H. destruct H as (actions & _ & H).
    apply call_get_summary_step in H1. destruct H1 as [H1 _].
    eapply ledger_step_trans; [apply ledger_step_log|].
    eapply ledger_step_trans; [exact H1|].
    eapply execute_actions_step; eassumption.
  - destruct (String.eqb strategy "equal_weight").
    + unfold _execute_equal_weight_strategy. intro H.
      apply bind_inv in H. destruct H as (p & _ & H).
      eapply ledger_step_trans; [apply ledger_step_log|].
      destruct (truthy (positions p));
        [injection H as <-; apply ledger_step_refl|].
      destruct (List.length prices =? 0)%nat;
        [injection H as <-; apply ledger_step_refl|].
      apply bind_inv in H. destruct H as (pct & _ & H).
      eapply buy_each_step; eassumption.
    + intro H. injection H as <-. apply ledger_step_refl.
Qed.

(** One day: one more result, dated by the calendar day. *)
Lemma simulate_day_records (use_llm : bool) (strategy : string)
    (data : dict DataFrame) (e e' : BacktestEngine) (i d : Z) :
  simulate_day use_llm strategy data e i d = Returned e' ->
  same_config e e'
  /\ (exists r, results e' = results e ++ [r] /\ dr_date r = day_of d)
  /\ (exists evs, trace e' = trace e ++ evs)
  /\ portfolio e' <> None.
Proof.
  unfold simulate_day. intro H.
  apply bind_inv in H. destruct H as (e1 & H1 & H).
  apply bind_inv in H. destruct H as (e2 & H2 & H).
  apply call_update_prices_step in H1.
  assert (H12 : ledger_step e1 e2).
  { destruct (_should_rebalance e1 i d);
      [eapply rebalance_step; eassumption|].
    injection H2 as <-. apply ledger_step_refl. }
  pose proof (ledger_step_trans _ _ _ H1 H12) as (Hc & Hr & (evs & Ht) & _).
  unfold _record_daily_result in H.
  apply bind_inv in H. destruct H as ([s e3] & H3 & H).
  apply call_get_summary_step in H3.
  destruct H3 as [(Hc3 & Hr3 & (evs3 & Ht3) & _) (p & Hp & _ & He3)].
  injection H as <-. simpl. split; [|split; [|split]].
  - eapply same_config_trans; eassumption.
  - eexists. rewrite Hr3, Hr. split; reflexivity.
  - exists (evs ++ evs3). now rewrite Ht3, Ht, app_assoc.
  - rewrite He3. simpl. rewrite Hp. discriminate.
Qed.

Lemma simulate_records (use_llm : bool) (strategy : string)
    (data : dict DataFrame) (dates : list Z) :
  forall (e e' : BacktestEngine) (i : Z),
    simulate use_llm strategy data e i dates = Returned e' ->
    same_config e e'
    /\ (exists new, results e' = results e ++ new
                    /\ map dr_date new = map day_of dates)
    /\ (exists evs, trace e' = trace e ++ evs)
    /\ (portfolio e <> None -> portfolio e' <> None).
Proof.
  induction dates as [|d dates IH]; intros e e' i H; simpl in H.
  - injection H as <-. split; [apply same_config_refl|].
    split; [exists []; now rewrite app_nil_r|].
    split; [exists []; now rewrite app_nil_r|auto].
  - apply bind_inv in H. destruct H as (e1 & H1 & H).
    apply simulate_day_records in H1.
    destruct H1 as (Hc1 & (r & Hr1 & Hd1) & (ev1 & Ht1) & Hp1).
    apply IH in H. destruct H as (Hc & (new & Hr & Hd) & (evs & Ht) & Hp).
    split; [eapply same_config_trans; eassumption|]. split; [|split].
    + exists (r :: new). split.
      * now rewrite Hr, Hr1, <- app_assoc.
      * simpl. now rewrite Hd1, Hd.
    + exists (ev1 ++ evs). now rewrite Ht, Ht1, app_assoc.
    + auto.
Qed.

Lemma drawdown_loop_length (values : list Q) :
  forall peak mdd dds peak' mdd' dds',
    drawdown_loop values peak mdd dds = Returned (peak', mdd', dds') ->
    List.length dds' = (List.length dds + List.length values)%nat.
Proof.
  induction values as [|v tl IH]; intros peak mdd dds peak' mdd' dds' H;
    simpl in H.
  - injection H as _ _ <-. simpl. lia.
  - apply bind_inv in H. destruct H as (dd & _ & H). apply IH in H.
    rewrite H, length_app. simpl. lia.
Qed.

Lemma metrics_series_lengths_aux (e : BacktestEngine) (bench : option (list Q))
    (m : Metrics) :
  _calculate_metrics e bench = Returned (Some m) ->
  equity_curve m = map dr_total_value (results e)
  /\ List.length (equity_curve m) = List.length (results e)
  /\ List.length (drawdown_curve m) = List.length (equity_curve m)
  /\ S (List.length (daily_returns m)) = List.length (equity_curve m).
Proof.
  intro H. pose proof (calculate_metrics_inv _ _ _ H) as Hinv. cbv zeta in Hinv.
  destruct Hinv as (Hne & Hrets & Heq & _ & _ & (peak & Hloop) & _).
  split; [exact Heq|]. split; [now rewrite Heq, length_map|]. split.
  - apply drawdown_loop_length in Hloop. now rewrite Hloop, Heq.
  - apply returns_of_length in Hrets. rewrite Heq, Hrets, length_map.
    destruct (results e); [congruence|simpl; lia].
Qed.

(** X10. Every report [_calculate_metrics] returns has an equity curve
    with one entry per recorded day, a drawdown curve of the same length,
    one return fewer, and the trade count of the ledger. *)
Theorem metrics_series_lengths (e : BacktestEngine) (bench : option (list Q))
    (m : Metrics) :
  _calculate_metrics e bench = Returned (Some m) ->
  equity_curve m = map dr_total_value (results e)
  /\ List.length (equity_curve m) = List.length (results e)
  /\ List.length (drawdown_curve m) = List.length (equity_curve m)
  /\ S (List.length (daily_returns m)) = List.length (equity_curve m)
  /\ exists p, portfolio e = Some p /\ num_trades m = List.length (trades p).
Proof.
  intro H. destruct (metrics_series_lengths_aux _ _ _ H) as (H1 & H2 & H3 & H4).
  pose proof (calculate_metrics_inv _ _ _ H) as Hinv. cbv zeta in Hinv.
  destruct Hinv as (Hne & _).
  split; [exact H1|]. split; [exact H2|]. split; [exact H3|]. split; [exact H4|].
  - unfold _calculate_metrics in H.
    destruct (results e) as [|r0 rs]; [congruence|].
    simpl truthy in H. cbn [negb] in H. cbv zeta in H.
    invert_bind H. injection H as <-. simpl.
    match goal with
    | Hp : the_portfolio e = Returned ?p |- _ =>
        exists p; split; [|reflexivity];
        unfold the_portfolio in Hp; destruct (portfolio e); [|discriminate];
        now injection Hp as ->
    end.
Qed.

Lemma build_result_inv (e : BacktestEngine) (strategy : string) (m : Metrics)
    (res : BacktestResult) :
  build_result e strategy (Some m) = Returned res ->
  res_daily_results res = results e
  /\ res_equity_curve res = equity_curve m
  /\ res_drawdown_curve res = drawdown_curve m
  /\ res_daily_returns res = daily_returns m
  /\ res_beta res = beta m /\ res_alpha res = alpha m
  /\ res_num_trades res = num_trades m
  /\ res_strategy res = strategy
  /\ res_initial_capital res = initial_capital e
  /\ exists p, portfolio e = Some p /\ res_final_value res = total_value p.
Proof.
  unfold build_result, the_portfolio, metrics_item.
  destruct (portfolio e) as [p|]; [|discriminate]. cbn [bind]. intro H.
  injection H as <-. simpl. repeat split. eauto.
Qed.

(** X11. A run that returns a report has appended exactly one daily result
    per trading date, dated by that date's calendar day, to the results
    the engine already held: earlier results are kept, and the report's
    daily results, equity curve, drawdown curve and return series are
    computed over all of them. *)
Theorem run_appends_one_result_per_date (e e' : BacktestEngine)
    (use_llm : bool) (strategy benchmark : string) (res : BacktestResult) :
  run_backtest e use_llm strategy benchmark = Returned (Some res, e') ->
  exists dates new,
    _get_trading_dates e (BacktestEngine_fetch_historical_data e) = Returned dates
    /\ results e' = results e ++ new
    /\ map dr_date new = map day_of dates
    /\ res_daily_results res = results e'
    /\ res_equity_curve res = map dr_total_value (results e')
    /\ List.length (res_drawdown_curve res) = List.length (results e')
    /\ S (List.length (res_daily_returns res)) = List.length (results e')
    /\ same_config e e'.
Proof.
  unfold run_backtest. intro H. apply run_backtest_on_inv in H.
  destruct H as [(_ & Hr & _)|(_ & dates & Hd & Hsim & m & res' & Hm & Hres & Hr)];
    [discriminate|].
  injection Hr as <-. cbv zeta in Hd, Hsim.
  apply simulate_records in Hsim.
  destruct Hsim as (Hc & (new & Hnew & Hdates) & _ & _).
  apply build_result_inv in Hres.
  destruct Hres as (Hdr & Heq & Hdd & Hrets & _).
  apply metrics_series_lengths_aux in Hm.
  destruct Hm as (Hm1 & Hm2 & Hm3 & Hm4).
  exists dates, new. split; [exact Hd|]. split; [exact Hnew|].
  split; [exact Hdates|]. split; [exact Hdr|]. split; [congruence|].
  split; [rewrite Hdd; congruence|]. split; [rewrite Hrets; congruence|].
  exact Hc.
Qed.

Lemma np_step_returns_length (rest : list Q) :
  forall prev, List.length (np_step_returns prev rest) = List.length rest.
Proof.
  induction rest as [|c tl IH]; intro prev; simpl; [reflexivity|].
  now rewrite IH.
Qed.

Lemma filter_map_length {X W : Type} (f : W -> bool) (g : X -> W) (l : list X) :
  List.length (filter f (map g l)) = List.length (filter (fun x => f (g x)) l).
Proof.
  induction l as [|x l IH]; simpl; [reflexivity|].
  destruct (f (g x)); simpl; now rewrite IH.
Qed.

Lemma benchmark_returns_vs_dates (e e0 : BacktestEngine) (t0 : string)
    (df0 : DataFrame) (rest : dict DataFrame) (dates : list Z) :
  same_config e0 e ->
  _get_trading_dates e0 ((t0, df0) :: rest) = Returned dates ->
  List.length (_get_benchmark_returns e ((t0, df0) :: rest) t0)
  = (List.length dates - 1)%nat.
Proof.
  intros (Hs & He & _) Hd. unfold _get_trading_dates in Hd. injection Hd as <-.
  unfold _get_benchmark_returns. simpl dict_get. rewrite String.eqb_refl.
  rewrite filter_map_length, Hs, He. unfold df_between, closes.
  destruct (filter
              (fun b => (midnight (start_date e0) <=? bar_ts b)%Z
                        && (bar_ts b <=? midnight (end_date e0))%Z) df0)
    as [|b tl]; simpl; [reflexivity|].
  rewrite np_step_returns_length, length_map. lia.
Qed.

Lemma build_result_annualized (e : BacktestEngine) (strategy : string)
    (m : Metrics) (res : BacktestResult) :
  build_result e strategy (Some m) = Returned res ->
  res_annualized_return res = annualized_return m.
Proof.
  unfold build_result, the_portfolio, metrics_item.
  destruct (portfolio e) as [p|]; [|discriminate]. cbn [bind]. intro H.
  now injection H as <-.
Qed.

(** X12. When the benchmark is the reference (first) asset of the fetched
    data, its return series has one element fewer than there are trading
    dates, and the return series of the report one element fewer than the
    earlier results and the trading dates together.  On an engine without
    earlier results the two series have the same length; the comparison
    of line 353 then takes place when the benchmark series is not empty
    (two trading dates or more): beta is covariance over variance, or 0
    when the variance is not positive, and alpha follows from it.  With a
    single trading date both series are empty and beta and alpha are 0.
    On an engine that already held results the lengths differ and beta
    and alpha are 0. *)
Theorem benchmark_series_aligned_on_fresh_engine (e e' : BacktestEngine)
    (use_llm : bool) (strategy benchmark : string) (res : BacktestResult)
    (df0 : DataFrame) (rest : dict DataFrame) :
  let data := BacktestEngine_fetch_historical_data e in
  let bench := _get_benchmark_returns e' data benchmark in
  let rets := res_daily_returns res in
  data = (benchmark, df0) :: rest ->
  run_backtest e use_llm strategy benchmark = Returned (Some res, e') ->
  (exists dates,
      _get_trading_dates e data = Returned dates
      /\ S (List.length bench) = List.length dates
      /\ S (List.length rets)
         = (List.length (results e) + List.length dates)%nat)
  /\ (results e = [] ->
      List.length bench = List.length rets
      /\ (bench <> [] ->
          (0 < np_var bench -> res_beta res = np_cov rets bench / np_var bench)
          /\ (np_var bench <= 0 -> res_beta res = 0)
          /\ res_alpha res
             = res_annualized_return res
               - (risk_free_rate
                  + res_beta res * (np_mean bench * 252 - risk_free_rate)))
      /\ (bench = [] -> res_beta res = 0 /\ res_alpha res = 0))
  /\ (results e <> [] ->
      List.length bench <> List.length rets
      /\ res_beta res = 0 /\ res_alpha res = 0).
Proof.
  intros data bench rets Hdata H. unfold run_backtest in H.
  apply run_backtest_on_inv in H.
  destruct H as [(_ & Hr & _)|(_ & dates & Hd & Hsim & m & res' & Hm & Hres & Hr)];
    [discriminate|].
  injection Hr as <-. cbv zeta in Hd, Hsim.
  pose proof (simulate_records _ _ _ _ _ _ _ Hsim)
    as (Hc & (new & Hnew & Hdates) & _ & _).
  pose proof (build_result_annualized _ _ _ _ Hres) as Hann.
  apply build_result_inv in Hres.
  destruct Hres as (_ & _ & _ & Hrets & Hbeta & Halpha & _).
  pose proof (metrics_series_lengths_aux _ _ _ Hm) as (_ & Hlen & _ & Hlen').
  assert (Hne : dates <> []).
  { eapply (fetched_data_has_trading_dates e); [| |exact Hd]; reflexivity. }
  fold data in Hd, Hm. fold bench in Hm.
  assert (Hbench : List.length bench = (List.length dates - 1)%nat).
  { unfold bench. rewrite Hdata. rewrite Hdata in Hd.
    eapply benchmark_returns_vs_dates; [|exact Hd].
    unfold same_config in *. simpl. tauto. }
  assert (Hnewlen : List.length new = List.length dates).
  { rewrite <- (length_map dr_date new), Hdates. apply length_map. }
  assert (Hpos : (0 < List.length dates)%nat)
    by (destruct dates; [congruence|simpl; lia]).
  simpl in Hnew. rewrite Hlen, Hnew, length_app, Hnewlen in Hlen'.
  fold rets in Hrets. rewrite <- Hrets in Hlen'.
  apply calculate_metrics_inv in Hm. cbv zeta in Hm.
  destruct Hm as (_ & _ & _ & _ & _ & _ & _ & _ & Hba).
  rewrite <- Hrets in Hba. unfold beta_alpha in Hba.
  split; [|split].
  - exists dates. split; [exact Hd|]. split; lia.
  - intro Hfresh. rewrite Hfresh in Hlen'. simpl in Hlen'.
    assert (Heq : List.length bench = List.length rets) by lia.
    split; [exact Heq|]. split.
    + intro Hb. apply truthy_true in Hb. apply Nat.eqb_eq in Heq.
      rewrite Hb, Heq in Hba. cbn [andb] in Hba. cbv zeta in Hba.
      destruct (ratio_or_zero_total (np_cov rets bench) (np_var bench))
        as (q & Hq & Hqpos & Hqnonpos).
      rewrite Hq in Hba. cbn [bind] in Hba. injection Hba as Hb1 Ha1.
      rewrite Hbeta, Halpha, Hann, <- Hb1, <- Ha1. repeat split; auto.
    + intro Hb. rewrite Hb in Hba. simpl in Hba. injection Hba as Hb1 Ha1.
      rewrite Hbeta, Halpha, <- Hb1, <- Ha1. auto.
  - intro Hold.
    assert (Hrpos : (0 < List.length (results e))%nat)
      by (destruct (results e); [congruence|simpl; lia]).
    assert (Hneq : List.length bench <> List.length rets) by lia.
    split; [exact Hneq|]. apply Nat.eqb_neq in Hneq.
    rewrite Hneq, andb_false_r in Hba. injection Hba as Hb1 Ha1.
    rewrite Hbeta, Halpha, <- Hb1, <- Ha1. auto.
Qed.

Lemma execute_actions_trace (prices : dict Q) (actions : list Action) :
  forall (e : BacktestEngine) (p : Portfolio),
    portfolio e = Some p ->
    exists e',
      execute_actions prices e actions = Returned e'
      /\ trace e' = trace e ++ action_events prices actions
      /\ results e' = results e.
Proof.
  induction actions as [|a rest IH]; intros e p Hp.
  - exists e. simpl. rewrite app_nil_r. auto.
  - cbn [execute_actions action_events]. unfold execute_action, action_event.
    destruct (act_ticker a) as [t|]; [|cbn [bind]; eauto].
    destruct (dict_get t prices) as [price|]; [|cbn [bind]; eauto].
    destruct (act_action a) as [kind|]; [|cbn [bind]; eauto].
    destruct (String.eqb kind "buy").
    { unfold call_buy, the_portfolio. rewrite Hp. cbn [bind].
      edestruct IH as (e' & Hrun & Ht & Hr); [|exists e'; split; [exact Hrun|]].
      - reflexivity.
      - rewrite Ht, Hr. simpl. now rewrite <- app_assoc. }
    destruct (String.eqb kind "sell"); [|cbn [bind]; eauto].
    unfold call_sell, the_portfolio. rewrite Hp. cbn [bind].
    edestruct IH as (e' & Hrun & Ht & Hr); [|exists e'; split; [exact Hrun|]].
    + reflexivity.
    + rewrite Ht, Hr. simpl. now rewrite <- app_assoc.
Qed.

Lemma action_events_bound (prices : dict Q) (actions : list Action) :
  (List.length (action_events prices actions) <= List.length actions)%nat
  /\ forall ev, In ev (action_events prices actions) ->
                exists a t price,
                  In a actions /\ act_ticker a = Some t
                  /\ trade_of ev = Some (t, price)
                  /\ dict_get t prices = Some price.
Proof.
  induction actions as [|a rest [IHlen IHin]]; simpl.
  - split; [lia|intros ev []].
  - destruct (action_event prices a) as [ev0|] eqn:Ea.
    + split; [simpl; lia|]. intros ev [<-|Hin].
      * unfold action_event in Ea.
        destruct (act_ticker a) as [t|] eqn:Et; [|discriminate].
        destruct (dict_get t prices) as [price|] eqn:Ep; [|discriminate].
        destruct (act_action a) as [kind|]; [|discriminate].
        exists a, t, price.
        destruct (String.eqb kind "buy");
          [injection Ea as <-; repeat split; auto|].
        destruct (String.eqb kind "sell"); [|discriminate].
        injection Ea as <-. repeat split; auto.
      * destruct (IHin ev Hin) as (a' & t & price & Ha & H). 
        exists a', t, price. split; [now right|exact H].
    + split; [lia|]. intros ev Hin.
      destruct (IHin ev Hin) as (a' & t & price & Ha & H).
      exists a', t, price. split; [now right|exact H].
Qed.

(** X13. The agent-driven executor, with a ledger in place and a decision
    that returns: it reads the summary once and then issues, in the order
    of the instructions, one buy or sell per instruction whose action is
    "buy" or "sell" and whose asset is in the snapshot, and nothing for
    the others.  So every trade is for an asset of the snapshot and at its
    snapshot price, and there are at most as many trades as instructions. *)
Theorem llm_strategy_trades_snapshot_assets (e : BacktestEngine) (p : Portfolio)
    (data : dict DataFrame) (d : Z) (prices : dict Q) (actions : list Action) :
  portfolio e = Some p ->
  get_trading_decision (calculate_indicators_for_date data d) (get_summary p)
  = Returned actions ->
  exists e',
    _execute_llm_strategy e data d prices = Returned e'
    /\ trace e' = trace e ++ [EnterLLM d; CallGetSummary]
                          ++ action_events prices actions
    /\ (List.length (action_events prices actions) <= List.length actions)%nat
    /\ (forall ev, In ev (action_events prices actions) ->
                   exists a t price,
                     In a actions /\ act_ticker a = Some t
                     /\ trade_of ev = Some (t, price)
                     /\ dict_get t prices = Some price)
    /\ results e' = results e.
Proof.
  intros Hp Hdec. unfold _execute_llm_strategy, call_get_summary, the_portfolio.
  simpl. rewrite Hp. cbn [bind]. rewrite Hdec. cbn [bind].
  destruct (execute_actions_trace prices actions
              (log (log e (EnterLLM d)) CallGetSummary) p Hp)
    as (e' & Hrun & Ht & Hr).
  exists e'. split; [exact Hrun|]. split; [|split; [|split]].
  - rewrite Ht. simpl. now rewrite <- !app_assoc.
  - apply action_events_bound.
  - apply action_events_bound.
  - exact Hr.
Qed.

Lemma simulate_app (use_llm : bool) (strategy : string) (data : dict DataFrame)
    (dates1 dates2 : list Z) :
  forall (e : BacktestEngine) (i : Z),
    simulate use_llm strategy data e i (dates1 ++ dates2)
    = (e1 <- simulate use_llm strategy data e i dates1 ;;
       simulate use_llm strategy data e1 (i + Z.of_nat (List.length dates1))%Z
         dates2).
Proof.
  induction dates1 as [|d dates1 IH]; intros e i.
  - simpl. now rewrite Z.add_0_r.
  - cbn [app simulate].
    destruct (simulate_day use_llm strategy data e i d) as [e1|ex]; [|reflexivity].
    cbn [bind]. rewrite IH. cbn [List.length].
    replace (i + 1 + Z.of_nat (List.length dates1))%Z
      with (i + Z.of_nat (S (List.length dates1)))%Z by lia.
    reflexivity.
Qed.

(** X14. A failure of the decision agent is not caught: when, after any
    number of completed days, the agent raises on a rebalance day of an
    agent-driven run, the simulation loop raises that exception, and no
    later date is processed. *)
Theorem agent_failure_aborts_simulation (data : dict DataFrame)
    (e e1 : BacktestEngine) (p1 : Portfolio) (i d : Z) (done rest : list Z)
    (ex : exn) :
  simulate true "llm" data e i done = Returned e1 ->
  portfolio e1 = Some p1 ->
  _should_rebalance e1 (i + Z.of_nat (List.length done))%Z d = true ->
  get_trading_decision (calculate_indicators_for_date data d)
    (get_summary (update_prices p1 (_get_prices_for_date data d)))
  = Raised ex ->
  simulate true "llm" data e i (done ++ d :: rest) = Raised ex.
Proof.
  intros Hdone Hp Hgate Hagent. rewrite simulate_app, Hdone. cbn [bind simulate].
  unfold simulate_day, call_update_prices, the_portfolio. rewrite Hp. cbn [bind].
  rewrite (should_rebalance_config e1) by reflexivity. rewrite Hgate.
  unfold rebalance. simpl andb. cbv iota.
  unfold _execute_llm_strategy, call_get_summary, the_portfolio. simpl.
  rewrite Hagent. reflexivity.
Qed.

(** X15. Only two dispatches trade: any strategy name other than
    "equal_weight" and "llm", and "llm" itself without [use_llm], runs
    the whole loop without entering an executor or issuing a buy or sell;
    the ledger is only marked to market. *)
Theorem other_strategies_never_trade (use_llm : bool) (strategy : string)
    (data : dict DataFrame) (e : BacktestEngine) (p : Portfolio) (i : Z)
    (dates : list Z) :
  strategy <> "equal_weight" ->
  strategy <> "llm" \/ use_llm = false ->
  exists e',
    simulate use_llm strategy data (set_portfolio e p) i dates = Returned e'
    /\ trace e' = trace e ++ idle_events data dates
    /\ Forall (fun ev => is_trade ev = false /\ is_executor ev = false)
         (idle_events data dates)
    /\ portfolio e' = Some (mark_to_market data p dates).
Proof.
  intros Hew Hllm.
  assert (Hidle : idle_dispatch use_llm strategy = true).
  { unfold idle_dispatch. apply String.eqb_neq in Hew. rewrite Hew.
    destruct Hllm as [H| ->].
    - apply String.eqb_neq in H. now rewrite H.
    - now rewrite andb_false_r. }
  destruct (simulate_idle use_llm strategy data dates (set_portfolio e p) i p)
    as (e' & Hsim & Hp & Ht & _ & _); [reflexivity|right; exact Hidle|].
  exists e'. repeat split; try assumption. apply idle_events_no_trade.
Qed.

Lemma filter_filter_implied {X : Type} (f g : X -> bool) (l : list X) :
  (forall x, f x = true -> g x = true) ->
  filter f (filter g l) = filter f l.
Proof.
  intro H. induction l as [|x l IH]; simpl; [reflexivity|].
  destruct (g x) eqn:Eg; simpl.
  - now rewrite IH.
  - destruct (f x) eqn:Ef; [|exact IH]. apply H in Ef. congruence.
Qed.

Lemma fold_left_map_same {X S0 : Type} (step : S0 -> X -> S0) (h : X -> X)
    (l : list X) :
  (forall acc x, step acc (h x) = step acc x) ->
  forall acc, fold_left step (map h l) acc = fold_left step l acc.
Proof.
  intro H. induction l as [|x l IH]; intro acc; simpl; [reflexivity|].
  now rewrite H, IH.
Qed.

Lemma day_of_mono (a b : Z) : (a <= b)%Z -> (day_of a <= day_of b)%Z.
Proof.
  intro H. unfold day_of, seconds_per_day. apply Z.div_le_mono; lia.
Qed.

Lemma prices_truncate (data : dict DataFrame) (d : Z) :
  _get_prices_for_date (truncate_data d data) d = _get_prices_for_date data d.
Proof.
  unfold _get_prices_for_date, truncate_data. apply fold_left_map_same.
  intros acc [t df]. unfold price_entry. cbn [fst snd].
  rewrite filter_filter_implied; [reflexivity|].
  intros b Hb. apply Z.eqb_eq in Hb. apply Z.leb_le. lia.
Qed.

Lemma indicators_truncate (data : dict DataFrame) (d : Z) :
  calculate_indicators_for_date (truncate_data d data) d
  = calculate_indicators_for_date data d.
Proof.
  unfold calculate_indicators_for_date, truncate_data. apply fold_left_map_same.
  intros acc [t df]. unfold indicators_entry. cbn [fst snd].
  rewrite filter_filter_implied; [reflexivity|].
  intros b Hb. apply Z.leb_le in Hb. apply Z.leb_le. now apply day_of_mono.
Qed.

Lemma simulate_day_truncate (use_llm : bool) (strategy : string)
    (data : dict DataFrame) (e : BacktestEngine) (i d : Z) :
  simulate_day use_llm strategy (truncate_data d data) e i d
  = simulate_day use_llm strategy data e i d.
Proof.
  unfold simulate_day, rebalance, _execute_llm_strategy.
  now rewrite prices_truncate, indicators_truncate.
Qed.

Lemma truncate_truncate (data : dict DataFrame) (d horizon : Z) :
  (day_of d <= day_of horizon)%Z ->
  truncate_data d (truncate_data horizon data) = truncate_data d data.
Proof.
  intro H. unfold truncate_data. rewrite map_map. apply map_ext.
  intros [t df]. cbn [fst snd]. f_equal. apply filter_filter_implied.
  intros b Hb. apply Z.leb_le in Hb. apply Z.leb_le. lia.
Qed.

(** X16. The simulation has no look-ahead: two data mappings that agree
    on every bar up to the end of a horizon day give the same simulation,
    day for day, over trading dates that do not go beyond that day:
    the same ledger calls, the same results, the same exception if any. *)
Theorem simulation_has_no_lookahead (use_llm : bool) (strategy : string)
    (data1 data2 : dict DataFrame) (horizon : Z) (dates : list Z) :
  truncate_data horizon data1 = truncate_data horizon data2 ->
  Forall (fun d => (day_of d <= day_of horizon)%Z) dates ->
  forall (e : BacktestEngine) (i : Z),
    simulate use_llm strategy data1 e i dates
    = simulate use_llm strategy data2 e i dates.
Proof.
  intros Hagree Hdates. induction Hdates as [|d dates Hd _ IH]; intros e i;
    [reflexivity|].
  cbn [simulate].
  assert (Hday : simulate_day use_llm strategy data1 e i d
                 = simulate_day use_llm strategy data2 e i d).
  { rewrite <- (simulate_day_truncate _ _ data1),
            <- (simulate_day_truncate _ _ data2).
    rewrite <- (truncate_truncate data1 d horizon Hd),
            <- (truncate_truncate data2 d horizon Hd).
    now rewrite Hagree. }
  rewrite Hday. destruct (simulate_day use_llm strategy data2 e i d); [|reflexivity].
  cbn [bind]. apply IH.
Qed.

Lemma call_buy_capital (c : Q) (e : BacktestEngine) (t : string) (pct price : Q) :
  call_buy (with_capital c e) t pct price
  = map_outcome (with_capital c) (call_buy e t pct price).
Proof.
  unfold call_buy, the_portfolio. simpl. now destruct (portfolio e).
Qed.

Lemma call_sell_capital (c : Q) (e : BacktestEngine) (t : string) (price : Q) :
  call_sell (with_capital c e) t price
  = map_outcome (with_capital c) (call_sell e t price).
Proof.
  unfold call_sell, the_portfolio. simpl. now destruct (portfolio e).
Qed.

Lemma execute_actions_capital (c : Q) (prices : dict Q) (actions : list Action) :
  forall e,
    execute_actions prices (with_capital c e) actions
    = map_outcome (with_capital c) (execute_actions prices e actions).
Proof.
  induction actions as [|a rest IH]; intro e; [reflexivity|].
  cbn [execute_actions].
  assert (Ha : execute_action prices (with_capital c e) a
               = map_outcome (with_capital c) (execute_action prices e a)).
  { unfold execute_action.
    destruct (act_ticker a); [|reflexivity].
    destruct (dict_get s prices); [|reflexivity].
    destruct (act_action a); [|reflexivity].
    destruct (String.eqb s0 "buy"); [apply call_buy_capital|].
    destruct (String.eqb s0 "sell"); [apply call_sell_capital|reflexivity]. }
  rewrite Ha. destruct (execute_action prices e a); [|reflexivity].
  simpl. apply IH.
Qed.

Lemma buy_each_capital (c pct : Q) (items : dict Q) :
  forall e,
    buy_each (with_capital c e) pct items
    = map_outcome (with_capital c) (buy_each e pct items).
Proof.
  induction items as [|[t price] rest IH]; intro e; [reflexivity|].
  cbn [buy_each]. rewrite call_buy_capital.
  destruct (call_buy e t pct price); [|reflexivity]. simpl. apply IH.
Qed.

Lemma rebalance_capital (c : Q) (e : BacktestEngine) (use_llm : bool)
    (strategy : string) (data : dict DataFrame) (d : Z) (prices : dict Q) :
  rebalance (with_capital c e) use_llm strategy data d prices
  = map_outcome (with_capital c) (rebalance e use_llm strategy data d prices).
Proof.
  unfold rebalance. destruct (String.eqb strategy "llm" && use_llm).
  - unfold _execute_llm_strategy, call_get_summary, the_portfolio. simpl.
    destruct (portfolio e) as [p|]; [|reflexivity]. cbn [bind].
    destruct (get_trading_decision (calculate_indicators_for_date data d)
                (get_summary p)) as [actions|ex]; [|reflexivity].
    cbn [bind]. apply (execute_actions_capital c prices actions
                         (log (log e (EnterLLM d)) CallGetSummary)).
  - destruct (String.eqb strategy "equal_weight"); [|reflexivity].
    unfold _execute_equal_weight_strategy, the_portfolio. simpl.
    destruct (portfolio e) as [p|]; [|reflexivity]. cbn [bind].
    destruct (truthy (positions p)); [reflexivity|].
    destruct (List.length prices =? 0)%nat; [reflexivity|].
    destruct (py_div 90 (py_len prices)) as [pct|ex]; [|reflexivity].
    cbn [bind]. apply (buy_each_capital c pct prices (log e EnterEqualWeight)).
Qed.

Lemma simulate_day_capital (c : Q) (use_llm : bool) (strategy : string)
    (data : dict DataFrame) (e : BacktestEngine) (i d : Z) :
  simulate_day use_llm strategy data (with_capital c e) i d
  = map_outcome (with_capital c) (simulate_day use_llm strategy data e i d).
Proof.
  unfold simulate_day, call_update_prices, the_portfolio. simpl.
  destruct (portfolio e) as [p|]; [|reflexivity]. cbn [bind].
  set (prices := _get_prices_for_date data d).
  set (e1 := log (set_portfolio e (update_prices p prices)) (CallUpdatePrices prices)).
  change (log (set_portfolio (with_capital c e) (update_prices p prices))
            (CallUpdatePrices prices)) with (with_capital c e1).
  rewrite (should_rebalance_config e1 (with_capital c e1)) by reflexivity.
  assert (Hstep :
    (if _should_rebalance e1 i d
     then rebalance (with_capital c e1) use_llm strategy data d prices
     else Returned (with_capital c e1))
    = map_outcome (with_capital c)
        (if _should_rebalance e1 i d
         then rebalance e1 use_llm strategy data d prices
         else Returned e1)).
  { destruct (_should_rebalance e1 i d); [apply rebalance_capital|reflexivity]. }
  rewrite Hstep.
  destruct (if _should_rebalance e1 i d
            then rebalance e1 use_llm strategy data d prices
            else Returned e1) as [e2|ex]; [|reflexivity].
  simpl. unfold _record_daily_result, call_get_summary, the_portfolio. simpl.
  now destruct (portfolio e2).
Qed.

(** X17. The initial capital of the engine never reaches the ledger or
    the strategies: the simulation under another initial capital makes
    the same ledger calls, records the same results and ends in the same
    ledger state, or raises the same exception.  (Only the metrics read
    it.) *)
Theorem simulation_ignores_initial_capital (c : Q) (use_llm : bool)
    (strategy : string) (data : dict DataFrame) (dates : list Z) :
  forall (e : BacktestEngine) (i : Z),
    match simulate use_llm strategy data e i dates,
          simulate use_llm strategy data (with_capital c e) i dates with
    | Returned e1, Returned e2 =>
        results e2 = results e1 /\ trace e2 = trace e1
        /\ portfolio e2 = portfolio e1 /\ initial_capital e2 = c
    | Raised ex1, Raised ex2 => ex1 = ex2
    | _, _ => False
    end.
Proof.
  assert (H : forall e i,
             simulate use_llm strategy data (with_capital c e) i dates
             = map_outcome (with_capital c)
                 (simulate use_llm strategy data e i dates)).
  { induction dates as [|d dates IH]; intros e i; [reflexivity|].
    cbn [simulate]. rewrite simulate_day_capital.
    destruct (simulate_day use_llm strategy data e i d); [|reflexivity].
    simpl. apply IH. }
  intros e i. rewrite H.
  destruct (simulate use_llm strategy data e i dates); simpl; auto.
Qed.

(** ** More on the metrics *)

Lemma calculate_metrics_inv_ratios (e : BacktestEngine) (bench : option (list Q))
    (m : Metrics) :
  _calculate_metrics e bench = Returned (Some m) ->
  let values := map dr_total_value (results e) in
  let rets := daily_returns m in
  (exists q, py_div (last values 0) (initial_capital e) = Returned q
             /\ total_return m = q - 1)
  /\ (if truthy rets
      then py_div (inject_Z (Z.of_nat (List.length (filter (fun r => Qltb 0 r) rets))))
             (py_len rets)
      else Returned 0) = Returned (win_rate m)
  /\ ratio_or_zero (annualized_return m - risk_free_rate)
       (if truthy (filter (fun r => Qltb r 0) rets)
        then np_std (filter (fun r => Qltb r 0) rets) * np_sqrt 252
        else 0) = Returned (sortino_ratio m)
  /\ ratio_or_zero (annualized_return m) (max_drawdown m)
     = Returned (calmar_ratio m).
Proof.
  unfold _calculate_metrics. intros H.
  destruct (results e) as [|r0 rs] eqn:Er; [discriminate|].
  simpl truthy in H. cbn [negb] in H. cbv zeta in H.
  invert_bind H. injection H as <-. simpl.
  repeat split; try assumption. eexists. split; [eassumption|reflexivity].
Qed.

(** X18. The win rate of a returned report lies between 0 and 1: it is the
    share of the per-step returns that are positive, and 0 when there is
    no return at all. *)
Theorem win_rate_is_a_share (e : BacktestEngine) (bench : option (list Q))
    (m : Metrics) :
  _calculate_metrics e bench = Returned (Some m) ->
  let rets := daily_returns m in
  0 <= win_rate m /\ win_rate m <= 1
  /\ (rets = [] -> win_rate m = 0)
  /\ (rets <> [] ->
      win_rate m
      = inject_Z (Z.of_nat (List.length (filter (fun r => Qltb 0 r) rets)))
        / py_len rets).
Proof.
  intros H rets. apply calculate_metrics_inv_ratios in H. cbv zeta in H.
  fold rets in H. destruct H as (_ & Hw & _).
  destruct rets as [|r0 rs] eqn:Er.
  - simpl in Hw. injection Hw as <-. repeat split; try discriminate; congruence.
  - simpl truthy in Hw. cbv iota in Hw.
    apply py_div_inv in Hw. destruct Hw as [Hnz ->].
    assert (Hlen : 0 < py_len (r0 :: rs)) by (apply py_len_pos; discriminate).
    assert (Hcount : (List.length (filter (fun r => Qltb 0 r) (r0 :: rs))
                      <= List.length (r0 :: rs))%nat) by apply filter_length_le.
    repeat split; try congruence.
    + apply Qle_shift_div_l; [exact Hlen|]. rewrite Qmult_0_l.
      unfold Qle. simpl. lia.
    + apply Qle_shift_div_r; [exact Hlen|]. rewrite Qmult_1_l.
      unfold py_len. rewrite <- Zle_Qle. lia.
Qed.

Lemma step_returns_raises (rest : list Q) :
  forall prev ex, step_returns prev rest = Raised ex -> ex = ZeroDivisionError.
Proof.
  induction rest as [|v tl IH]; intros prev ex H; simpl in H; [discriminate|].
  unfold py_div in H. destruct (Qeq_bool prev 0).
  - now injection H as <-.
  - cbn [bind] in H. destruct (step_returns v tl) eqn:E; [discriminate|].
    cbn [bind] in H. injection H as <-. eapply IH; eassumption.
Qed.

Lemma step_returns_divisors (rest : list Q) :
  forall prev rs,
    step_returns prev rest = Returned rs ->
    Forall (fun v => ~ v == 0) (removelast (prev :: rest)).
Proof.
  induction rest as [|v tl IH]; intros prev rs H.
  - constructor.
  - simpl in H. apply bind_inv in H. destruct H as (r & Hr & H).
    apply bind_inv in H. destruct H as (rs' & Hrs & _).
    apply py_div_inv in Hr. destruct Hr as [Hnz _].
    change (removelast (prev :: v :: tl)) with (prev :: removelast (v :: tl)).
    constructor; [exact Hnz|]. eapply IH; eassumption.
Qed.

(** X19. The metrics computation raises [ZeroDivisionError] whenever
    results are recorded and the initial capital is zero, or the total
    value of any recorded day but the last is zero: neither division has
    a guard. *)
Theorem metrics_zero_value_raises (e : BacktestEngine) (bench : option (list Q)) :
  results e <> [] ->
  initial_capital e == 0
  \/ Exists (fun v => v == 0) (removelast (map dr_total_value (results e))) ->
  _calculate_metrics e bench = Raised ZeroDivisionError.
Proof.
  intros Hne Hzero. unfold _calculate_metrics.
  apply truthy_true in Hne. rewrite Hne. cbn [negb]. cbv zeta.
  destruct (returns_of (map dr_total_value (results e))) as [rets|ex] eqn:Er.
  - cbn [bind]. destruct Hzero as [Hcap|Hex].
    + now rewrite py_div_zero.
    + exfalso. unfold returns_of in Er.
      destruct (map dr_total_value (results e)) as [|v0 tl]; [inversion Hex|].
      apply step_returns_divisors in Er. apply Exists_exists in Hex.
      destruct Hex as (v & Hin & Hv). rewrite Forall_forall in Er.
      exact (Er v Hin Hv).
  - cbn [bind]. f_equal. unfold returns_of in Er.
    destruct (map dr_total_value (results e)) as [|v0 tl]; [discriminate|].
    eapply step_returns_raises; eassumption.
Qed.

Lemma step_returns_nonneg (rest : list Q) :
  forall prev rs,
    step_returns prev rest = Returned rs ->
    0 < prev -> StronglySorted Qle (prev :: rest) ->
    Forall (fun r => 0 <= r) rs.
Proof.
  induction rest as [|v tl IH]; intros prev rs H Hpos Hs; simpl in H.
  - injection H as <-. constructor.
  - apply bind_inv in H. destruct H as (r & Hr & H).
    apply bind_inv in H. destruct H as (rs' & Hrs & H). injection H as <-.
    apply py_div_inv in Hr. destruct Hr as [_ ->].
    inversion Hs as [|? ? Hs' Hall]; subst.
    inversion Hall as [|? ? Hle _]; subst.
    constructor.
    + apply Qle_shift_div_l; [exact Hpos|]. lra.
    + eapply IH; [eassumption| |exact Hs']. eapply Qlt_le_trans; eassumption.
Qed.

Lemma no_negative_filter (rets : list Q) :
  Forall (fun r => 0 <= r) rets -> filter (fun r => Qltb r 0) rets = [].
Proof.
  induction 1 as [|r rets Hr _ IH]; simpl; [reflexivity|].
  destruct (Qltb r 0) eqn:E; [|exact IH].
  apply Qltb_lt in E. exfalso. apply (Qlt_not_le _ _ E Hr).
Qed.

Lemma drawdown_loop_rising (values : list Q) :
  forall peak dds,
    0 < peak -> StronglySorted Qle (peak :: values) ->
    exists peak' new,
      drawdown_loop values peak 0 dds = Returned (peak', 0, dds ++ new)
      /\ Forall (fun d => d == 0) new.
Proof.
  induction values as [|v tl IH]; intros peak dds Hpos Hs.
  - exists peak, []. simpl. rewrite app_nil_r. auto.
  - inversion Hs as [|? ? Hs' Hall]; subst.
    inversion Hall as [|? ? Hle Hall']; subst.
    cbn [drawdown_loop]. cbv zeta.
    set (peak1 := if Qltb peak v then v else peak).
    assert (Hp1 : peak1 == v /\ 0 < peak1 /\ StronglySorted Qle (peak1 :: tl)).
    { unfold peak1. destruct (Qltb peak v) eqn:E.
      - split; [reflexivity|]. split; [eapply Qlt_le_trans; eassumption|exact Hs'].
      - apply Qltb_ge in E. split; [now apply Qle_antisym|]. split; [exact Hpos|].
        constructor; [now inversion Hs'|exact Hall']. }
    destruct Hp1 as (Heq & Hpos1 & Hs1).
    rewrite py_div_ok
      by (intro Hz; rewrite Hz in Hpos1; apply (Qlt_irrefl _ Hpos1)).
    cbn [bind].
    assert (Hdd : (peak1 - v) / peak1 == 0).
    { rewrite Heq. unfold Qdiv. setoid_replace (v - v) with 0 by ring.
      apply Qmult_0_l. }
    assert (Hmax : py_max 0 ((peak1 - v) / peak1) = 0).
    { unfold py_max. destruct (Qltb 0 ((peak1 - v) / peak1)) eqn:E; [|reflexivity].
      apply Qltb_lt in E. rewrite Hdd in E. exfalso. apply (Qlt_irrefl _ E). }
    rewrite Hmax.
    destruct (IH peak1 (dds ++ [(peak1 - v) / peak1]) Hpos1 Hs1)
      as (peak' & new & Hloop & Hnew).
    exists peak', ((peak1 - v) / peak1 :: new).
    rewrite Hloop, <- app_assoc. split; [reflexivity|]. now constructor.
Qed.

(** X20. A run whose equity never falls (the recorded total values are
    non-decreasing and start at or above a positive initial capital) has,
    in a returned report, no negative return, a drawdown curve of zeros
    and maximum drawdown 0, hence Calmar ratio 0; its Sortino ratio is 0
    while its omega ratio and profit factor are infinite. *)
Theorem never_falling_equity_report (e : BacktestEngine)
    (bench : option (list Q)) (m : Metrics) :
  _calculate_metrics e bench = Returned (Some m) ->
  0 < initial_capital e ->
  StronglySorted Qle (initial_capital e :: map dr_total_value (results e)) ->
  Forall (fun r => 0 <= r) (daily_returns m)
  /\ Forall (fun d => d == 0) (drawdown_curve m)
  /\ max_drawdown m = 0
  /\ calmar_ratio m = 0
  /\ sortino_ratio m = 0
  /\ omega_ratio m = PosInf /\ profit_factor m = PosInf.
Proof.
  intros H Hcap Hs.
  pose proof (calculate_metrics_inv _ _ _ H) as Hinv. cbv zeta in Hinv.
  destruct Hinv as (Hne & Hrets & _ & _ & _ & (peak & Hloop) & Ho & Hp & _).
  pose proof (calculate_metrics_inv_ratios _ _ _ H) as Hinv. cbv zeta in Hinv.
  destruct Hinv as (_ & _ & Hsortino & Hcalmar).
  assert (Hnonneg : Forall (fun r => 0 <= r) (daily_returns m)).
  { unfold returns_of in Hrets.
    destruct (map dr_total_value (results e)) as [|v0 tl] eqn:Ev.
    - injection Hrets as <-. constructor.
    - inversion Hs as [|? ? Hs' Hall]; subst.
      inversion Hall as [|? ? Hle _]; subst.
      eapply step_returns_nonneg; [eassumption| |exact Hs'].
      eapply Qlt_le_trans; eassumption. }
  destruct (drawdown_loop_rising _ _ [] Hcap Hs) as (peak' & new & Hloop' & Hnew).
  rewrite Hloop in Hloop'. injection Hloop' as _ Hmdd Hdds. simpl in Hdds.
  rewrite Hmdd in Hcalmar. rewrite (no_negative_filter _ Hnonneg) in Hsortino.
  simpl in Hsortino. injection Hsortino as <-. injection Hcalmar as <-.
  assert (Hloss : ~ 0 < sum_losses (daily_returns m)).
  { intro Hl. apply sum_losses_pos in Hl. destruct Hl as (r & Hin & Hr).
    rewrite Forall_forall in Hnonneg. apply (Qlt_not_le _ _ Hr (Hnonneg r Hin)). }
  destruct (ratio_or_inf_total (sum_gains (daily_returns m))
              (sum_losses (daily_returns m))) as (x & Hx & _ & Hinf).
  rewrite Hx in Ho, Hp. injection Ho as <-. injection Hp as <-.
  rewrite Hinf by (now apply Qnot_lt_le).
  rewrite Hdds. repeat split; auto.
Qed.

Lemma constant_sorted (c : Q) (values : list Q) :
  Forall (fun v => v == c) values -> StronglySorted Qle (c :: values).
Proof.
  intro H. assert (Hs : StronglySorted Qle values).
  { induction H as [|v l Hv Hl IH]; constructor; [exact IH|].
    apply Forall_forall. intros x Hx. rewrite Forall_forall in Hl.
    rewrite Hv, (Hl x Hx). apply Qle_refl. }
  constructor; [exact Hs|]. eapply Forall_impl; [|exact H].
  intros v Hv. rewrite Hv. apply Qle_refl.
Qed.

Lemma step_returns_constant (c : Q) (rest : list Q) :
  forall prev rs,
    step_returns prev rest = Returned rs ->
    prev == c -> Forall (fun v => v == c) rest ->
    Forall (fun r => r == 0) rs.
Proof.
  induction rest as [|v tl IH]; intros prev rs H Hprev Hall; simpl in H.
  - injection H as <-. constructor.
  - apply bind_inv in H. destruct H as (r & Hr & H).
    apply bind_inv in H. destruct H as (rs' & Hrs & H). injection H as <-.
    apply py_div_inv in Hr. destruct Hr as [_ ->].
    inversion Hall as [|? ? Hv Htl]; subst. constructor.
    + rewrite Hv, Hprev. unfold Qdiv. setoid_replace (c - c) with 0 by ring.
      apply Qmult_0_l.
    + eapply IH; eassumption.
Qed.

(** X21. A flat run, in which every recorded total value equals the
    positive initial capital, gives a report with total return 0, every
    per-step return 0, win rate 0 and maximum drawdown 0. *)
Theorem flat_equity_report (e : BacktestEngine) (bench : option (list Q))
    (m : Metrics) :
  _calculate_metrics e bench = Returned (Some m) ->
  0 < initial_capital e ->
  Forall (fun v => v == initial_capital e) (map dr_total_value (results e)) ->
  total_return m == 0
  /\ Forall (fun r => r == 0) (daily_returns m)
  /\ win_rate m == 0
  /\ max_drawdown m = 0.
Proof.
  intros H Hcap Hflat.
  pose proof (calculate_metrics_inv _ _ _ H) as Hinv. cbv zeta in Hinv.
  destruct Hinv as (Hne & Hrets & _ & _ & _ & (peak & Hloop) & _).
  pose proof (calculate_metrics_inv_ratios _ _ _ H) as Hinv. cbv zeta in Hinv.
  destruct Hinv as ((q & Hq & Htr) & Hwin & _).
  assert (Hzero : Forall (fun r => r == 0) (daily_returns m)).
  { unfold returns_of in Hrets.
    destruct (map dr_total_value (results e)) as [|v0 tl].
    - injection Hrets as <-. constructor.
    - inversion Hflat; subst. eapply step_returns_constant; eassumption. }
  split; [|split; [exact Hzero|split]].
  - rewrite Htr. apply py_div_inv in Hq. destruct Hq as [Hnz ->].
    assert (Hlast : last (map dr_total_value (results e)) 0 == initial_capital e).
    { destruct (map dr_total_value (results e)) as [|v0 tl] eqn:Ev.
      - destruct (results e); [congruence|discriminate].
      - rewrite Forall_forall in Hflat. apply Hflat.
        rewrite last_cons_default. apply last_In. }
    rewrite Hlast. field. exact Hnz.
  - assert (Hnone : filter (fun r => Qltb 0 r) (daily_returns m) = []).
    { clear - Hzero. induction Hzero as [|r l Hr _ IH]; simpl; [reflexivity|].
      destruct (Qltb 0 r) eqn:E; [|exact IH].
      apply Qltb_lt in E. rewrite Hr in E. exfalso. apply (Qlt_irrefl _ E). }
    rewrite Hnone in Hwin. destruct (truthy (daily_returns m)).
    + apply py_div_inv in Hwin. destruct Hwin as [Hnz ->]. simpl.
      unfold Qdiv. apply Qmult_0_l.
    + injection Hwin as <-. reflexivity.
  - destruct (drawdown_loop_rising _ _ [] Hcap (constant_sorted _ _ Hflat))
      as (peak' & new & Hloop' & _).
    rewrite Hloop in Hloop'. now injection Hloop' as _ -> _.
Qed.

(** ** The comparison sweep *)

Lemma comparison_loop_cons (start_date end_date : Z) (tickers : list string)
    (strategy : string) (rest : list string)
    (results : dict (option BacktestResult)) (stdout : list string) :
  comparison_loop start_date end_date tickers (strategy :: rest) results stdout
  = match run_backtest (init start_date end_date 10000 (Some tickers) "daily")
            (String.eqb strategy "llm") strategy "SPY" with
    | Returned (result, _) =>
        comparison_loop start_date end_date tickers rest
          (dict_set strategy result results)
          (print_backtest_report result strategy stdout)
    | Raised ex => Raised ex
    end.
Proof.
  cbn [comparison_loop]. cbv zeta.
  destruct (run_backtest _ _ _ _) as [[result e']|ex]; reflexivity.
Qed.

(** X22. [run_comparison_backtest] runs "buy_and_hold", then
    "equal_weight", then "llm" when asked, each on an engine of its own
    with daily rebalancing and a capital of 10000, the agent being used
    for "llm" only.  When it returns, the result mapping has exactly these
    strategies, in this order, each with the result of its run, and a
    report is printed for those whose result is not empty. *)
Theorem comparison_runs_each_strategy_once (start_date end_date : Z)
    (tickers : option (list string)) (include_llm : bool)
    (results : dict (option BacktestResult)) (stdout : list string) :
  run_comparison_backtest start_date end_date tickers include_llm
  = Returned (results, stdout) ->
  let universe := match tickers with
                  | None | Some [] => ["SPY"; "QQQ"; "GLD"]
                  | Some ts => ts
                  end in
  let engine := init start_date end_date 10000 (Some universe) "daily" in
  dict_keys results
  = ["buy_and_hold"; "equal_weight"] ++ (if include_llm then ["llm"] else [])
  /\ (forall strategy res,
         dict_get strategy results = Some res ->
         exists e',
           run_backtest engine (String.eqb strategy "llm") strategy "SPY"
           = Returned (res, e'))
  /\ stdout = filter (fun s => match dict_get s results with
                               | Some (Some _) => true
                               | _ => false
                               end) (dict_keys results).
Proof.
  unfold run_comparison_backtest. cbv zeta.
  set (universe := match tickers with
                   | None | Some [] => ["SPY"; "QQQ"; "GLD"]
                   | Some ts => ts
                   end).
  set (engine := init start_date end_date 10000 (Some universe) "daily").
  intro H. cbn [app] in H. rewrite !comparison_loop_cons in H. fold engine in H.
  change (String.eqb "buy_and_hold" "llm") with false in H.
  change (String.eqb "equal_weight" "llm") with false in H.
  destruct (run_backtest engine false "buy_and_hold" "SPY") as [[r1 e1]|ex] eqn:E1;
    [|discriminate].
  rewrite comparison_loop_cons in H. fold engine in H.
  change (String.eqb "equal_weight" "llm") with false in H.
  destruct (run_backtest engine false "equal_weight" "SPY") as [[r2 e2]|ex] eqn:E2;
    [|discriminate].
  destruct include_llm.
  - rewrite comparison_loop_cons in H. fold engine in H.
    change (String.eqb "llm" "llm") with true in H.
    destruct (run_backtest engine true "llm" "SPY") as [[r3 e3]|ex] eqn:E3;
      [|discriminate].
    cbn [comparison_loop] in H. injection H as <- <-.
    split; [reflexivity|]. split.
    + intros strategy res Hget. simpl in Hget.
      destruct (String.eqb strategy "buy_and_hold") eqn:Eb.
      { apply String.eqb_eq in Eb. subst. injection Hget as <-. eauto. }
      destruct (String.eqb strategy "equal_weight") eqn:Ee.
      { apply String.eqb_eq in Ee. subst. injection Hget as <-. eauto. }
      destruct (String.eqb strategy "llm") eqn:El; [|discriminate].
      apply String.eqb_eq in El. subst. injection Hget as <-. eauto.
    + destruct r1, r2, r3; reflexivity.
  - cbn [comparison_loop] in H. injection H as <- <-.
    split; [reflexivity|]. split.
    + intros strategy res Hget. simpl in Hget.
      destruct (String.eqb strategy "buy_and_hold") eqn:Eb.
      { apply String.eqb_eq in Eb. subst. injection Hget as <-. eauto. }
      destruct (String.eqb strategy "equal_weight") eqn:Ee; [|discriminate].
      apply String.eqb_eq in Ee. subst. injection Hget as <-. eauto.
    + destruct r1, r2; reflexivity.
Qed.

(** X23. The sweep has no error isolation: an exception raised by the run
    of one strategy is raised by [run_comparison_backtest], and the
    results of the strategies that ran before it are not returned. *)
Theorem comparison_propagates_failure (start_date end_date : Z)
    (tickers : option (list string)) (include_llm : bool) (ex : exn) :
  let universe := match tickers with
                  | None | Some [] => ["SPY"; "QQQ"; "GLD"]
                  | Some ts => ts
                  end in
  let engine := init start_date end_date 10000 (Some universe) "daily" in
  (run_backtest engine false "buy_and_hold" "SPY" = Raised ex ->
   run_comparison_backtest start_date end_date tickers include_llm = Raised ex)
  /\ (completes (run_backtest engine false "buy_and_hold" "SPY") ->
      run_backtest engine false "equal_weight" "SPY" = Raised ex ->
      run_comparison_backtest start_date end_date tickers include_llm = Raised ex).
Proof.
  intros universe engine. unfold run_comparison_backtest. cbv zeta.
  fold universe. cbn [app]. rewrite !comparison_loop_cons. fold engine.
  change (String.eqb "buy_and_hold" "llm") with false.
  split.
  - intros ->. reflexivity.
  - intros [[r1 e1] ->] H2. rewrite comparison_loop_cons. fold engine.
    change (String.eqb "equal_weight" "llm") with false. now rewrite H2.
Qed.

End RunFacts.

Section RunOutcomeFacts.
Context {Y : YFinance} {L : Ledger} {N : Numeric} {A : Agent}.

(** X24. [run_backtest] returns either the empty result, when no data was
    fetched, or a report over at least one trading date: with the data it
    fetches for itself the list of trading dates is never empty, so a
    returned report always has a daily result and an equity curve. *)
Theorem run_backtest_report_has_a_day (e e' : BacktestEngine) (use_llm : bool)
    (strategy benchmark : string) (r : option BacktestResult) :
  run_backtest e use_llm strategy benchmark = Returned (r, e') ->
  (r = None /\ e' = e /\ BacktestEngine_fetch_historical_data e = [])
  \/ (exists res dates,
         r = Some res
         /\ _get_trading_dates e (BacktestEngine_fetch_historical_data e)
            = Returned dates
         /\ dates <> []
         /\ res_daily_results res <> []
         /\ res_equity_curve res <> []).
Proof.
  unfold run_backtest. intro H. apply run_backtest_on_inv in H.
  destruct H as [(Hd & Hr & He)|(_ & dates & Hd & Hsim & m & res & Hm & Hres & Hr)].
  - left. auto.
  - right. exists res, dates. cbv zeta in Hd, Hsim.
    assert (Hne : dates <> []).
    { eapply (fetched_data_has_trading_dates e); [| |exact Hd]; reflexivity. }
    apply simulate_records in Hsim.
    destruct Hsim as (_ & (new & Hnew & Hdates) & _ & _).
    apply build_result_inv in Hres. destruct Hres as (Hdr & Heq & _).
    apply metrics_series_lengths_aux in Hm. destruct Hm as (Hm & _).
    assert (Hres' : results e' <> []).
    { rewrite Hnew. destruct new as [|r0 new].
      - destruct dates; [congruence|discriminate].
      - intro Habs. symmetry in Habs. exact (app_cons_not_nil _ _ _ Habs). }
    split; [exact Hr|]. split; [exact Hd|]. split; [exact Hne|].
    split; [now rewrite Hdr|].
    rewrite Heq, Hm. destruct (results e'); [congruence|discriminate].
Qed.

Lemma calculate_metrics_without_benchmark (e : BacktestEngine)
    (bench : option (list Q)) :
  _calculate_metrics e (Some [])
  = map_outcome (option_map (metrics_with_beta_alpha 0 0))
      (_calculate_metrics e bench).
Proof.
  unfold _calculate_metrics.
  destruct (results e) as [|r0 rs]; [reflexivity|].
  simpl truthy. cbn [negb]. cbv zeta.
  repeat match goal with
         | |- bind ?c _ = map_outcome _ (bind ?c _) =>
             let x := fresh "x" in
             destruct c as [x|]; cbn [bind map_outcome]; [|reflexivity];
             try (destruct x as [[? ?] ?])
         end.
  match goal with
  | |- context [beta_alpha ?r ?a bench] =>
      destruct (beta_alpha_total r a bench) as ([b0 a0] & Hba); rewrite Hba;
      change (beta_alpha r a (Some [])) with (@Returned (Q * Q) (0, 0))
  end.
  cbn [bind]. destruct (the_portfolio e); reflexivity.
Qed.

Lemma run_backtest_on_without_benchmark (e : BacktestEngine)
    (data : dict DataFrame) (use_llm : bool) (strategy benchmark other : string) :
  dict_get benchmark data = None ->
  run_backtest_on e data use_llm strategy benchmark
  = map_outcome without_comparison
      (run_backtest_on e data use_llm strategy other).
Proof.
  intro Hmiss.
  assert (Hb : forall e1, _get_benchmark_returns e1 data benchmark = []).
  { intro e1. unfold _get_benchmark_returns. now rewrite Hmiss. }
  unfold run_backtest_on. destruct (negb (truthy data)); [reflexivity|].
  cbv zeta.
  destruct (_get_trading_dates _ data) as [dates|];
    cbn [bind map_outcome]; [|reflexivity].
  destruct (simulate use_llm strategy data _ 0 dates) as [e1|];
    cbn [bind map_outcome]; [|reflexivity].
  rewrite Hb.
  rewrite (calculate_metrics_without_benchmark e1
             (Some (_get_benchmark_returns e1 data other))).
  destruct (_calculate_metrics e1 (Some (_get_benchmark_returns e1 data other)))
    as [[m|]|]; cbn [map_outcome bind option_map]; [| |reflexivity];
    unfold build_result; destruct (the_portfolio e1); reflexivity.
Qed.

(** X25. If the benchmark ticker is not among the fetched assets, its
    return series is empty, and the run is the run against any other
    benchmark with beta and alpha of the result replaced by 0: it raises
    what that run raises, returns whenever that run returns, and leaves
    the engine in the same state.  A returned report has beta and alpha
    0. *)
Theorem missing_benchmark_gives_zero_beta (e : BacktestEngine)
    (use_llm : bool) (strategy benchmark : string) :
  let data := BacktestEngine_fetch_historical_data e in
  dict_get benchmark data = None ->
  (forall e1, _get_benchmark_returns e1 data benchmark = [])
  /\ (forall other,
         run_backtest e use_llm strategy benchmark
         = map_outcome without_comparison
             (run_backtest e use_llm strategy other))
  /\ (forall other,
         completes (run_backtest e use_llm strategy other)
         -> completes (run_backtest e use_llm strategy benchmark))
  /\ (forall res e',
         run_backtest e use_llm strategy benchmark = Returned (Some res, e') ->
         res_beta res = 0 /\ res_alpha res = 0).
Proof.
  intros data Hmiss.
  assert (Heq : forall other,
             run_backtest e use_llm strategy benchmark
             = map_outcome without_comparison
                 (run_backtest e use_llm strategy other)).
  { intro other. unfold run_backtest.
    now apply run_backtest_on_without_benchmark. }
  split; [|split; [exact Heq|split]].
  - intro e1. unfold _get_benchmark_returns. fold data. now rewrite Hmiss.
  - intros other (r & Hr). rewrite (Heq other), Hr. simpl. eexists. reflexivity.
  - intros res e' H. pose proof (Heq benchmark) as Hself.
    rewrite H in Hself. simpl in Hself. injection Hself as Hres.
    rewrite Hres. auto.
Qed.

(** ** The run whose window has no trading date *)

Lemma fetch_empty_iff_no_bar (e : BacktestEngine) :
  let period := (py_str (end_date e - start_date e + 60) ++ "d")%string in
  BacktestEngine_fetch_historical_data e = [] <->
  forall t raw b,
    In t (tickers e) -> yf_history t period "1d" = Returned raw -> In b raw ->
    (bar_ts b < midnight (start_date e))%Z \/ (midnight (end_date e) < bar_ts b)%Z.
Proof.
  intro period. split.
  - intros Hd t raw b Hin Hy Hb.
    destruct (Z_lt_dec (bar_ts b) (midnight (start_date e))) as [|Hlo]; [now left|].
    destruct (Z_lt_dec (midnight (end_date e)) (bar_ts b)) as [|Hhi]; [now right|].
    exfalso.
    assert (Hcut : In b (df_between (midnight (start_date e))
                           (midnight (end_date e)) raw)).
    { unfold df_between. apply filter_In. split; [exact Hb|].
      apply andb_true_iff. split; apply Z.leb_le; lia. }
    assert (Hg : dict_get t (BacktestEngine_fetch_historical_data e)
                 = Some (df_between (midnight (start_date e))
                           (midnight (end_date e)) raw)).
    { apply engine_fetch_get. exists raw. repeat split; auto.
      intro Hnil. rewrite Hnil in Hcut. exact Hcut. }
    rewrite Hd in Hg. discriminate.
  - intro Hall. apply dict_all_none. intro t.
    destruct (dict_get t (BacktestEngine_fetch_historical_data e)) as [df|] eqn:E;
      [|reflexivity].
    apply engine_fetch_get in E. destruct E as (raw & Hin & Hy & -> & Hne).
    exfalso.
    destruct (df_between (midnight (start_date e)) (midnight (end_date e)) raw)
      as [|b cut] eqn:Ec; [congruence|].
    assert (Hb : In b (df_between (midnight (start_date e))
                         (midnight (end_date e)) raw)) by (rewrite Ec; now left).
    unfold df_between in Hb. apply filter_In in Hb. destruct Hb as [Hb Hw].
    apply andb_true_iff in Hw. destruct Hw as [Hlo Hhi].
    apply Z.leb_le in Hlo. apply Z.leb_le in Hhi.
    destruct (Hall t raw b Hin Hy Hb); lia.
Qed.

Lemma simulate_nonempty_records (use_llm : bool) (strategy : string)
    (data : dict DataFrame) (e e1 : BacktestEngine) (i d : Z) (dates : list Z) :
  simulate use_llm strategy data e i (d :: dates) = Returned e1 ->
  results e1 <> [].
Proof.
  intro H. apply simulate_records in H.
  destruct H as (_ & (new & Hnew & Hdates) & _).
  rewrite Hnew. destruct new as [|r new]; [discriminate|].
  intro Habs. symmetry in Habs. exact (app_cons_not_nil _ _ _ Habs).
Qed.

Lemma calculate_metrics_not_empty (e : BacktestEngine) (bench : option (list Q)) :
  results e <> [] -> _calculate_metrics e bench <> Returned None.
Proof.
  intros Hne H. unfold _calculate_metrics in H.
  destruct (results e) as [|r0 rs]; [congruence|].
  simpl truthy in H. cbn [negb] in H. cbv zeta in H.
  invert_bind H. discriminate.
Qed.

(** C1. A run has no trading date exactly when no requested ticker comes
    back with a bar inside the window, which is exactly when the fetch of
    [run_backtest] yields no data.  The run then short-circuits at its
    data check: it returns the empty result and leaves the engine as it
    was, so no ledger is built, no metrics are computed and nothing is
    raised.  In every other run the list of trading dates has a first
    element, the loop, if it completes, leaves a daily result behind, and
    [_calculate_metrics] does not take its empty-dictionary branch; hence
    a run that returns with no daily result recorded is the
    short-circuited one. *)
Theorem run_without_trading_dates_returns_empty (e : BacktestEngine)
    (use_llm : bool) (strategy benchmark : string) :
  let period := (py_str (end_date e - start_date e + 60) ++ "d")%string in
  let data := BacktestEngine_fetch_historical_data e in
  let e0 := set_portfolio e (portfolio_init strategy (start_date e)) in
  (data = [] <->
   forall t raw b,
     In t (tickers e) -> yf_history t period "1d" = Returned raw -> In b raw ->
     (bar_ts b < midnight (start_date e))%Z \/ (midnight (end_date e) < bar_ts b)%Z)
  /\ (data = [] ->
      run_backtest e use_llm strategy benchmark = Returned (None, e))
  /\ (data <> [] ->
      exists d dates,
        _get_trading_dates e0 data = Returned (d :: dates)
        /\ forall e1,
             simulate use_llm strategy data e0 0 (d :: dates) = Returned e1 ->
             results e1 <> []
             /\ forall bench, _calculate_metrics e1 bench <> Returned None)
  /\ (forall r e',
         run_backtest e use_llm strategy benchmark = Returned (r, e') ->
         results e' = [] -> r = None /\ e' = e /\ data = []).
Proof.
  intros period data e0. split; [apply fetch_empty_iff_no_bar|].
  split; [|split].
  - intro Hd. unfold run_backtest, run_backtest_on. fold data. now rewrite Hd.
  - intro Hne.
    destruct (_get_trading_dates e0 data) as [dates|ex] eqn:Ed.
    + assert (Hdates : dates <> []).
      { eapply (fetched_data_has_trading_dates e e0); [| |exact Ed]; reflexivity. }
      destruct dates as [|d dates]; [congruence|].
      exists d, dates. split; [reflexivity|]. intros e1 Hsim.
      apply simulate_nonempty_records in Hsim.
      split; [exact Hsim|]. intro bench. now apply calculate_metrics_not_empty.
    + exfalso. unfold _get_trading_dates in Ed.
      destruct data as [|[t df] rest]; [congruence|discriminate].
  - intros r e' H Hres. unfold run_backtest in H. apply run_backtest_on_inv in H.
    destruct H as [(Hd & Hr & He)|(_ & dates & Hd & Hsim & _)]; [auto|].
    exfalso. cbv zeta in Hd, Hsim.
    assert (Hdates : dates <> []).
    { eapply (fetched_data_has_trading_dates e); [| |exact Hd]; reflexivity. }
    destruct dates as [|d dates]; [congruence|].
    apply simulate_nonempty_records in Hsim. contradiction.
Qed.

End RunOutcomeFacts.

(* ------------------------------------------------------------------ *)
(** ** The further properties at concrete inputs                        *)
(* ------------------------------------------------------------------ *)

Lemma tickers_by_category_within_all_witness :
  exists ts,
    UniverseConfig.get_tickers_by_category (Some sample_universe) "commodity"
    = Returned ts
    /\ incl ts ["SPY"; "QQQ"; "GLD"].
Proof.
  destruct (tickers_by_category_within_all (Some sample_universe)
              ["SPY"; "QQQ"; "GLD"]) as (Hcat & _).
  - reflexivity.
  - destruct (Hcat "commodity") as (ts & Hts & Hincl & _).
    exists ts. split; assumption.
Defined.

Lemma ticker_names_cover_all_tickers_witness :
  exists all,
    UniverseConfig.get_all_tickers (Some sample_universe) = Returned all
    /\ NoDup (dict_keys [("SPY", "S&P 500"); ("QQQ", "Nasdaq 100"); ("GLD", "Gold")]).
Proof.
  destruct (ticker_names_cover_all_tickers (Some sample_universe)
              [("SPY", "S&P 500"); ("QQQ", "Nasdaq 100"); ("GLD", "Gold")])
    as (all & Hall & _ & Hnd & _).
  - reflexivity.
  - exists all. split; assumption.
Defined.

Lemma all_tickers_missing_field_raises_witness :
  UniverseConfig.get_all_tickers (Some broken_universe)
  = Raised (KeyError "ticker").
Proof.
  apply (all_tickers_missing_field_raises broken_universe "etf"
           [[("ticker", "SPY"); ("name", "S&P 500")]; [("name", "Unnamed")]]
           [("name", "Unnamed")]).
  - simpl. auto.
  - simpl. auto.
  - reflexivity.
Defined.

Lemma prices_for_date_exact_day_witness :
  dict_get "NEW" (_get_prices_for_date twenty_days (midnight 90)) = None.
Proof.
  destruct (prices_for_date_exact_day twenty_days (midnight 90) "NEW")
    as (_ & Hnone & _).
  - repeat constructor; simpl; intuition discriminate.
  - apply (Hnone (bars_from 98 [50; 51; 52])); reflexivity.
Defined.

Lemma trading_date_prices_reference_witness :
  _get_prices_for_date twenty_days (midnight 100) <> [].
Proof.
  destruct (trading_date_prices_reference
              (L := SpecLedger) (demo_engine "daily") twenty_days
              [midnight 100] (midnight 100))
    as (t0 & df0 & rest & price & _ & _ & Hne).
  - repeat constructor; simpl; intuition discriminate.
  - reflexivity.
  - simpl. auto.
  - exact Hne.
Defined.

Lemma indicators_need_twenty_bars_witness :
  dict_mem "SPY" (calculate_indicators_for_date twenty_days (midnight 100)) = true.
Proof.
  destruct (indicators_need_twenty_bars twenty_days (midnight 100) "SPY")
    as (Hmem & _).
  - repeat constructor; simpl; intuition discriminate.
  - apply Hmem. exists (bars_from 81 (repeat 100 20)).
    split; [reflexivity|]. vm_compute. constructor.
Defined.

Lemma metrics_series_lengths_witness :
  List.length (drawdown_curve sample_report) = 5%nat.
Proof.
  destruct (metrics_series_lengths (engine_with 100 sample_values)
              (Some sample_benchmark) sample_report) as (_ & H2 & H3 & _).
  - vm_compute. reflexivity.
  - rewrite H3, H2. reflexivity.
Defined.

Lemma run_appends_one_result_per_date_witness :
  List.length (res_daily_results sample_run_result) = 5%nat.
Proof.
  destruct (run_appends_one_result_per_date (demo_engine "daily")
              sample_run_engine false "buy_and_hold" "SPY" sample_run_result)
    as (dates & new & _ & _ & _ & Hdr & _).
  - vm_compute. reflexivity.
  - rewrite Hdr. reflexivity.
Defined.

Lemma benchmark_series_aligned_on_fresh_engine_witness :
  List.length
    (_get_benchmark_returns sample_run_engine
       (BacktestEngine_fetch_historical_data (demo_engine "daily")) "SPY")
  = List.length (res_daily_returns sample_run_result)
  /\ res_beta sample_run_result
     = np_cov (res_daily_returns sample_run_result)
         (_get_benchmark_returns sample_run_engine
            (BacktestEngine_fetch_historical_data (demo_engine "daily")) "SPY")
       / np_var
           (_get_benchmark_returns sample_run_engine
              (BacktestEngine_fetch_historical_data (demo_engine "daily")) "SPY").
Proof.
  destruct (benchmark_series_aligned_on_fresh_engine (demo_engine "daily")
              sample_run_engine false "buy_and_hold" "SPY" sample_run_result
              (bars_from 100 [100; 102; 101; 105; 104])
              [("QQQ", bars_from 100 [100; 99; 103; 103; 106])])
    as (_ & Hfresh & _).
  - reflexivity.
  - vm_compute. reflexivity.
  - destruct Hfresh as (Hlen & Hgate & _); [reflexivity|].
    split; [exact Hlen|].
    destruct Hgate as (Hbeta & _); [discriminate|].
    apply Hbeta. vm_compute. reflexivity.
Defined.

Lemma llm_strategy_trades_snapshot_assets_witness :
  exists e',
    _execute_llm_strategy
      (set_portfolio (demo_engine "daily") (sp_init "llm" 100)) twenty_days
      (midnight 100) three_assets = Returned e'
    /\ trace e' = [EnterLLM (midnight 100); CallGetSummary; CallBuy "SPY" 50 100].
Proof.
  destruct (llm_strategy_trades_snapshot_assets
              (set_portfolio (demo_engine "daily") (sp_init "llm" 100))
              (sp_init "llm" 100) twenty_days (midnight 100) three_assets
              [mkAction (Some "SPY") (Some "buy") (Some 50)])
    as (e' & Hrun & Ht & _).
  - reflexivity.
  - reflexivity.
  - exists e'. split; [exact Hrun|exact Ht].
Defined.

Lemma agent_failure_aborts_simulation_witness :
  simulate (A := FailingAgent) true "llm" twenty_days
    (set_portfolio (demo_engine "daily") (sp_init "llm" 100)) 0
    [midnight 100; midnight 101]
  = Raised (CollaboratorError "agent unavailable").
Proof.
  apply (agent_failure_aborts_simulation (A := FailingAgent) twenty_days
           (set_portfolio (demo_engine "daily") (sp_init "llm" 100))
           (set_portfolio (demo_engine "daily") (sp_init "llm" 100))
           (sp_init "llm" 100) 0 (midnight 100) [] [midnight 101]).
  - reflexivity.
  - reflexivity.
  - reflexivity.
  - reflexivity.
Defined.

Lemma other_strategies_never_trade_witness :
  exists e',
    simulate false "llm" twenty_days
      (set_portfolio (demo_engine "daily") (sp_init "llm" 100)) 0
      [midnight 100] = Returned e'
    /\ trace e' = idle_events twenty_days [midnight 100].
Proof.
  destruct (other_strategies_never_trade false "llm" twenty_days
              (demo_engine "daily") (sp_init "llm" 100) 0 [midnight 100])
    as (e' & Hsim & Ht & _).
  - discriminate.
  - right. reflexivity.
  - exists e'. split; [exact Hsim|exact Ht].
Defined.

Lemma simulation_has_no_lookahead_witness :
  simulate false "equal_weight" twenty_days
    (set_portfolio (demo_engine "daily") (sp_init "equal_weight" 100)) 0
    [midnight 98; midnight 99]
  = simulate false "equal_weight"
      [("SPY", bars_from 81 (repeat 100 19)); ("NEW", bars_from 98 [50; 51])]
      (set_portfolio (demo_engine "daily") (sp_init "equal_weight" 100)) 0
      [midnight 98; midnight 99].
Proof.
  apply (simulation_has_no_lookahead false "equal_weight" twenty_days
           [("SPY", bars_from 81 (repeat 100 19)); ("NEW", bars_from 98 [50; 51])]
           (midnight 99) [midnight 98; midnight 99]).
  - reflexivity.
  - repeat constructor; vm_compute; discriminate.
Defined.

Lemma win_rate_is_a_share_witness :
  0 <= win_rate sample_report /\ win_rate sample_report <= 1.
Proof.
  destruct (win_rate_is_a_share (engine_with 100 sample_values)
              (Some sample_benchmark) sample_report) as (H0 & H1 & _).
  - vm_compute. reflexivity.
  - split; assumption.
Defined.

Lemma metrics_zero_value_raises_witness :
  _calculate_metrics (engine_with 100 [100; 0; 50]) None
  = Raised ZeroDivisionError.
Proof.
  apply (metrics_zero_value_raises (engine_with 100 [100; 0; 50]) None).
  - discriminate.
  - right. simpl. apply Exists_cons_tl. apply Exists_cons_hd. reflexivity.
Defined.

Lemma never_falling_equity_report_witness :
  max_drawdown rising_report = 0 /\ omega_ratio rising_report = PosInf.
Proof.
  destruct (never_falling_equity_report (engine_with 100 rising_values) None
              rising_report) as (_ & _ & Hmdd & _ & _ & Ho & _).
  - vm_compute. reflexivity.
  - reflexivity.
  - repeat constructor; vm_compute; discriminate.
  - split; assumption.
Defined.

Lemma flat_equity_report_witness :
  total_return flat_report == 0 /\ max_drawdown flat_report = 0.
Proof.
  destruct (flat_equity_report (engine_with 100 flat_values) None flat_report)
    as (Htr & _ & _ & Hmdd).
  - vm_compute. reflexivity.
  - reflexivity.
  - repeat constructor.
  - split; assumption.
Defined.

Lemma comparison_runs_each_strategy_once_witness :
  dict_keys (fst sample_comparison) = ["buy_and_hold"; "equal_weight"].
Proof.
  destruct (comparison_runs_each_strategy_once 100 104 (Some ["SPY"]) false
              (fst sample_comparison) (snd sample_comparison)) as (Hkeys & _).
  - vm_compute. reflexivity.
  - exact Hkeys.
Defined.

Lemma run_backtest_report_has_a_day_witness :
  res_daily_results sample_run_result <> [].
Proof.
  destruct (run_backtest_report_has_a_day (demo_engine "daily") sample_run_engine
              false "buy_and_hold" "SPY" (Some sample_run_result))
    as [(Hr & _)|(res & dates & Hr & _ & _ & Hdr & _)].
  - vm_compute. reflexivity.
  - discriminate.
  - injection Hr as <-. exact Hdr.
Defined.

Lemma missing_benchmark_gives_zero_beta_witness :
  run_backtest (demo_engine "daily") false "buy_and_hold" "GLD"
  = Returned (Some (fst unbenchmarked_run), snd unbenchmarked_run)
  /\ res_beta (fst unbenchmarked_run) = 0
  /\ res_alpha (fst unbenchmarked_run) = 0.
Proof.
  destruct (missing_benchmark_gives_zero_beta (demo_engine "daily") false
              "buy_and_hold" "GLD") as (_ & _ & _ & Hzero).
  - reflexivity.
  - assert (Hrun : run_backtest (demo_engine "daily") false "buy_and_hold" "GLD"
                   = Returned (Some (fst unbenchmarked_run),
                               snd unbenchmarked_run))
      by (vm_compute; reflexivity).
    split; [exact Hrun|]. exact (Hzero _ _ Hrun).
Defined.

Lemma run_without_trading_dates_returns_empty_witness :
  run_backtest late_engine false "equal_weight" "SPY"
  = Returned (None, late_engine).
Proof.
  destruct (run_without_trading_dates_returns_empty late_engine false
              "equal_weight" "SPY") as (_ & Hrun & _).
  apply Hrun. reflexivity.
Defined.
